(** * Form dashboard: submission validation, field ordering and CSV export

    A shallow embedding of the route handlers of the form-builder
    dashboard, and the properties of its specification that concern them:

    - [src/app/api/forms/[id]/submit/route.ts]   (public submission),
    - [src/app/api/forms/[id]/fields/route.ts]   (bulk field update),
    - the single-field route (GET/PUT/DELETE of one field),
    - the two export routes (all responses, responses of one form).

    Conventions of the embedding.

    - A JavaScript string is a [string]: a sequence of one-byte code
      units.  White space is the part of the ECMAScript [WhiteSpace] and
      [LineTerminator] classes that fits in one byte.
    - A handler that reads a JSON body is a function of the body as its
      schema has parsed it ([validatedData]), of the values it reads from
      the clock and the id generator, and of the store.  Handlers that
      write return the new store with the response.
    - The export handlers read the parameters of the URL; they are
      functions of what [searchParams.get] gives for each key, and their
      schema is part of the model.
    - An exception thrown by a store call or by the handler's own code is
      caught by the handler's [catch] and becomes the 500 response; writes
      made before the throw stay, except inside [$transaction], which
      rolls back. *)

From Stdlib Require Import String Ascii ZArith List Lia Bool DecimalString.
From stdpp Require Import base option list gmap strings sorting.

Local Open Scope string_scope.
Local Open Scope list_scope.

(** String concatenation, apart from the [++] of lists. *)
Local Infix "+++" := String.append (at level 60, right associativity).

(** ** JavaScript strings *)

Module JS.

(** [WhiteSpace] and [LineTerminator] code units below 256: TAB, LF, VT,
    FF, CR, SP and NBSP.  [String.prototype.trim] and the regular
    expression class [\s] use the same set. *)
Definition isWhiteSpace (c : ascii) : bool :=
  let n := nat_of_ascii c in
  (Nat.leb 9 n && Nat.leb n 13) || Nat.eqb n 32 || Nat.eqb n 160.

Fixpoint trimStart (s : string) : string :=
  match s with
  | EmptyString => EmptyString
  | String c s' => if isWhiteSpace c then trimStart s' else s
  end.

Fixpoint trimEnd (s : string) : string :=
  match s with
  | EmptyString => EmptyString
  | String c s' =>
      match trimEnd s' with
      | EmptyString => if isWhiteSpace c then EmptyString else String c EmptyString
      | t => String c t
      end
  end.

(** [value.trim()] *)
Definition trim (s : string) : string := trimEnd (trimStart s).

(** [value.includes(sub)] *)
Fixpoint includes (s sub : string) : bool :=
  String.prefix sub s
  || match s with
     | EmptyString => false
     | String _ s' => includes s' sub
     end.

(** [value.replace(/c/g, by)] for a one-character pattern. *)
Fixpoint replaceAll (c : ascii) (by_ : string) (s : string) : string :=
  match s with
  | EmptyString => EmptyString
  | String a s' =>
      if Ascii.eqb a c then by_ +++ replaceAll c by_ s'
      else String a (replaceAll c by_ s')
  end.

(** [value.replace(/[class]/g, '')] *)
Fixpoint removeAll (p : ascii -> bool) (s : string) : string :=
  match s with
  | EmptyString => EmptyString
  | String a s' => if p a then removeAll p s' else String a (removeAll p s')
  end.

(** [value.split(c)] for a one-character separator: never empty, the
    empty string splits into one empty piece. *)
Fixpoint split (c : ascii) (s : string) : list string :=
  match s with
  | EmptyString => [EmptyString]
  | String a s' =>
      if Ascii.eqb a c then EmptyString :: split c s'
      else match split c s' with
           | h :: t => String a h :: t
           | [] => [String a EmptyString]
           end
  end.

(** [cells.join(sep)] *)
Definition join (sep : string) (cells : list string) : string :=
  String.concat sep cells.

(** [x || ''] for a nullable string. *)
Definition orEmpty (x : option string) : string :=
  match x with
  | Some s => s
  | None => EmptyString
  end.

(** Truthiness of a nullable string: [null], [undefined] and [''] are
    falsy. *)
Definition truthy (x : option string) : bool :=
  match x with
  | Some s => negb (String.eqb s EmptyString)
  | None => false
  end.

(** [String(n)] for a non-negative integer. *)
Definition ofNat (n : nat) : string :=
  NilEmpty.string_of_uint (Nat.to_uint n).

(** The order of [Array.prototype.sort()] without a comparator on
    strings: code units, lexicographically. *)
Definition str_le (a b : string) : Prop := Is_true (String.leb a b).

#[export] Instance str_le_dec a b : Decision (str_le a b).
Proof. unfold str_le. apply _. Defined.

(** [Array.from(new Set(xs)).sort()] *)
Definition sortedSet (xs : list string) : list string :=
  merge_sort str_le (remove_dups xs).

(** A [Map] with string keys filled in the order of the list, by [set]
    or by [new Map(entries)]: a later entry of a key replaces the
    earlier one. *)
Definition mapOf {V} (entries : list (string * V)) : gmap string V :=
  foldl (fun m kv => <[kv.1 := kv.2]> m) ∅ entries.

End JS.

(** ** Shared enumerations *)

Inductive FieldType :=
| SHORT_TEXT | LONG_TEXT | EMAIL | PHONE | NUMBER | URL | DATE
| DROPDOWN | RADIO | CHECKBOX | RATING | FILE_UPLOAD | SECTION.

Definition fieldTypeName (t : FieldType) : string :=
  match t with
  | SHORT_TEXT => "SHORT_TEXT" | LONG_TEXT => "LONG_TEXT" | EMAIL => "EMAIL"
  | PHONE => "PHONE" | NUMBER => "NUMBER" | URL => "URL" | DATE => "DATE"
  | DROPDOWN => "DROPDOWN" | RADIO => "RADIO" | CHECKBOX => "CHECKBOX"
  | RATING => "RATING" | FILE_UPLOAD => "FILE_UPLOAD" | SECTION => "SECTION"
  end.

#[export] Instance FieldType_eq_dec : EqDecision FieldType.
Proof. solve_decision. Defined.

Inductive FormStatus := DRAFT | PUBLISHED | FORM_ARCHIVED.

#[export] Instance FormStatus_eq_dec : EqDecision FormStatus.
Proof. solve_decision. Defined.

Inductive ResponseStatus := NEW | READ | FLAGGED | ARCHIVED.

Definition responseStatusName (s : ResponseStatus) : string :=
  match s with
  | NEW => "NEW" | READ => "READ" | FLAGGED => "FLAGGED" | ARCHIVED => "ARCHIVED"
  end.

#[export] Instance ResponseStatus_eq_dec : EqDecision ResponseStatus.
Proof. solve_decision. Defined.

(** ** The persisted models

    The Prisma schema is not among the sources.  The models below are those
    of the data model of the specification, with the columns the handlers
    select, filter on and write. *)

Module FormField.
(** Modelled from the spec: the Form Field of the schema, which is not
    among the sources. *)
Record t := {
  id : string;
  formId : string;
  type : FieldType;
  label : string;
  placeholder : option string;
  required : bool;
  options : list string;
  order : Z
}.
End FormField.

Module Settings.
(** Modelled from the spec: [form.settings as any || {}], an untyped map in
    the sources, with the two keys the submission handler reads.
    [maxSubmissions] is a positive integer or absent, [preventDuplicates]
    a boolean. *)
Record t := {
  maxSubmissions : option Z;
  preventDuplicates : bool
}.
End Settings.

Module Form.
(** Modelled from the spec: the Form of the schema, which is not among the
    sources. *)
Record t := {
  id : string;
  title : string;
  status : FormStatus;
  settings : Settings.t
}.
End Form.

Module FormResponse.
(** Modelled from the spec: the Form Response of the schema, which is not
    among the sources. *)
Record t := {
  id : string;
  formId : string;
  respondentEmail : option string;
  ipAddress : option string;
  userAgent : option string;
  status : ResponseStatus;
  submittedAt : string
}.
End FormResponse.

Module ResponseField.
(** Modelled from the spec: the Response Field Value of the schema, which
    is not among the sources. *)
Record t := {
  responseId : string;
  fieldId : string;
  value : string
}.
End ResponseField.

(** ** HTTP responses *)

Inductive Body :=
| ErrorBody (error : string)
| ErrorDetails (error : string) (details : list string)
| ErrorIssues (error : string) (details : list string)
| SubmitOk (responseId : string) (message : string) (submittedAt : string)
| MessageBody (message : string)
| FieldsBody (fields : list FormField.t).

Inductive HttpResponse :=
| Json (status : nat) (body : Body)
| Attachment (body : string) (contentType : string) (contentDisposition : string).

(** ** Export of all responses (route [/api/responses/export]) *)

(** The characters the export code names. *)
Definition comma : ascii := ascii_of_nat 44.
Definition dquote : ascii := ascii_of_nat 34.
Definition newline : ascii := ascii_of_nat 10.
Definition str (c : ascii) : string := String c EmptyString.

Inductive ExportFormat := csv | excel.
Inductive DateRangeKey := d7 | d30 | d90 | y1 | all.

Definition dateRangeName (k : DateRangeKey) : string :=
  match k with
  | d7 => "7d" | d30 => "30d" | d90 => "90d" | y1 => "1y" | all => "all"
  end.

(** The schemas of the query parameters.  The handlers read each
    parameter with [searchParams.get], which gives a string or [null], and
    pass the object of these values to a zod schema.  A schema is taken
    here by what it accepts; [ErrorIssues] carries the issues of the
    [ZodError], each by the key it is about. *)
Module Zod.

Inductive Input :=
| Undefined
| Null
| Text (s : String.string)
| Flag (b : bool).

(** The parsed value, or an issue ([None]). *)
Definition Schema (A : Type) : Type := Input -> option A.

(** [z.string()] *)
Definition string : Schema String.string :=
  fun input => match input with Text s => Some s | _ => None end.

(** [z.boolean()]: a boolean and nothing else, the strings [true] and
    [false] not either. *)
Definition boolean : Schema bool :=
  fun input => match input with Flag b => Some b | _ => None end.

(** [z.enum([...])], each name with the value it stands for. *)
Definition enum {A} (values : list (String.string * A)) : Schema A :=
  fun input =>
    match input with
    | Text s => option_map snd (find (fun entry => String.eqb (fst entry) s) values)
    | _ => None
    end.

(** [schema.optional()]: [undefined] is accepted, [null] is not. *)
Definition optional {A} (schema : Schema A) : Schema (option A) :=
  fun input =>
    match input with
    | Undefined => Some None
    | _ => option_map Some (schema input)
    end.

(** [schema.default(value)]: [value] stands in for [undefined], and for
    nothing else. *)
Definition default {A} (schema : Schema A) (value : A) : Schema A :=
  fun input =>
    match input with
    | Undefined => Some value
    | _ => schema input
    end.

(** What [searchParams.get(name)] gives. *)
Definition ofParam (value : option String.string) : Input :=
  match value with
  | Some s => Text s
  | None => Null
  end.

(** The issue of the key [path], if its schema raised one. *)
Definition issue {A} (path : String.string) (result : option A) : list String.string :=
  match result with
  | Some _ => []
  | None => [path]
  end.

End Zod.

(** A [Date] as the store returns it, by its [toISOString()]. *)
Inductive Date := DateOf (iso : string).

(** What [findMany] returns for one response with its [include]s: the
    response columns, the selected columns of its form, and its values,
    each with the selected columns of its field.  [submittedAt] is a
    [Date]: the [where] clause of the handlers bounds it by two of them.
    The export of one form does not include [form] and does not read
    it. *)
Module FieldRef.
Record t := { id : string; type : FieldType; label : string }.
End FieldRef.

Module ValueRow.
Record t := { fieldId : string; value : string; field : FieldRef.t }.
End ValueRow.

Module FormRef.
Record t := { id : string; title : string }.
End FormRef.

Module ResponseRow.
Record t := {
  id : string;
  form : FormRef.t;
  respondentEmail : option string;
  status : ResponseStatus;
  submittedAt : Date;
  ipAddress : option string;
  fields : list ValueRow.t
}.
End ResponseRow.

(** What a row of the generators holds before its final [map].  The row
    is declared [string[]], and [response.submittedAt] is pushed into it
    as the [Date] it is. *)
Inductive RowValue :=
| StringValue (s : string)
| DateValue (d : Date).

(** [new Date().toISOString().split('T')[0]] on the clock reading [now]. *)
Definition isoDay (now : string) : string :=
  hd EmptyString (JS.split (ascii_of_nat 84) now).

Definition attachmentName (stem ext : string) : string :=
  "attachment; filename=" +++ str dquote +++ stem +++ ext +++ str dquote.

(** The names the schemas give to [z.enum], each with its value. *)
Definition exportFormats : list (string * ExportFormat) :=
  [("csv", csv); ("excel", excel)].

Definition responseStatuses : list (string * ResponseStatus) :=
  [("NEW", NEW); ("READ", READ); ("FLAGGED", FLAGGED); ("ARCHIVED", ARCHIVED)].

Definition dateRanges : list (string * DateRangeKey) :=
  [("7d", d7); ("30d", d30); ("90d", d90); ("1y", y1); ("all", all)].

Module ResponsesExport.

Record ExportQuery := {
  format : ExportFormat;
  formId : option string;
  status : option ResponseStatus;
  dateRange : DateRangeKey;
  search : option string;
  includeMetadata : bool;
  fieldDelimiter : string
}.

(** The object handed to the schema: for each key what
    [searchParams.get] gives, the value of the parameter or [null]. *)
Record SearchParams := {
  formatParam : option string;
  formIdParam : option string;
  statusParam : option string;
  dateRangeParam : option string;
  searchParam : option string;
  includeMetadataParam : option string;
  fieldDelimiterParam : option string
}.

(** [exportQuerySchema.parse({ ... })]: the parsed query, or the issues of
    the [ZodError] it throws, one for each key that is refused. *)
Definition exportQuerySchema (searchParams : SearchParams) : list string + ExportQuery :=
  let format :=
    Zod.default (Zod.enum exportFormats) csv (Zod.ofParam (formatParam searchParams)) in
  let formId := Zod.optional Zod.string (Zod.ofParam (formIdParam searchParams)) in
  let status :=
    Zod.optional (Zod.enum responseStatuses) (Zod.ofParam (statusParam searchParams)) in
  let dateRange :=
    Zod.default (Zod.enum dateRanges) d30 (Zod.ofParam (dateRangeParam searchParams)) in
  let search := Zod.optional Zod.string (Zod.ofParam (searchParam searchParams)) in
  let includeMetadata :=
    Zod.default Zod.boolean true (Zod.ofParam (includeMetadataParam searchParams)) in
  let fieldDelimiter :=
    Zod.default Zod.string (str comma) (Zod.ofParam (fieldDelimiterParam searchParams)) in
  match format, formId, status, dateRange, search, includeMetadata, fieldDelimiter with
  | Some format, Some formId, Some status, Some dateRange, Some search,
    Some includeMetadata, Some fieldDelimiter =>
      inr {| format := format; formId := formId; status := status;
             dateRange := dateRange; search := search;
             includeMetadata := includeMetadata; fieldDelimiter := fieldDelimiter |}
  | _, _, _, _, _, _, _ =>
      inl (Zod.issue "format" format ++ Zod.issue "formId" formId
           ++ Zod.issue "status" status ++ Zod.issue "dateRange" dateRange
           ++ Zod.issue "search" search ++ Zod.issue "includeMetadata" includeMetadata
           ++ Zod.issue "fieldDelimiter" fieldDelimiter)
  end.

Definition escapeCsvValue (value : string) : string :=
  if JS.includes value (str comma) || JS.includes value (str dquote)
     || JS.includes value (str newline)
  then str dquote +++ JS.replaceAll dquote (String dquote (str dquote)) value +++ str dquote
  else value.

(** [escapeCsvValue(value)] as the final [map] of a row calls it, on
    whatever the row holds: a [Date] has no method [includes], and the
    call throws ([None]). *)
Definition escapeRowValue (value : RowValue) : option string :=
  match value with
  | StringValue s => Some (escapeCsvValue s)
  | DateValue _ => None
  end.

Definition metadataHeaders : list string :=
  ["Response ID"; "Form ID"; "Form Title"; "Respondent Email"; "Status";
   "Submitted At"; "IP Address"].

Definition metadataCells (response : ResponseRow.t) : list RowValue :=
  [StringValue (ResponseRow.id response);
   StringValue (FormRef.id (ResponseRow.form response));
   StringValue (FormRef.title (ResponseRow.form response));
   StringValue (JS.orEmpty (ResponseRow.respondentEmail response));
   StringValue (responseStatusName (ResponseRow.status response));
   DateValue (ResponseRow.submittedAt response);
   StringValue (JS.orEmpty (ResponseRow.ipAddress response))].

(** [Array.from(fieldLabels).sort()] *)
Definition sortedFieldLabels (responses : list ResponseRow.t) : list string :=
  JS.sortedSet
    (flat_map (fun response =>
                 map (fun f => FieldRef.label (ValueRow.field f))
                     (ResponseRow.fields response))
              responses).

Definition fieldValueMap (response : ResponseRow.t) : gmap string string :=
  JS.mapOf (map (fun f => (FieldRef.label (ValueRow.field f), ValueRow.value f))
                (ResponseRow.fields response)).

(** What [row] holds before the final [map]: the metadata as pushed, the
    field values already escaped. *)
Definition rowCells (includeMetadata : bool) (labels : list string)
    (response : ResponseRow.t) : list RowValue :=
  (if includeMetadata then metadataCells response else [])
  ++ map (fun l => StringValue (escapeCsvValue (JS.orEmpty (fieldValueMap response !! l))))
         labels.

(** [row.map(value => escapeCsvValue(value)).join(delimiter)]; throws
    ([None]) when one of the calls does. *)
Definition csvRow (includeMetadata : bool) (delimiter : string)
    (labels : list string) (response : ResponseRow.t) : option string :=
  option_map (JS.join delimiter)
             (mapM escapeRowValue (rowCells includeMetadata labels response)).

Definition csvHeaders (includeMetadata : bool) (labels : list string) : list string :=
  (if includeMetadata then metadataHeaders else []) ++ labels.

(** [generateCsv]; throws ([None]) when the row of a response does. *)
Definition generateCsv (responses : list ResponseRow.t) (includeMetadata : bool)
    (delimiter : string) : option string :=
  match responses with
  | [] => Some EmptyString
  | _ =>
      let labels := sortedFieldLabels responses in
      option_map
        (fun rows =>
           JS.join (str newline)
             (JS.join delimiter (map escapeCsvValue (csvHeaders includeMetadata labels))
              :: rows))
        (mapM (csvRow includeMetadata delimiter labels) responses)
  end.

(** Lines 116-143 of [GET], on the result [responses] of [findMany];
    [None] when [generateCsv] throws. *)
Definition respond (queryData : ExportQuery) (now : string)
    (responses : list ResponseRow.t) : option HttpResponse :=
  match responses with
  | [] => Some (Json 404 (ErrorBody "No responses found for the specified criteria"))
  | _ =>
      match format queryData with
      | csv =>
          option_map
            (fun csvContent =>
               Attachment csvContent "text/csv"
                          (attachmentName ("responses-" +++ isoDay now) ".csv"))
            (generateCsv responses (includeMetadata queryData) (fieldDelimiter queryData))
      | excel =>
          option_map
            (fun excelContent =>
               Attachment excelContent "application/vnd.ms-excel"
                          (attachmentName ("responses-" +++ isoDay now) ".xlsx"))
            (generateCsv responses (includeMetadata queryData) (str comma))
      end
  end.

(** [GET].  [findMany] is the read of lines 94-114, by the parsed query
    its [where] clause is built from; [now] is the reading of the clock
    for the file name.  A [ZodError] is answered 400, anything else that
    is thrown 500. *)
Definition GET (searchParams : SearchParams) (now : string)
    (findMany : ExportQuery -> list ResponseRow.t) : HttpResponse :=
  match exportQuerySchema searchParams with
  | inl issues => Json 400 (ErrorIssues "Invalid export parameters" issues)
  | inr queryData =>
      match respond queryData now (findMany queryData) with
      | Some response => response
      | None => Json 500 (ErrorBody "Failed to export responses")
      end
  end.

End ResponsesExport.

(** ** Export of the responses of one form
       (route [/api/forms/[id]/responses/export]) *)

Module FormResponsesExport.

Record ExportQuery := {
  format : ExportFormat;
  status : option ResponseStatus;
  dateRange : DateRangeKey;
  search : option string;
  includeMetadata : bool;
  fieldDelimiter : string;
  includeFieldTypes : bool
}.

Record SearchParams := {
  formatParam : option string;
  statusParam : option string;
  dateRangeParam : option string;
  searchParam : option string;
  includeMetadataParam : option string;
  fieldDelimiterParam : option string;
  includeFieldTypesParam : option string
}.

(** [formExportQuerySchema.parse({ ... })] *)
Definition formExportQuerySchema (searchParams : SearchParams)
    : list string + ExportQuery :=
  let format :=
    Zod.default (Zod.enum exportFormats) csv (Zod.ofParam (formatParam searchParams)) in
  let status :=
    Zod.optional (Zod.enum responseStatuses) (Zod.ofParam (statusParam searchParams)) in
  let dateRange :=
    Zod.default (Zod.enum dateRanges) d30 (Zod.ofParam (dateRangeParam searchParams)) in
  let search := Zod.optional Zod.string (Zod.ofParam (searchParam searchParams)) in
  let includeMetadata :=
    Zod.default Zod.boolean true (Zod.ofParam (includeMetadataParam searchParams)) in
  let fieldDelimiter :=
    Zod.default Zod.string (str comma) (Zod.ofParam (fieldDelimiterParam searchParams)) in
  let includeFieldTypes :=
    Zod.default Zod.boolean false (Zod.ofParam (includeFieldTypesParam searchParams)) in
  match format, status, dateRange, search, includeMetadata, fieldDelimiter,
        includeFieldTypes with
  | Some format, Some status, Some dateRange, Some search, Some includeMetadata,
    Some fieldDelimiter, Some includeFieldTypes =>
      inr {| format := format; status := status; dateRange := dateRange;
             search := search; includeMetadata := includeMetadata;
             fieldDelimiter := fieldDelimiter; includeFieldTypes := includeFieldTypes |}
  | _, _, _, _, _, _, _ =>
      inl (Zod.issue "format" format ++ Zod.issue "status" status
           ++ Zod.issue "dateRange" dateRange ++ Zod.issue "search" search
           ++ Zod.issue "includeMetadata" includeMetadata
           ++ Zod.issue "fieldDelimiter" fieldDelimiter
           ++ Zod.issue "includeFieldTypes" includeFieldTypes)
  end.

(** [{ ...queryData, fieldDelimiter: ',' }] *)
Definition withDelimiter (q : ExportQuery) (d : string) : ExportQuery :=
  {| format := format q; status := status q; dateRange := dateRange q;
     search := search q; includeMetadata := includeMetadata q;
     fieldDelimiter := d; includeFieldTypes := includeFieldTypes q |}.

Definition escapeCsvValue (value : string) : string :=
  if JS.includes value (str comma) || JS.includes value (str dquote)
     || JS.includes value (str newline)
  then str dquote +++ JS.replaceAll dquote (String dquote (str dquote)) value +++ str dquote
  else value.

(** [escapeCsvValue(value)] on whatever the row holds; throws ([None]) on
    a [Date]. *)
Definition escapeRowValue (value : RowValue) : option string :=
  match value with
  | StringValue s => Some (escapeCsvValue s)
  | DateValue _ => None
  end.

Definition metadataHeaders : list string :=
  ["Response ID"; "Respondent Email"; "Status"; "Submitted At"; "IP Address"].

Definition metadataCells (response : ResponseRow.t) : list RowValue :=
  [StringValue (ResponseRow.id response);
   StringValue (JS.orEmpty (ResponseRow.respondentEmail response));
   StringValue (responseStatusName (ResponseRow.status response));
   DateValue (ResponseRow.submittedAt response);
   StringValue (JS.orEmpty (ResponseRow.ipAddress response))].

Definition fieldHeader (options : ExportQuery) (field : FormField.t) : string :=
  if includeFieldTypes options
  then FormField.label field +++ " (" +++ fieldTypeName (FormField.type field) +++ ")"
  else FormField.label field.

Definition csvHeaders (options : ExportQuery) (formFields : list FormField.t)
    : list string :=
  (if includeMetadata options then metadataHeaders else [])
  ++ map (fieldHeader options) formFields.

Definition fieldValueMap (response : ResponseRow.t) : gmap string string :=
  JS.mapOf (map (fun f => (ValueRow.fieldId f, ValueRow.value f))
                (ResponseRow.fields response)).

Definition rowCells (options : ExportQuery) (formFields : list FormField.t)
    (response : ResponseRow.t) : list RowValue :=
  (if includeMetadata options then metadataCells response else [])
  ++ map (fun field =>
            StringValue
              (escapeCsvValue (JS.orEmpty (fieldValueMap response !! FormField.id field))))
         formFields.

Definition csvRow (options : ExportQuery) (formFields : list FormField.t)
    (response : ResponseRow.t) : option string :=
  option_map (JS.join (fieldDelimiter options))
             (mapM escapeRowValue (rowCells options formFields response)).

(** [exportDate] is the reading [new Date().toISOString()] of line 234. *)
Definition summaryRows (responses : list ResponseRow.t) (options : ExportQuery)
    (formTitle exportDate : string) : list string :=
  ["Form: " +++ formTitle;
   "Export Date: " +++ exportDate;
   "Total Responses: " +++ JS.ofNat (length responses);
   "Date Range: " +++ dateRangeName (dateRange options);
   EmptyString].

(** [generateFormCsv]; throws ([None]) when the row of a response does. *)
Definition generateFormCsv (responses : list ResponseRow.t)
    (formFields : list FormField.t) (options : ExportQuery)
    (formTitle exportDate : string) : option string :=
  match responses with
  | [] => Some EmptyString
  | _ =>
      option_map
        (fun rows =>
           JS.join (str newline)
             (map (fun row => "# " +++ row)
                  (summaryRows responses options formTitle exportDate)
              ++ JS.join (fieldDelimiter options)
                         (map escapeCsvValue (csvHeaders options formFields))
              :: rows))
        (mapM (csvRow options formFields) responses)
  end.

Definition isAlnum (c : ascii) : bool :=
  let n := nat_of_ascii c in
  (Nat.leb 48 n && Nat.leb n 57) || (Nat.leb 65 n && Nat.leb n 90)
  || (Nat.leb 97 n && Nat.leb n 122).

(** [s.replace(/\s+/g, '_')]: [inRun] tells that the previous character
    was white space, already replaced. *)
Fixpoint underscoreRuns (inRun : bool) (s : string) : string :=
  match s with
  | EmptyString => EmptyString
  | String c s' =>
      if JS.isWhiteSpace c
      then if inRun then underscoreRuns true s'
           else String (ascii_of_nat 95) (underscoreRuns true s')
      else String c (underscoreRuns false s')
  end.

(** [form.title.replace(/[^a-zA-Z0-9\s]/g, '').replace(/\s+/g, '_')] *)
Definition fileStem (title : string) : string :=
  underscoreRuns false
    (JS.removeAll (fun c => negb (isAlnum c || JS.isWhiteSpace c)) title).

(** Lines 81-160 of [GET], on the results of its two reads: [form] is
    what [findUnique] returns with the fields of the form in ascending
    [order], [responses] what [findMany] returns; [None] when
    [generateFormCsv] throws. *)
Definition respond (queryData : ExportQuery) (now exportDate : string)
    (form : option (Form.t * list FormField.t))
    (responses : list ResponseRow.t) : option HttpResponse :=
  match form with
  | None => Some (Json 404 (ErrorBody "Form not found"))
  | Some (form, formFields) =>
      match responses with
      | [] => Some (Json 404 (ErrorBody "No responses found for this form"))
      | _ =>
          let formTitle := fileStem (Form.title form) in
          let timestamp := isoDay now in
          match format queryData with
          | csv =>
              option_map
                (fun csvContent =>
                   Attachment csvContent "text/csv"
                     (attachmentName (formTitle +++ "_responses_" +++ timestamp) ".csv"))
                (generateFormCsv responses formFields queryData (Form.title form)
                                 exportDate)
          | excel =>
              option_map
                (fun excelContent =>
                   Attachment excelContent "application/vnd.ms-excel"
                     (attachmentName (formTitle +++ "_responses_" +++ timestamp) ".xlsx"))
                (generateFormCsv responses formFields
                                 (withDelimiter queryData (str comma))
                                 (Form.title form) exportDate)
          end
      end
  end.

(** [GET].  [findMany] is the read of lines 111-128, by the parsed query
    its [where] clause is built from.  A [ZodError] is answered 400,
    anything else that is thrown 500. *)
Definition GET (searchParams : SearchParams) (now exportDate : string)
    (form : option (Form.t * list FormField.t))
    (findMany : ExportQuery -> list ResponseRow.t) : HttpResponse :=
  match formExportQuerySchema searchParams with
  | inl issues => Json 400 (ErrorIssues "Invalid export parameters" issues)
  | inr queryData =>
      match respond queryData now exportDate form (findMany queryData) with
      | Some response => response
      | None => Json 500 (ErrorBody "Failed to export form responses")
      end
  end.

End FormResponsesExport.

(** ** Regular expressions

    The two patterns of [fieldValidators] are anchored at both ends and
    use classes, concatenation, options and bounded repetition only; they
    are matched by derivatives. *)

Module Regex.

Inductive t :=
| Never
| Eps
| Class (p : ascii -> bool)
| Seq (r1 r2 : t)
| Alt (r1 r2 : t)
| Star (r : t).

Fixpoint nullable (r : t) : bool :=
  match r with
  | Never => false
  | Eps => true
  | Class _ => false
  | Seq r1 r2 => nullable r1 && nullable r2
  | Alt r1 r2 => nullable r1 || nullable r2
  | Star _ => true
  end.

Fixpoint deriv (c : ascii) (r : t) : t :=
  match r with
  | Never => Never
  | Eps => Never
  | Class p => if p c then Eps else Never
  | Seq r1 r2 =>
      if nullable r1 then Alt (Seq (deriv c r1) r2) (deriv c r2)
      else Seq (deriv c r1) r2
  | Alt r1 r2 => Alt (deriv c r1) (deriv c r2)
  | Star r1 => Seq (deriv c r1) (Star r1)
  end.

(** [/^r$/.test(s)] *)
Fixpoint test (r : t) (s : string) : bool :=
  match s with
  | EmptyString => nullable r
  | String c s' => test (deriv c r) s'
  end.

Definition char (c : ascii) : t := Class (Ascii.eqb c).
Definition plus (r : t) : t := Seq r (Star r).
Definition opt (r : t) : t := Alt Eps r.

(** [r{0,n}] *)
Fixpoint upTo (n : nat) (r : t) : t :=
  match n with
  | O => Eps
  | S n' => opt (Seq r (upTo n' r))
  end.

Definition inRange (lo hi : nat) (c : ascii) : bool :=
  Nat.leb lo (nat_of_ascii c) && Nat.leb (nat_of_ascii c) hi.

(** [\d] *)
Definition digit : t := Class (inRange 48 57).

End Regex.

(** ** The conversion [Number(value)]

    ECMAScript's StringToNumber: white space is stripped at both ends; the
    empty string is zero; the rest must be a StrNumericLiteral, that is a
    signed decimal literal (with [Infinity] as one of them) or an unsigned
    hexadecimal, octal or binary integer literal; anything else is NaN.
    A literal is kept as its mathematical value [mantissa * 10 ^ exponent];
    its rounding to a double is the platform's and is not modelled. *)

Module Num.

Inductive t :=
| NaN
| Infinity (negative : bool)
| Literal (negative : bool) (mantissa : N) (exponent : Z).

Definition isNaN (x : t) : bool :=
  match x with
  | NaN => true
  | _ => false
  end.

Definition isInfinite (x : t) : bool :=
  match x with
  | Infinity _ => true
  | _ => false
  end.

Definition digitValue (base : N) (c : ascii) : option N :=
  let n := N_of_ascii c in
  let v := if N.leb 48 n && N.leb n 57 then Some (n - 48)%N
           else if N.leb 97 n && N.leb n 102 then Some (n - 87)%N
           else if N.leb 65 n && N.leb n 70 then Some (n - 55)%N
           else None in
  match v with
  | Some d => if N.ltb d base then Some d else None
  | None => None
  end.

(** The longest prefix of digits in [base], as its value and its
    length, with the rest of the string. *)
Fixpoint digits (base : N) (acc : N) (len : nat) (s : string) : N * nat * string :=
  match s with
  | EmptyString => (acc, len, s)
  | String c s' =>
      match digitValue base c with
      | Some d => digits base (acc * base + d)%N (S len) s'
      | None => (acc, len, s)
      end
  end.

(** An integer literal in [base] that fills the whole string. *)
Definition wholeInteger (base : N) (s : string) : t :=
  match digits base 0%N 0 s with
  | (v, S _, EmptyString) => Literal false v 0
  | _ => NaN
  end.

(** ExponentPart, optional, up to the end of the string: the exponent,
    or [None] when the rest is no exponent part. *)
Definition exponentPart (s : string) : option Z :=
  match s with
  | EmptyString => Some 0%Z
  | String c s' =>
      if Ascii.eqb c "e" || Ascii.eqb c "E" then
        let '(neg, body) :=
          match s' with
          | String sg s'' =>
              if Ascii.eqb sg "-" then (true, s'')
              else if Ascii.eqb sg "+" then (false, s'')
              else (false, s')
          | EmptyString => (false, s')
          end in
        match digits 10 0%N 0 body with
        | (v, S _, EmptyString) => Some (if neg then (- Z.of_N v)%Z else Z.of_N v)
        | _ => None
        end
      else None
  end.

(** StrUnsignedDecimalLiteral *)
Definition unsignedDecimal (negative : bool) (s : string) : t :=
  if String.eqb s "Infinity" then Infinity negative
  else
    let '(ip, ilen, r1) := digits 10 0%N 0 s in
    let '(m, flen, r2) :=
      match r1 with
      | String c r =>
          if Ascii.eqb c "." then digits 10 ip 0 r else (ip, 0, r1)
      | EmptyString => (ip, 0, r1)
      end in
    match ilen + flen with
    | O => NaN
    | S _ =>
        match exponentPart r2 with
        | Some e => Literal negative m (e - Z.of_nat flen)
        | None => NaN
        end
    end.

Definition strNumericLiteral (s : string) : t :=
  match s with
  | String c0 (String c1 r) =>
      if Ascii.eqb c0 "0" && (Ascii.eqb c1 "x" || Ascii.eqb c1 "X") then wholeInteger 16 r
      else if Ascii.eqb c0 "0" && (Ascii.eqb c1 "o" || Ascii.eqb c1 "O") then wholeInteger 8 r
      else if Ascii.eqb c0 "0" && (Ascii.eqb c1 "b" || Ascii.eqb c1 "B") then wholeInteger 2 r
      else if Ascii.eqb c0 "+" then unsignedDecimal false (String c1 r)
      else if Ascii.eqb c0 "-" then unsignedDecimal true (String c1 r)
      else unsignedDecimal false s
  | _ => unsignedDecimal false s
  end.

(** [Number(value)] *)
Definition Number (value : string) : t :=
  match JS.trim value with
  | EmptyString => Literal false 0 0
  | s => strNumericLiteral s
  end.

End Num.

(** ** The store

    The store is the external relational store behind [db]; its schema is
    not among the sources.  Tables are lists of rows in insertion order.
    [id] is the primary key of each model.  [ResponseField.fieldId]
    references [FormField.id]: the export routes read the relation as
    [field], and the deletion of a field relies on the cascade to the
    values recorded for it.  [ResponseField.responseId] references
    [FormResponse.id]. *)

Module Db.

(** Modelled from the spec: the four tables of the store, whose schema is
    not among the sources. *)

Record t := {
  form : list Form.t;
  formField : list FormField.t;
  formResponse : list FormResponse.t;
  responseField : list ResponseField.t
}.

(** Primary keys are unique. *)
Definition wellFormed (db : t) : Prop :=
  NoDup (map Form.id (form db))
  /\ NoDup (map FormField.id (formField db))
  /\ NoDup (map FormResponse.id (formResponse db)).

Definition fieldOrderLe (a b : FormField.t) : Prop :=
  (FormField.order a <= FormField.order b)%Z.

#[export] Instance fieldOrderLe_dec a b : Decision (fieldOrderLe a b).
Proof. unfold fieldOrderLe. apply _. Defined.

(** [db.form.findUnique({ where: { id } })] *)
Definition findForm (db : t) (id : string) : option Form.t :=
  find (fun f => String.eqb (Form.id f) id) (form db).

(** [db.formField.findMany({ where: { formId }, orderBy: { order: 'asc' } })],
    also the [include: { fields: { orderBy: { order: 'asc' } } }] of a form. *)
Definition fieldsOfForm (db : t) (formId : string) : list FormField.t :=
  merge_sort fieldOrderLe
    (filter (fun f => FormField.formId f = formId) (formField db)).

(** [db.formField.findUnique({ where: { id, formId } })] *)
Definition findField (db : t) (id formId : string) : option FormField.t :=
  find (fun f => String.eqb (FormField.id f) id
                 && String.eqb (FormField.formId f) formId)
       (formField db).

(** [db.formResponse.count({ where: { formId } })] *)
Definition countResponses (db : t) (formId : string) : Z :=
  Z.of_nat (length (filter (fun r => FormResponse.formId r = formId) (formResponse db))).

(** [db.formResponse.findFirst({ where: { formId, respondentEmail } })] *)
Definition findFirstResponse (db : t) (formId email : string) : option FormResponse.t :=
  find (fun r => String.eqb (FormResponse.formId r) formId
                 && bool_decide (FormResponse.respondentEmail r = Some email))
       (formResponse db).

(** [db.formResponse.create({ data })], with the generated columns in
    [row] already. *)
Definition createResponse (db : t) (row : FormResponse.t) : t :=
  {| form := form db; formField := formField db;
     formResponse := formResponse db ++ [row];
     responseField := responseField db |}.

(** [db.responseField.createMany({ data })]: throws ([None]) when a row
    references a field or a response that does not exist, and then
    writes none of the rows. *)
Definition createManyResponseFields (db : t) (rows : list ResponseField.t) : option t :=
  if forallb (fun row =>
                bool_decide (ResponseField.fieldId row ∈ map FormField.id (formField db))
                && bool_decide (ResponseField.responseId row
                                  ∈ map FormResponse.id (formResponse db)))
             rows
  then Some {| form := form db; formField := formField db;
               formResponse := formResponse db;
               responseField := responseField db ++ rows |}
  else None.

(** [db.formField.update({ where: { id }, data: { order } })]: throws
    ([None]) when no row has this id. *)
Definition setOrder (f : FormField.t) (order : Z) : FormField.t :=
  {| FormField.id := FormField.id f; FormField.formId := FormField.formId f;
     FormField.type := FormField.type f; FormField.label := FormField.label f;
     FormField.placeholder := FormField.placeholder f;
     FormField.required := FormField.required f;
     FormField.options := FormField.options f; FormField.order := order |}.

Definition withFormFields (db : t) (rows : list FormField.t) : t :=
  {| form := form db; formField := rows;
     formResponse := formResponse db; responseField := responseField db |}.

Definition updateFieldOrder (db : t) (id : string) (order : Z) : option t :=
  if bool_decide (id ∈ map FormField.id (formField db))
  then Some (withFormFields db
               (map (fun f => if String.eqb (FormField.id f) id then setOrder f order else f)
                    (formField db)))
  else None.

(** [db.$transaction(updates)] for a list of order updates: they run in
    order; if one throws, none is applied and the transaction throws. *)
Fixpoint transaction (db : t) (updates : list (string * Z)) : option t :=
  match updates with
  | [] => Some db
  | (id, order) :: rest =>
      match updateFieldOrder db id order with
      | Some db' => transaction db' rest
      | None => None
      end
  end.

(** [db.formField.delete({ where: { id } })]; cascades to the values
    recorded for the field. *)
Definition deleteField (db : t) (id : string) : t :=
  {| form := form db;
     formField := filter (fun f => FormField.id f <> id) (formField db);
     formResponse := formResponse db;
     responseField := filter (fun v => ResponseField.fieldId v <> id) (responseField db) |}.

(** [db.formField.create({ data })], with the generated [id] in [row]
    already. *)
Definition createField (db : t) (row : FormField.t) : t :=
  withFormFields db (formField db ++ [row]).

(** The [data] of an update of one field: the columns that are present
    are written, the others are kept. *)
Record FieldPatch := {
  newLabel : option string;
  newPlaceholder : option string;
  newRequired : option bool;
  newOptions : option (list string);
  newOrder : option Z
}.

Definition patchField (patch : FieldPatch) (f : FormField.t) : FormField.t :=
  {| FormField.id := FormField.id f; FormField.formId := FormField.formId f;
     FormField.type := FormField.type f;
     FormField.label := from_option (fun x => x) (FormField.label f) (newLabel patch);
     FormField.placeholder :=
       match newPlaceholder patch with
       | Some text => Some text
       | None => FormField.placeholder f
       end;
     FormField.required :=
       from_option (fun x => x) (FormField.required f) (newRequired patch);
     FormField.options := from_option (fun x => x) (FormField.options f) (newOptions patch);
     FormField.order := from_option (fun x => x) (FormField.order f) (newOrder patch) |}.

(** [db.formField.update({ where: { id }, data })]: the new store and the
    updated row; throws ([None]) when no row has this id. *)
Definition updateField (db : t) (id : string) (patch : FieldPatch)
    : option (t * FormField.t) :=
  match find (fun f => String.eqb (FormField.id f) id) (formField db) with
  | Some row =>
      Some (withFormFields db
              (map (fun f => if String.eqb (FormField.id f) id then patchField patch f else f)
                   (formField db)),
            patchField patch row)
  | None => None
  end.

End Db.

(** ** Public submission (route [/api/forms/[id]/submit]) *)

(** What three validators ask of the platform: whether [new URL(value)]
    returns, whether [Date.parse(value)] is a number, and whether the
    double [Number(value)] lies in the closed range of 1 to 5. *)
Record Platform := {
  newURL : string -> bool;
  dateParse : string -> bool;
  from1to5 : string -> bool
}.

Module Submit.

Record SubmittedField := { fieldId : string; value : string }.

(** [validatedData], the parsed body. *)
Record Submission := {
  respondentEmail : option string;
  fields : list SubmittedField
}.

(** What the handler reads off the request besides the body, and the
    columns the store generates for the new response. *)
Record Request := {
  xForwardedFor : option string;
  xRealIp : option string;
  ip : option string;
  userAgentHeader : option string;
  newResponseId : string;
  now : string
}.

(** [a || b] on nullable strings. *)
Definition orElse (a b : option string) : option string :=
  if JS.truthy a then a else b.

Definition clientIP (request : Request) : string :=
  JS.orEmpty (orElse (xForwardedFor request)
                (orElse (xRealIp request) (orElse (ip request) (Some "unknown")))).

Definition userAgent (request : Request) : string :=
  JS.orEmpty (orElse (userAgentHeader request) (Some "unknown")).

Definition nonBlank (value : string) : bool :=
  negb (String.eqb (JS.trim value) EmptyString).

Section Validators.

Context (platform : Platform).

(** [/^[^\s@]+@[^\s@]+\.[^\s@]+$/] *)
Definition emailPattern : Regex.t :=
  let word := Regex.plus (Regex.Class (fun c => negb (JS.isWhiteSpace c || Ascii.eqb c "@"))) in
  Regex.Seq word (Regex.Seq (Regex.char "@")
    (Regex.Seq word (Regex.Seq (Regex.char ".") word))).

(** [/^[\+]?[1-9][\d]{0,15}$/] *)
Definition phonePattern : Regex.t :=
  Regex.Seq (Regex.opt (Regex.char "+"))
    (Regex.Seq (Regex.Class (Regex.inRange 49 57)) (Regex.upTo 15 Regex.digit)).

(** [/[\s\-\(\)]/] *)
Definition phoneNoise (c : ascii) : bool :=
  JS.isWhiteSpace c || Ascii.eqb c "-" || Ascii.eqb c "(" || Ascii.eqb c ")".

(** [fieldValidators[type]] *)
Definition fieldValidators (type : FieldType) (value : string) : bool :=
  match type with
  | SHORT_TEXT => Nat.ltb 0 (String.length (JS.trim value))
  | LONG_TEXT => Nat.ltb 0 (String.length (JS.trim value))
  | EMAIL => Regex.test emailPattern value
  | PHONE => Regex.test phonePattern (JS.removeAll phoneNoise value)
  | NUMBER => negb (Num.isNaN (Num.Number value)) && nonBlank value
  | URL => newURL platform value
  | DATE => dateParse platform value
  | DROPDOWN => nonBlank value
  | RADIO => nonBlank value
  | CHECKBOX => nonBlank value
  | RATING => negb (Num.isNaN (Num.Number value)) && from1to5 platform value
  | FILE_UPLOAD => nonBlank value
  | SECTION => true
  end.

Definition requiredMessage (field : FormField.t) : string :=
  "Field " +++ str dquote +++ FormField.label field +++ str dquote +++ " is required".

Definition invalidDataMessage (field : FormField.t) : string :=
  "Field " +++ str dquote +++ FormField.label field +++ str dquote
  +++ " contains invalid data".

Definition invalidOptionMessage (field : FormField.t) (value : string) : string :=
  "Field " +++ str dquote +++ FormField.label field +++ str dquote
  +++ " contains invalid option: " +++ value.

(** The first loop: one pass over [requiredFields]. *)
Definition requiredErrors (formFields : list FormField.t)
    (submitted : list SubmittedField) : list string :=
  flat_map
    (fun field =>
       match find (fun f => String.eqb (fieldId f) (FormField.id field)) submitted with
       | None => [requiredMessage field]
       | Some submittedField =>
           if String.eqb (JS.trim (value submittedField)) EmptyString
           then [requiredMessage field]
           else []
       end)
    (List.filter FormField.required formFields).

Definition hasOptions (type : FieldType) : bool :=
  match type with
  | DROPDOWN | RADIO | CHECKBOX => true
  | _ => false
  end.

(** The inner loop over [submittedValues]: the first token that is not
    empty and not among the options, if any. *)
Definition firstInvalidOption (validOptions : list string) (value : string)
    : option string :=
  find (fun v => negb (String.eqb v EmptyString) && negb (bool_decide (v ∈ validOptions)))
       (map JS.trim (JS.split comma value)).

(** The body of the second loop for one submitted entry. *)
Definition entryErrors (fieldMap : gmap string FormField.t)
    (submittedField : SubmittedField) : list string :=
  match fieldMap !! fieldId submittedField with
  | None => []
  | Some field =>
      (if nonBlank (value submittedField)
          && negb (fieldValidators (FormField.type field) (value submittedField))
       then [invalidDataMessage field] else [])
      ++ (if hasOptions (FormField.type field)
             && Nat.ltb 0 (length (FormField.options field))
          then match firstInvalidOption (FormField.options field) (value submittedField) with
               | Some v => [invalidOptionMessage field v]
               | None => []
               end
          else [])
  end.

(** [validationErrors] when the two loops are done. *)
Definition validationErrors (formFields : list FormField.t)
    (submitted : list SubmittedField) : list string :=
  requiredErrors formFields submitted
  ++ flat_map (entryErrors (JS.mapOf (map (fun f => (FormField.id f, f)) formFields)))
              submitted.

(** [settings.maxSubmissions && settings.maxSubmissions > 0] and the
    count that follows it. *)
Definition limitReached (db : Db.t) (id : string) (form : Form.t) : bool :=
  match Settings.maxSubmissions (Form.settings form) with
  | Some maxSubmissions =>
      negb (Z.eqb maxSubmissions 0) && Z.ltb 0 maxSubmissions
      && Z.leb maxSubmissions (Db.countResponses db id)
  | None => false
  end.

(** [settings.preventDuplicates && validatedData.respondentEmail] and
    the [findFirst] that follows it. *)
Definition isDuplicate (db : Db.t) (id : string) (form : Form.t) (data : Submission)
    : bool :=
  Settings.preventDuplicates (Form.settings form)
  && JS.truthy (respondentEmail data)
  && bool_decide (is_Some (Db.findFirstResponse db id
                             (JS.orEmpty (respondentEmail data)))).

Definition newResponse (formId : string) (data : Submission) (request : Request)
    : FormResponse.t :=
  {| FormResponse.id := newResponseId request;
     FormResponse.formId := formId;
     FormResponse.respondentEmail :=
       if JS.truthy (respondentEmail data) then respondentEmail data else None;
     FormResponse.ipAddress := Some (clientIP request);
     FormResponse.userAgent := Some (userAgent request);
     FormResponse.status := NEW;
     FormResponse.submittedAt := now request |}.

Definition responseFieldsData (responseId : string) (submitted : list SubmittedField)
    : list ResponseField.t :=
  map (fun f => {| ResponseField.responseId := responseId;
                   ResponseField.fieldId := fieldId f;
                   ResponseField.value := value f |})
      (List.filter (fun f => nonBlank (value f)) submitted).

Definition serverError : HttpResponse :=
  Json 500 (ErrorBody "Failed to submit form. Please try again later.").

(** [POST], from the parsed body on. *)
Definition POST (db : Db.t) (id : string) (request : Request)
    (validatedData : Submission) : HttpResponse * Db.t :=
  match Db.findForm db id with
  | None => (Json 404 (ErrorBody "Form not found"), db)
  | Some form =>
      if negb (bool_decide (Form.status form = PUBLISHED))
      then (Json 400 (ErrorBody "Form is not accepting submissions at this time"), db)
      else if limitReached db id form
      then (Json 400 (ErrorBody "This form has reached its submission limit"), db)
      else
        let validationErrors :=
          validationErrors (Db.fieldsOfForm db id) (fields validatedData) in
        if Nat.ltb 0 (length validationErrors)
        then (Json 400 (ErrorDetails "Validation failed" validationErrors), db)
        else if isDuplicate db id form validatedData
        then (Json 400 (ErrorBody "You have already submitted this form"), db)
        else
          let response := newResponse id validatedData request in
          let db1 := Db.createResponse db response in
          let rows := responseFieldsData (FormResponse.id response)
                                         (fields validatedData) in
          match rows with
          | [] =>
              (Json 201 (SubmitOk (FormResponse.id response)
                                  "Form submitted successfully"
                                  (FormResponse.submittedAt response)), db1)
          | _ =>
              match Db.createManyResponseFields db1 rows with
              | Some db2 =>
                  (Json 201 (SubmitOk (FormResponse.id response)
                                      "Form submitted successfully"
                                      (FormResponse.submittedAt response)), db2)
              | None => (serverError, db1)
              end
          end
  end.

End Validators.

End Submit.

(** ** Bulk update of the fields of a form (route [/api/forms/[id]/fields]) *)

(** The answers of the handlers that return one field as JSON. *)
Inductive FieldResponse :=
| FieldJson (status : nat) (field : FormField.t)
| Plain (response : HttpResponse).

(** [fieldTypesWithOptions], the same list in both field routes. *)
Definition fieldTypesWithOptions : list FieldType := [DROPDOWN; RADIO; CHECKBOX].

Module Fields.

(** One element of the [fields] array of the body, with the two
    properties the handler reads. *)
Record FieldOrder := { id : string; order : Z }.

(** [PUT]; [fields] is [None] when the body's [fields] is not an array. *)
Definition PUT (db : Db.t) (formId : string) (fields : option (list FieldOrder))
    : HttpResponse * Db.t :=
  match fields with
  | None => (Json 400 (ErrorBody "Fields must be an array"), db)
  | Some fields =>
      match Db.findForm db formId with
      | None => (Json 404 (ErrorBody "Form not found"), db)
      | Some _ =>
          match Db.transaction db (map (fun field => (id field, order field)) fields) with
          | Some db' => (Json 200 (FieldsBody (Db.fieldsOfForm db' formId)), db')
          | None => (Json 500 (ErrorBody "Failed to update form fields"), db)
          end
      end
  end.

(** [GET]: the fields of the form in ascending order. *)
Definition GET (db : Db.t) (formId : string) : HttpResponse :=
  match Db.findForm db formId with
  | None => Json 404 (ErrorBody "Form not found")
  | Some _ => Json 200 (FieldsBody (Db.fieldsOfForm db formId))
  end.

(** The body of [POST] as [createFieldSchema] gives it; [required] has
    its default already. *)
Record NewField := {
  type : FieldType;
  label : string;
  placeholder : option string;
  required : bool;
  options : option (list string);
  newOrder : Z
}.

(** [!validatedData.options || validatedData.options.length === 0] *)
Definition noOptions (options : option (list string)) : bool :=
  match options with
  | Some (_ :: _) => false
  | _ => true
  end.

(** The row [create] writes; [newId] is the id the store generates, and a
    list of options that is not given is stored empty. *)
Definition newRow (formId newId : string) (validatedData : NewField) : FormField.t :=
  {| FormField.id := newId; FormField.formId := formId;
     FormField.type := type validatedData; FormField.label := label validatedData;
     FormField.placeholder := placeholder validatedData;
     FormField.required := required validatedData;
     FormField.options := default [] (options validatedData);
     FormField.order := newOrder validatedData |}.

(** [POST], from the parsed body on. *)
Definition POST (db : Db.t) (formId newId : string) (validatedData : NewField)
    : FieldResponse * Db.t :=
  match Db.findForm db formId with
  | None => (Plain (Json 404 (ErrorBody "Form not found")), db)
  | Some _ =>
      if bool_decide (type validatedData ∈ fieldTypesWithOptions)
         && noOptions (options validatedData)
      then (Plain (Json 400 (ErrorBody "Options are required for this field type")), db)
      else
        let field := newRow formId newId validatedData in
        (FieldJson 201 field, Db.createField db field)
  end.

End Fields.

(** ** One field of a form (route [/api/forms/[id]/fields/[fieldId]]) *)

Module Field.

(** [remainingFields.map((field, index) => update(field.id, index))] *)
Definition renumbering (remainingFields : list FormField.t) : list (string * Z) :=
  imap (fun index field => (FormField.id field, Z.of_nat index)) remainingFields.

Definition DELETE (db : Db.t) (formId fieldId : string) : HttpResponse * Db.t :=
  match Db.findField db fieldId formId with
  | None => (Json 404 (ErrorBody "Field not found"), db)
  | Some _ =>
      let db1 := Db.deleteField db fieldId in
      let remainingFields := Db.fieldsOfForm db1 formId in
      match Db.transaction db1 (renumbering remainingFields) with
      | Some db2 => (Json 200 (MessageBody "Field deleted successfully"), db2)
      | None => (Json 500 (ErrorBody "Failed to delete form field"), db1)
      end
  end.

Definition GET (db : Db.t) (formId fieldId : string) : FieldResponse :=
  match Db.findField db fieldId formId with
  | None => Plain (Json 404 (ErrorBody "Field not found"))
  | Some field => FieldJson 200 field
  end.

(** [validatedData.options !== undefined && ... &&
    validatedData.options.length === 0] *)
Definition emptiesOptions (existingField : FormField.t) (validatedData : Db.FieldPatch)
    : bool :=
  match Db.newOptions validatedData with
  | Some [] => bool_decide (FormField.type existingField ∈ fieldTypesWithOptions)
  | _ => false
  end.

(** [PUT], from the parsed body on. *)
Definition PUT (db : Db.t) (formId fieldId : string) (validatedData : Db.FieldPatch)
    : FieldResponse * Db.t :=
  match Db.findField db fieldId formId with
  | None => (Plain (Json 404 (ErrorBody "Field not found")), db)
  | Some existingField =>
      if emptiesOptions existingField validatedData
      then (Plain (Json 400 (ErrorBody "Options are required for this field type")), db)
      else
        match Db.updateField db fieldId validatedData with
        | Some (db', field) => (FieldJson 200 field, db')
        | None => (Plain (Json 500 (ErrorBody "Failed to update form field")), db)
        end
  end.

End Field.

(** ** Reading a delimited row back

    The reader the round-trip property of the specification speaks of: it
    splits a row at the delimiter, except inside a quoted cell, where a
    doubled quote stands for one quote and a single quote ends the
    quoting.  It is not part of the sources.  [splitRow] reads one row,
    [records] a document of rows. *)

Module CsvReader.

Inductive Mode :=
| CellStart   (* at the first character of a cell *)
| Bare        (* inside a cell that did not open with a quote *)
| Quoted      (* inside a quoted cell *)
| QuoteSeen.  (* inside a quoted cell, just after a quote *)

(** Puts [c] in front of the cell being read. *)
Definition push (c : ascii) (cells : list string) : list string :=
  match cells with
  | cell :: rest => String c cell :: rest
  | [] => [str c]
  end.

Fixpoint cellsFrom (delimiter : ascii) (mode : Mode) (row : string) : list string :=
  match row with
  | EmptyString => [EmptyString]
  | String c row' =>
      match mode with
      | CellStart =>
          if Ascii.eqb c dquote then cellsFrom delimiter Quoted row'
          else if Ascii.eqb c delimiter then EmptyString :: cellsFrom delimiter CellStart row'
          else push c (cellsFrom delimiter Bare row')
      | Bare =>
          if Ascii.eqb c delimiter then EmptyString :: cellsFrom delimiter CellStart row'
          else push c (cellsFrom delimiter Bare row')
      | Quoted =>
          if Ascii.eqb c dquote then cellsFrom delimiter QuoteSeen row'
          else push c (cellsFrom delimiter Quoted row')
      | QuoteSeen =>
          if Ascii.eqb c dquote then push dquote (cellsFrom delimiter Quoted row')
          else if Ascii.eqb c delimiter then EmptyString :: cellsFrom delimiter CellStart row'
          else push c (cellsFrom delimiter Bare row')
      end
  end.

Definition splitRow (delimiter : ascii) (row : string) : list string :=
  cellsFrom delimiter CellStart row.

(** A whole document is read in the same way, and a newline outside
    quotes ends the row.  [withCell] puts a cell in front of the row being
    read, [pushChar] a character in front of the cell being read. *)
Definition withCell (cell : string) (rows : list (list string)) : list (list string) :=
  match rows with
  | row :: rest => (cell :: row) :: rest
  | [] => [[cell]]
  end.

Definition pushChar (c : ascii) (rows : list (list string)) : list (list string) :=
  match rows with
  | (cell :: row) :: rest => (String c cell :: row) :: rest
  | [] :: rest => [str c] :: rest
  | [] => [[str c]]
  end.

Fixpoint rowsFrom (delimiter : ascii) (mode : Mode) (document : string)
    : list (list string) :=
  match document with
  | EmptyString => [[EmptyString]]
  | String c document' =>
      match mode with
      | CellStart =>
          if Ascii.eqb c dquote then rowsFrom delimiter Quoted document'
          else if Ascii.eqb c delimiter
          then withCell EmptyString (rowsFrom delimiter CellStart document')
          else if Ascii.eqb c newline
          then [EmptyString] :: rowsFrom delimiter CellStart document'
          else pushChar c (rowsFrom delimiter Bare document')
      | Bare =>
          if Ascii.eqb c delimiter
          then withCell EmptyString (rowsFrom delimiter CellStart document')
          else if Ascii.eqb c newline
          then [EmptyString] :: rowsFrom delimiter CellStart document'
          else pushChar c (rowsFrom delimiter Bare document')
      | Quoted =>
          if Ascii.eqb c dquote then rowsFrom delimiter QuoteSeen document'
          else pushChar c (rowsFrom delimiter Quoted document')
      | QuoteSeen =>
          if Ascii.eqb c dquote then pushChar dquote (rowsFrom delimiter Quoted document')
          else if Ascii.eqb c delimiter
          then withCell EmptyString (rowsFrom delimiter CellStart document')
          else if Ascii.eqb c newline
          then [EmptyString] :: rowsFrom delimiter CellStart document'
          else pushChar c (rowsFrom delimiter Bare document')
      end
  end.

Definition records (delimiter : ascii) (document : string) : list (list string) :=
  rowsFrom delimiter CellStart document.

End CsvReader.

(** * Auxiliary definitions

    Predicates and functions the statements below are written with, and
    the stores, requests and responses of the examples. *)

Fixpoint containsChar (c : ascii) (s : string) : bool :=
  match s with
  | EmptyString => false
  | String a s' => Ascii.eqb a c || containsChar c s'
  end.

(** The test of [escapeCsvValue], character by character. *)
Definition needsQuoting (v : string) : bool :=
  containsChar comma v || containsChar dquote v || containsChar newline v.

(** [v] between quotes, its own quotes doubled. *)
Definition quoted (v : string) : string :=
  str dquote +++ JS.replaceAll dquote (String dquote (str dquote)) v +++ str dquote.

(** What follows a cell in a row: nothing, or a comma and more cells. *)
Definition cellsAfter (rest : string) : list string :=
  match rest with
  | EmptyString => []
  | String _ r => CsvReader.cellsFrom comma CsvReader.CellStart r
  end.

(** [rest] is the end of the row or starts with a comma. *)
Definition endsCell (rest : string) : Prop :=
  rest = EmptyString \/ exists r, rest = String comma r.

(** The value [Says "hi", bye] of the specification. *)
Definition saysHi : string :=
  "Says " +++ str dquote +++ "hi" +++ str dquote +++ ", bye".

(** A response of the form [F] with one value, as [findMany] returns it. *)
Definition valueOnly (fieldId label value : string) : ResponseRow.t :=
  {| ResponseRow.id := "r1";
     ResponseRow.form := {| FormRef.id := "F"; FormRef.title := "Survey" |};
     ResponseRow.respondentEmail := None;
     ResponseRow.status := NEW;
     ResponseRow.submittedAt := DateOf "2024-01-15T10:30:00.000Z";
     ResponseRow.ipAddress := None;
     ResponseRow.fields :=
       [{| ValueRow.fieldId := fieldId; ValueRow.value := value;
           ValueRow.field := {| FieldRef.id := fieldId; FieldRef.type := SHORT_TEXT;
                                FieldRef.label := label |} |}] |}.

(** A field of the form [F], without options. *)
Definition fieldOf (id label : string) (type : FieldType) (required : bool) (order : Z)
    : FormField.t :=
  {| FormField.id := id; FormField.formId := "F"; FormField.type := type;
     FormField.label := label; FormField.placeholder := None;
     FormField.required := required; FormField.options := []; FormField.order := order |}.

(** The field labelled [Plan] of the scenarios of the specification. *)
Definition planField : FormField.t :=
  {| FormField.id := "plan-field"; FormField.formId := "F"; FormField.type := DROPDOWN;
     FormField.label := "Plan"; FormField.placeholder := None;
     FormField.required := false; FormField.options := ["Basic"; "Pro"];
     FormField.order := 1 |}.

(** A query for the export of one form as csv, without metadata. *)
Definition formQuery (delimiter : string) : FormResponsesExport.ExportQuery :=
  {| FormResponsesExport.format := csv;
     FormResponsesExport.status := None;
     FormResponsesExport.dateRange := all;
     FormResponsesExport.search := None;
     FormResponsesExport.includeMetadata := false;
     FormResponsesExport.fieldDelimiter := delimiter;
     FormResponsesExport.includeFieldTypes := false |}.

(** The query [q] with the format [csv] and the comma as delimiter. *)
Definition asCsv (q : ResponsesExport.ExportQuery) : ResponsesExport.ExportQuery :=
  {| ResponsesExport.format := csv;
     ResponsesExport.formId := ResponsesExport.formId q;
     ResponsesExport.status := ResponsesExport.status q;
     ResponsesExport.dateRange := ResponsesExport.dateRange q;
     ResponsesExport.search := ResponsesExport.search q;
     ResponsesExport.includeMetadata := ResponsesExport.includeMetadata q;
     ResponsesExport.fieldDelimiter := str comma |}.

Definition formAsCsv (q : FormResponsesExport.ExportQuery) : FormResponsesExport.ExportQuery :=
  {| FormResponsesExport.format := csv;
     FormResponsesExport.status := FormResponsesExport.status q;
     FormResponsesExport.dateRange := FormResponsesExport.dateRange q;
     FormResponsesExport.search := FormResponsesExport.search q;
     FormResponsesExport.includeMetadata := FormResponsesExport.includeMetadata q;
     FormResponsesExport.fieldDelimiter := str comma;
     FormResponsesExport.includeFieldTypes := FormResponsesExport.includeFieldTypes q |}.

(** What the schemas of the two export routes would give for a request
    without parameters, if they took [null] for [undefined]: the
    defaults. *)
Definition metadataQuery : ResponsesExport.ExportQuery :=
  {| ResponsesExport.format := csv;
     ResponsesExport.formId := None;
     ResponsesExport.status := None;
     ResponsesExport.dateRange := d30;
     ResponsesExport.search := None;
     ResponsesExport.includeMetadata := true;
     ResponsesExport.fieldDelimiter := str comma |}.

Definition formMetadataQuery : FormResponsesExport.ExportQuery :=
  {| FormResponsesExport.format := csv;
     FormResponsesExport.status := None;
     FormResponsesExport.dateRange := d30;
     FormResponsesExport.search := None;
     FormResponsesExport.includeMetadata := true;
     FormResponsesExport.fieldDelimiter := str comma;
     FormResponsesExport.includeFieldTypes := false |}.

(** The parameters [p] with [format] set to [name]. *)
Definition selecting (name : string) (p : ResponsesExport.SearchParams)
    : ResponsesExport.SearchParams :=
  {| ResponsesExport.formatParam := Some name;
     ResponsesExport.formIdParam := ResponsesExport.formIdParam p;
     ResponsesExport.statusParam := ResponsesExport.statusParam p;
     ResponsesExport.dateRangeParam := ResponsesExport.dateRangeParam p;
     ResponsesExport.searchParam := ResponsesExport.searchParam p;
     ResponsesExport.includeMetadataParam := ResponsesExport.includeMetadataParam p;
     ResponsesExport.fieldDelimiterParam := ResponsesExport.fieldDelimiterParam p |}.

Definition formSelecting (name : string) (p : FormResponsesExport.SearchParams)
    : FormResponsesExport.SearchParams :=
  {| FormResponsesExport.formatParam := Some name;
     FormResponsesExport.statusParam := FormResponsesExport.statusParam p;
     FormResponsesExport.dateRangeParam := FormResponsesExport.dateRangeParam p;
     FormResponsesExport.searchParam := FormResponsesExport.searchParam p;
     FormResponsesExport.includeMetadataParam := FormResponsesExport.includeMetadataParam p;
     FormResponsesExport.fieldDelimiterParam := FormResponsesExport.fieldDelimiterParam p;
     FormResponsesExport.includeFieldTypesParam :=
       FormResponsesExport.includeFieldTypesParam p |}.






(** The value of a response for a label, and for a field of its form. *)
Definition valueAt (response : ResponseRow.t) (label : string) : string :=
  JS.orEmpty (ResponsesExport.fieldValueMap response !! label).

Definition valueOf (response : ResponseRow.t) (field : FormField.t) : string :=
  JS.orEmpty (FormResponsesExport.fieldValueMap response !! FormField.id field).





(** The examples below have no field of type URL, DATE or RATING, so what
    the platform answers is never asked; this one answers no throughout. *)
Definition noParsers : Platform :=
  {| newURL := fun _ => false; dateParse := fun _ => false; from1to5 := fun _ => false |}.

(** A request from [10.0.0.1]; the store will name the response [r2]. *)
Definition exampleRequest : Submit.Request :=
  {| Submit.xForwardedFor := None;
     Submit.xRealIp := Some "10.0.0.1";
     Submit.ip := None;
     Submit.userAgentHeader := None;
     Submit.newResponseId := "r2";
     Submit.now := "2024-01-15T10:30:00.000Z" |}.

(** The published form [F]. *)
Definition publishedForm (maxSubmissions : option Z) (preventDuplicates : bool) : Form.t :=
  {| Form.id := "F"; Form.title := "Survey"; Form.status := PUBLISHED;
     Form.settings := {| Settings.maxSubmissions := maxSubmissions;
                         Settings.preventDuplicates := preventDuplicates |} |}.

(** A response to [F] from [a@b.com], stored earlier. *)
Definition earlierResponse : FormResponse.t :=
  {| FormResponse.id := "r1"; FormResponse.formId := "F";
     FormResponse.respondentEmail := Some "a@b.com";
     FormResponse.ipAddress := Some "10.0.0.7";
     FormResponse.userAgent := Some "unknown";
     FormResponse.status := NEW;
     FormResponse.submittedAt := "2024-01-14T09:15:00.000Z" |}.

Definition entry (fieldId value : string) : Submit.SubmittedField :=
  {| Submit.fieldId := fieldId; Submit.value := value |}.

Definition submission (email : option string) (entries : list Submit.SubmittedField)
    : Submit.Submission :=
  {| Submit.respondentEmail := email; Submit.fields := entries |}.

(** The text [Field "label" is required]. *)
Definition isRequiredMessage (label : string) : string :=
  "Field " +++ str dquote +++ label +++ str dquote +++ " is required".

(** A form whose only field is a required section. *)
Definition sectionDb : Db.t :=
  {| Db.form := [publishedForm None false];
     Db.formField := [fieldOf "intro" "Intro" SECTION true 0];
     Db.formResponse := [];
     Db.responseField := [] |}.

(** A form that prevents duplicates, with a required text field and one
    response from [a@b.com] already. *)
Definition duplicateDb : Db.t :=
  {| Db.form := [publishedForm None true];
     Db.formField := [fieldOf "name" "Name" SHORT_TEXT true 0];
     Db.formResponse := [earlierResponse];
     Db.responseField := [] |}.

(** A form limited to one submission, which it has. *)
Definition fullDb : Db.t :=
  {| Db.form := [publishedForm (Some 1%Z) false];
     Db.formField := [fieldOf "name" "Name" SHORT_TEXT true 0];
     Db.formResponse := [earlierResponse];
     Db.responseField := [] |}.

(** A form with one optional text field. *)
Definition plainDb : Db.t :=
  {| Db.form := [publishedForm None false];
     Db.formField := [fieldOf "name" "Name" SHORT_TEXT false 0];
     Db.formResponse := [];
     Db.responseField := [] |}.

(** The form of the scenarios of the specification: a required email
    field and a dropdown with the options Basic and Pro. *)
Definition scenarioDb : Db.t :=
  {| Db.form := [publishedForm None false];
     Db.formField := [fieldOf "email-field" "Email" EMAIL true 0; planField];
     Db.formResponse := [];
     Db.responseField := [] |}.

(** What a list of order updates, run in order, makes of one row. *)
Definition applyUpdate (f : FormField.t) (update : string * Z) : FormField.t :=
  if String.eqb (FormField.id f) update.1 then Db.setOrder f update.2 else f.

(** All of them, from the first to the last. *)
Definition applyAll (updates : list (string * Z)) (f : FormField.t) : FormField.t :=
  foldl applyUpdate f updates.

(** A form with three fields in order. *)
Definition orderedDb : Db.t :=
  {| Db.form := [publishedForm None false];
     Db.formField := [fieldOf "a" "First" SHORT_TEXT false 0;
                      fieldOf "b" "Second" SHORT_TEXT false 1;
                      fieldOf "c" "Third" SHORT_TEXT false 2];
     Db.formResponse := [];
     Db.responseField := [] |}.

Definition fieldOrder (id : string) (order : Z) : Fields.FieldOrder :=
  {| Fields.id := id; Fields.order := order |}.

(** What it is for a string to match a regular expression. *)
Inductive Matches : Regex.t -> string -> Prop :=
| MatchesEps : Matches Regex.Eps EmptyString
| MatchesClass p c : p c = true -> Matches (Regex.Class p) (str c)
| MatchesSeq r1 r2 s1 s2 :
    Matches r1 s1 -> Matches r2 s2 -> Matches (Regex.Seq r1 r2) (s1 +++ s2)
| MatchesAltL r1 r2 s : Matches r1 s -> Matches (Regex.Alt r1 r2) s
| MatchesAltR r1 r2 s : Matches r2 s -> Matches (Regex.Alt r1 r2) s
| MatchesStarNil r : Matches (Regex.Star r) EmptyString
| MatchesStarApp r s1 s2 :
    Matches r s1 -> Matches (Regex.Star r) s2 -> Matches (Regex.Star r) (s1 +++ s2).

(** Every character of [s] satisfies [p]. *)
Fixpoint allChars (p : ascii -> bool) (s : string) : bool :=
  match s with
  | EmptyString => true
  | String c s' => p c && allChars p s'
  end.

(** A part of an address: not empty, without white space and without [@]. *)
Definition isWord (s : string) : bool :=
  negb (String.eqb s EmptyString)
  && allChars (fun c => negb (JS.isWhiteSpace c || Ascii.eqb c "@")) s.

(** The status of an answer; an attachment is sent with 200. *)
Definition statusCode (r : HttpResponse) : nat :=
  match r with
  | Json status _ => status
  | Attachment _ _ _ => 200
  end.

(** The entry names one of the fields. *)
Definition namesFieldOf (formFields : list FormField.t) (e : Submit.SubmittedField) : bool :=
  bool_decide (Submit.fieldId e ∈ map FormField.id formFields).


(** The store after an accepted submission. *)
Definition afterSubmission (db : Db.t) (id : string) (request : Submit.Request)
    (data : Submit.Submission) : Db.t :=
  {| Db.form := Db.form db;
     Db.formField := Db.formField db;
     Db.formResponse := Db.formResponse db ++ [Submit.newResponse id data request];
     Db.responseField :=
       Db.responseField db
       ++ Submit.responseFieldsData (Submit.newResponseId request) (Submit.fields data) |}.

(** The conditions under which a submission is accepted and written: the
    form is there, published and under its limit, the validation finds no
    error, the submission is no duplicate, and the values that are not
    blank are for stored fields. *)
Definition passesAllChecks (platform : Platform) (db : Db.t) (id : string)
    (data : Submit.Submission) (form : Form.t) : Prop :=
  Db.findForm db id = Some form
  /\ Form.status form = PUBLISHED
  /\ Submit.limitReached db id form = false
  /\ Submit.validationErrors platform (Db.fieldsOfForm db id) (Submit.fields data) = []
  /\ Submit.isDuplicate db id form data = false
  /\ (forall e, In e (Submit.fields data) -> Submit.nonBlank (Submit.value e) = true ->
                In (Submit.fieldId e) (map FormField.id (Db.formField db))).

(** Every stored field of a type with options has at least one. *)
Definition choicesHaveOptions (db : Db.t) : Prop :=
  forall f, In f (Db.formField db) ->
            In (FormField.type f) fieldTypesWithOptions -> FormField.options f <> [].

(** A field without regard to its order value. *)
Definition anyOrder (f : FormField.t) : FormField.t := Db.setOrder f 0.

(** A good answer to the form of the scenarios. *)
Definition goodEntries : list Submit.SubmittedField :=
  [entry "email-field" "a@b.com"; entry "plan-field" "Pro"].

(** A form limited to two submissions, which has one. *)
Definition lastPlaceDb : Db.t :=
  {| Db.form := [publishedForm (Some 2%Z) false];
     Db.formField := [fieldOf "name" "Name" SHORT_TEXT true 0];
     Db.formResponse := [earlierResponse];
     Db.responseField := [] |}.

(** A later request from [10.0.0.1]; the store will name the response [r3]. *)
Definition laterRequest : Submit.Request :=
  {| Submit.xForwardedFor := None;
     Submit.xRealIp := Some "10.0.0.1";
     Submit.ip := None;
     Submit.userAgentHeader := None;
     Submit.newResponseId := "r3";
     Submit.now := "2024-01-15T10:31:00.000Z" |}.

(** The body of an update that gives a field another label and nothing
    else. *)
Definition relabel (label : string) : Db.FieldPatch :=
  {| Db.newLabel := Some label; Db.newPlaceholder := None; Db.newRequired := None;
     Db.newOptions := None; Db.newOrder := None |}.

(** The body of the creation of a dropdown with two options. *)
Definition sizeField : Fields.NewField :=
  {| Fields.type := DROPDOWN; Fields.label := "Size"; Fields.placeholder := None;
     Fields.required := false; Fields.options := Some ["S"; "M"];
     Fields.newOrder := 1 |}.

(** * Properties *)

(** ** Escaping and reading back *)

Lemma includes_char c s : JS.includes s (str c) = containsChar c s.
Proof.
  induction s as [|a s IH]; simpl; [reflexivity|].
  rewrite IH. destruct (ascii_dec c a) as [->|Hne].
  - rewrite Ascii.eqb_refl. destruct s; reflexivity.
  - assert (Ascii.eqb a c = false) as -> by (apply Ascii.eqb_neq; congruence).
    reflexivity.
Qed.

(** The two export routes carry the same escaping function. *)
Lemma escapeCsvValue_same v :
  FormResponsesExport.escapeCsvValue v = ResponsesExport.escapeCsvValue v.
Proof. reflexivity. Qed.

Lemma escapeCsvValue_unfold v :
  ResponsesExport.escapeCsvValue v = if needsQuoting v then quoted v else v.
Proof.
  unfold ResponsesExport.escapeCsvValue, needsQuoting, quoted.
  now rewrite !includes_char.
Qed.

Lemma cellsFrom_end mode rest :
  endsCell rest -> mode <> CsvReader.Quoted ->
  CsvReader.cellsFrom comma mode rest = EmptyString :: cellsAfter rest.
Proof.
  intros [->|[r ->]] Hm; [reflexivity|].
  destruct mode; try congruence; reflexivity.
Qed.

Lemma cellsFrom_bare v rest :
  containsChar comma v = false -> endsCell rest ->
  CsvReader.cellsFrom comma CsvReader.Bare (v +++ rest) = v :: cellsAfter rest.
Proof.
  intros Hv Hrest. induction v as [|a v IH]; simpl.
  - now apply cellsFrom_end.
  - simpl in Hv. apply orb_false_iff in Hv as [Ha Hv].
    rewrite Ha, (IH Hv). reflexivity.
Qed.

Lemma cellsFrom_start_bare v rest :
  containsChar comma v = false -> containsChar dquote v = false -> endsCell rest ->
  CsvReader.cellsFrom comma CsvReader.CellStart (v +++ rest) = v :: cellsAfter rest.
Proof.
  intros Hc Hq Hrest. destruct v as [|a v]; simpl.
  - now apply cellsFrom_end.
  - simpl in Hc, Hq.
    apply orb_false_iff in Hc as [Hc1 Hc2]. apply orb_false_iff in Hq as [Hq1 Hq2].
    rewrite Hq1, Hc1, (cellsFrom_bare v rest Hc2 Hrest). reflexivity.
Qed.

Lemma cellsFrom_quoted v rest :
  endsCell rest ->
  CsvReader.cellsFrom comma CsvReader.Quoted
    (JS.replaceAll dquote (String dquote (str dquote)) v +++ str dquote +++ rest)
  = v :: cellsAfter rest.
Proof.
  intros Hrest. induction v as [|a v IH]; simpl.
  - now apply cellsFrom_end.
  - destruct (Ascii.eqb a dquote) eqn:Ha; simpl.
    + apply Ascii.eqb_eq in Ha as ->.
      change (EmptyString +++ ?x) with x. rewrite IH. reflexivity.
    + rewrite Ha, IH. reflexivity.
Qed.

Lemma append_cons x (a b : string) : String x a +++ b = String x (a +++ b).
Proof. reflexivity. Qed.

Lemma append_assoc (a b c : string) : (a +++ b) +++ c = a +++ b +++ c.
Proof.
  induction a as [|x a IH]; [reflexivity|].
  now rewrite !append_cons, IH.
Qed.

Lemma append_empty_r (a : string) : a +++ EmptyString = a.
Proof.
  induction a as [|x a IH]; [reflexivity|].
  now rewrite append_cons, IH.
Qed.

(** A cell escaped once is read back as it was. *)
Lemma cellsFrom_escaped v rest :
  endsCell rest ->
  CsvReader.cellsFrom comma CsvReader.CellStart (ResponsesExport.escapeCsvValue v +++ rest)
  = v :: cellsAfter rest.
Proof.
  intros Hrest. rewrite escapeCsvValue_unfold.
  destruct (needsQuoting v) eqn:Hq.
  - unfold quoted. rewrite !append_assoc. simpl. now apply cellsFrom_quoted.
  - unfold needsQuoting in Hq.
    apply orb_false_iff in Hq as [Hq _]. apply orb_false_iff in Hq as [Hc Hd].
    now apply cellsFrom_start_bare.
Qed.

(** Rows whose cells are escaped once and joined by a comma are read back
    cell for cell: this is the round trip for the metadata cells when the
    delimiter is the comma. *)
Lemma splitRow_escaped_once cells :
  cells <> [] ->
  CsvReader.splitRow comma (JS.join (str comma) (map ResponsesExport.escapeCsvValue cells))
  = cells.
Proof.
  unfold CsvReader.splitRow, JS.join.
  induction cells as [|c cells IH]; [congruence|]. intros _.
  destruct cells as [|c2 cells].
  - simpl. rewrite <- (append_empty_r (ResponsesExport.escapeCsvValue c)).
    rewrite cellsFrom_escaped; [reflexivity|now left].
  - change (String.concat (str comma) (map ResponsesExport.escapeCsvValue (c :: c2 :: cells)))
      with (ResponsesExport.escapeCsvValue c
            +++ String comma (String.concat (str comma)
                                (map ResponsesExport.escapeCsvValue (c2 :: cells)))).
    rewrite cellsFrom_escaped by (right; eauto). cbv [cellsAfter].
    rewrite IH; congruence.
Qed.

(** Without metadata a row holds strings only, and its final [map] does
    not throw. *)
Lemma mapM_escapeRowValue {A} (f : A -> string) (l : list A) :
  mapM ResponsesExport.escapeRowValue (map (fun x => StringValue (f x)) l)
  = Some (map (fun x => ResponsesExport.escapeCsvValue (f x)) l).
Proof.
  induction l as [|x l IH]; [reflexivity|].
  simpl. rewrite IH. reflexivity.
Qed.

Lemma csvRow_without_metadata delimiter labels response :
  ResponsesExport.csvRow false delimiter labels response
  = Some (JS.join delimiter
            (map ResponsesExport.escapeCsvValue
                 (map (fun l => ResponsesExport.escapeCsvValue (valueAt response l))
                      labels))).
Proof.
  unfold ResponsesExport.csvRow, ResponsesExport.rowCells. simpl.
  rewrite (mapM_escapeRowValue
             (fun l => ResponsesExport.escapeCsvValue (valueAt response l))).
  simpl. now rewrite map_map.
Qed.

Lemma formCsvRow_without_metadata options formFields response :
  FormResponsesExport.includeMetadata options = false ->
  FormResponsesExport.csvRow options formFields response
  = Some (JS.join (FormResponsesExport.fieldDelimiter options)
            (map ResponsesExport.escapeCsvValue
                 (map (fun f => ResponsesExport.escapeCsvValue (valueOf response f))
                      formFields))).
Proof.
  intros Hm. unfold FormResponsesExport.csvRow, FormResponsesExport.rowCells.
  rewrite Hm. simpl.
  change FormResponsesExport.escapeRowValue with ResponsesExport.escapeRowValue.
  rewrite (mapM_escapeRowValue
             (fun f => FormResponsesExport.escapeCsvValue (valueOf response f))).
  simpl. now rewrite map_map.
Qed.

(** Read back, a row of the export of all responses without metadata
    gives the cells the generator had before its final escaping: each
    field value escaped once. *)
Lemma csvRow_read_back labels response :
  labels <> [] ->
  option_map (CsvReader.splitRow comma)
    (ResponsesExport.csvRow false (str comma) labels response)
  = Some (map (fun l => ResponsesExport.escapeCsvValue (valueAt response l)) labels).
Proof.
  intros Hne. rewrite csvRow_without_metadata. simpl.
  rewrite splitRow_escaped_once; [reflexivity|].
  destruct labels; [congruence|discriminate].
Qed.

(** So the round trip holds for the rows whose field values have no comma,
    quote or newline. *)
Lemma csvRow_round_trip_plain labels response :
  labels <> [] ->
  (forall l, In l labels -> needsQuoting (valueAt response l) = false) ->
  option_map (CsvReader.splitRow comma)
    (ResponsesExport.csvRow false (str comma) labels response)
  = Some (map (valueAt response) labels).
Proof.
  intros Hne Hplain. rewrite csvRow_read_back by assumption.
  f_equal. apply map_ext_in. intros l Hl.
  rewrite escapeCsvValue_unfold. now rewrite (Hplain l Hl).
Qed.

(** C1, at the value [Says "hi", bye]: both generators escape a field
    value twice, so the export of one response with this value, read back
    with the comma as delimiter, gives the value escaped once,
    its quotes doubled and a quote at either end, and not the value. *)
Theorem export_round_trip_loses_quoted_value :
  option_map (fun document => map (CsvReader.splitRow comma) (JS.split newline document))
    (ResponsesExport.generateCsv [valueOnly "q" "Quote" saysHi] false (str comma))
  = Some [["Quote"]; [quoted saysHi]]
  /\ option_map (CsvReader.splitRow comma)
       (FormResponsesExport.csvRow (formQuery (str comma))
          [fieldOf "q" "Quote" SHORT_TEXT false 0] (valueOnly "q" "Quote" saysHi))
     = Some [quoted saysHi]
  /\ quoted saysHi <> saysHi.
Proof. repeat split; [vm_compute; reflexivity ..|discriminate]. Qed.

(** C4, at the value [a;b] with the delimiter [;]: the escaping function
    has no delimiter among its arguments and tests for the comma; the value
    is left unquoted, its row reads back as two cells, and a value with a
    comma is quoted although the comma is not the delimiter. *)
Theorem escapeCsvValue_misses_the_delimiter :
  ResponsesExport.escapeCsvValue "a;b" = "a;b"
  /\ FormResponsesExport.escapeCsvValue "a;b" = "a;b"
  /\ ResponsesExport.csvRow false ";" ["Note"] (valueOnly "n" "Note" "a;b") = Some "a;b"
  /\ FormResponsesExport.csvRow (formQuery ";") [fieldOf "n" "Note" SHORT_TEXT false 0]
       (valueOnly "n" "Note" "a;b") = Some "a;b"
  /\ CsvReader.splitRow ";" "a;b" = ["a"; "b"]
  /\ ResponsesExport.escapeCsvValue "a,b" = quoted "a,b".
Proof. repeat split; vm_compute; reflexivity. Qed.

(** With the comma as the delimiter the escaping function does what C4
    says: it quotes exactly the values with a comma, a quote or a newline. *)
Lemma escapeCsvValue_comma v :
  (needsQuoting v = true -> ResponsesExport.escapeCsvValue v = quoted v)
  /\ (needsQuoting v = false -> ResponsesExport.escapeCsvValue v = v).
Proof. rewrite escapeCsvValue_unfold. split; intros ->; reflexivity. Qed.

(** ** The export handlers *)

(** [searchParams.get] gives a string or [null], and [z.boolean()] takes
    neither, with or without a default. *)
Lemma boolean_refuses_every_parameter (value : option string) (fallback : bool) :
  Zod.default Zod.boolean fallback (Zod.ofParam value) = None.
Proof. destruct value; reflexivity. Qed.

(** So the schema of either export route refuses every request, on the
    key [includeMetadata] at least. *)
Lemma exportQuerySchema_refuses searchParams :
  exists issues,
    ResponsesExport.exportQuerySchema searchParams = inl issues
    /\ In "includeMetadata" issues.
Proof.
  unfold ResponsesExport.exportQuerySchema. cbv zeta.
  rewrite boolean_refuses_every_parameter.
  destruct (Zod.default (Zod.enum exportFormats) csv _);
    destruct (Zod.optional Zod.string (Zod.ofParam (ResponsesExport.formIdParam _)));
    destruct (Zod.optional (Zod.enum responseStatuses) _);
    destruct (Zod.default (Zod.enum dateRanges) d30 _);
    destruct (Zod.optional Zod.string (Zod.ofParam (ResponsesExport.searchParam _)));
    eexists; (split; [reflexivity|]);
    rewrite !in_app_iff; simpl; tauto.
Qed.

Lemma formExportQuerySchema_refuses searchParams :
  exists issues,
    FormResponsesExport.formExportQuerySchema searchParams = inl issues
    /\ In "includeMetadata" issues /\ In "includeFieldTypes" issues.
Proof.
  unfold FormResponsesExport.formExportQuerySchema. cbv zeta.
  rewrite !boolean_refuses_every_parameter.
  destruct (Zod.default (Zod.enum exportFormats) csv _);
    destruct (Zod.optional (Zod.enum responseStatuses) _);
    destruct (Zod.default (Zod.enum dateRanges) d30 _);
    destruct (Zod.optional Zod.string _);
    eexists; (split; [reflexivity|]);
    rewrite !in_app_iff; simpl; tauto.
Qed.

(** The two names of a format are both accepted, so the issues of a
    request do not depend on which of them it selects. *)
Lemma exportQuerySchema_selecting searchParams :
  ResponsesExport.exportQuerySchema (selecting "excel" searchParams)
  = ResponsesExport.exportQuerySchema (selecting "csv" searchParams).
Proof.
  unfold ResponsesExport.exportQuerySchema, selecting. cbv zeta. simpl.
  rewrite boolean_refuses_every_parameter.
  destruct (Zod.optional Zod.string (Zod.ofParam (ResponsesExport.formIdParam _)));
    destruct (Zod.optional (Zod.enum responseStatuses) _);
    destruct (Zod.default (Zod.enum dateRanges) d30 _);
    destruct (Zod.optional Zod.string (Zod.ofParam (ResponsesExport.searchParam _)));
    reflexivity.
Qed.

Lemma formExportQuerySchema_selecting searchParams :
  FormResponsesExport.formExportQuerySchema (formSelecting "excel" searchParams)
  = FormResponsesExport.formExportQuerySchema (formSelecting "csv" searchParams).
Proof.
  unfold FormResponsesExport.formExportQuerySchema, formSelecting. cbv zeta. simpl.
  rewrite !boolean_refuses_every_parameter.
  destruct (Zod.optional (Zod.enum responseStatuses) _);
    destruct (Zod.default (Zod.enum dateRanges) d30 _);
    destruct (Zod.optional Zod.string _);
    reflexivity.
Qed.

Lemma GET_refuses searchParams now findMany :
  exists issues,
    ResponsesExport.GET searchParams now findMany
    = Json 400 (ErrorIssues "Invalid export parameters" issues)
    /\ In "includeMetadata" issues.
Proof.
  destruct (exportQuerySchema_refuses searchParams) as (issues & Hparse & Hin).
  exists issues. unfold ResponsesExport.GET. now rewrite Hparse.
Qed.

Lemma formGET_refuses searchParams now exportDate form findMany :
  exists issues,
    FormResponsesExport.GET searchParams now exportDate form findMany
    = Json 400 (ErrorIssues "Invalid export parameters" issues)
    /\ In "includeMetadata" issues.
Proof.
  destruct (formExportQuerySchema_refuses searchParams) as (issues & Hparse & Hin & _).
  exists issues. unfold FormResponsesExport.GET. now rewrite Hparse.
Qed.

(** Past the schema the generators throw whenever metadata is asked for,
    which is the default: the row of a response then holds a [Date]. *)
Lemma mapM_throws {A B} (f : A -> option B) (l : list A) x :
  In x l -> f x = None -> mapM f l = None.
Proof.
  induction l as [|y l IH]; simpl; [tauto|].
  intros [->|Hin] Hx.
  - now rewrite Hx.
  - destruct (f y); [|reflexivity]. simpl. now rewrite (IH Hin Hx).
Qed.

Lemma generateCsv_with_metadata_throws responses delimiter :
  responses <> [] -> ResponsesExport.generateCsv responses true delimiter = None.
Proof.
  destruct responses as [|response responses]; [congruence|]. intros _.
  unfold ResponsesExport.generateCsv.
  rewrite (mapM_throws _ _ response); [reflexivity|now left|].
  unfold ResponsesExport.csvRow.
  rewrite (mapM_throws _ _ (DateValue (ResponseRow.submittedAt response)));
    [reflexivity| |reflexivity].
  unfold ResponsesExport.rowCells, ResponsesExport.metadataCells.
  apply in_or_app. left. simpl. tauto.
Qed.

Lemma generateFormCsv_with_metadata_throws responses formFields options title exportDate :
  responses <> [] -> FormResponsesExport.includeMetadata options = true ->
  FormResponsesExport.generateFormCsv responses formFields options title exportDate = None.
Proof.
  destruct responses as [|response responses]; [congruence|]. intros _ Hm.
  unfold FormResponsesExport.generateFormCsv.
  rewrite (mapM_throws _ _ response); [reflexivity|now left|].
  unfold FormResponsesExport.csvRow.
  rewrite (mapM_throws _ _ (DateValue (ResponseRow.submittedAt response)));
    [reflexivity| |reflexivity].
  unfold FormResponsesExport.rowCells, FormResponsesExport.metadataCells.
  rewrite Hm. apply in_or_app. left. simpl. tauto.
Qed.

(** Without metadata they return a document. *)
Lemma mapM_returns {A B} (f : A -> option B) (g : A -> B) (l : list A) :
  (forall x, f x = Some (g x)) -> mapM f l = Some (map g l).
Proof.
  intros Hf. induction l as [|x l IH]; [reflexivity|].
  simpl. rewrite Hf, IH. reflexivity.
Qed.

Lemma generateCsv_without_metadata responses delimiter :
  responses <> [] ->
  ResponsesExport.generateCsv responses false delimiter
  = Some (JS.join (str newline)
            (map (fun cells => JS.join delimiter (map ResponsesExport.escapeCsvValue cells))
                 (ResponsesExport.sortedFieldLabels responses
                  :: map (fun response =>
                            map (fun l => ResponsesExport.escapeCsvValue (valueAt response l))
                                (ResponsesExport.sortedFieldLabels responses))
                         responses))).
Proof.
  destruct responses as [|response responses]; [congruence|]. intros _.
  unfold ResponsesExport.generateCsv.
  rewrite (mapM_returns _ _ _ (fun r => csvRow_without_metadata delimiter _ r)).
  cbv [option_map]. f_equal. f_equal.
  rewrite (map_cons _ (ResponsesExport.sortedFieldLabels _)).
  f_equal. rewrite (map_map _ _ (response :: responses)). reflexivity.
Qed.

Lemma generateFormCsv_without_metadata responses formFields options title exportDate :
  responses <> [] -> FormResponsesExport.includeMetadata options = false ->
  FormResponsesExport.generateFormCsv responses formFields options title exportDate
  = Some (JS.join (str newline)
            (map (fun row => "# " +++ row)
                 (FormResponsesExport.summaryRows responses options title exportDate)
             ++ map (fun cells => JS.join (FormResponsesExport.fieldDelimiter options)
                                          (map ResponsesExport.escapeCsvValue cells))
                    (map (FormResponsesExport.fieldHeader options) formFields
                     :: map (fun response =>
                               map (fun f => ResponsesExport.escapeCsvValue
                                               (valueOf response f))
                                   formFields)
                            responses))).
Proof.
  destruct responses as [|response responses]; [congruence|]. intros _ Hm.
  unfold FormResponsesExport.generateFormCsv.
  rewrite (mapM_returns _ _ _ (fun r => formCsvRow_without_metadata _ _ r Hm)).
  unfold FormResponsesExport.csvHeaders. rewrite Hm.
  cbv [option_map]. f_equal. f_equal. f_equal.
  rewrite (map_cons _ (map _ formFields)).
  f_equal. rewrite (map_map _ _ (response :: responses)). reflexivity.
Qed.

(** What the handlers do past the schema is what C9 describes, as long as
    no metadata is asked for: for [excel] the very text of [csv] with the
    comma, under another content type and extension. *)
Lemma respond_excel_is_comma_csv q now responses :
  ResponsesExport.format q = excel -> responses <> [] ->
  ResponsesExport.includeMetadata q = false ->
  exists body stem,
    ResponsesExport.respond q now responses
    = Some (Attachment body "application/vnd.ms-excel" (attachmentName stem ".xlsx"))
    /\ ResponsesExport.respond (asCsv q) now responses
       = Some (Attachment body "text/csv" (attachmentName stem ".csv")).
Proof.
  intros Hf Hne Hm. unfold ResponsesExport.respond.
  destruct responses as [|r rs]; [congruence|].
  rewrite Hf.
  cbn [asCsv ResponsesExport.format ResponsesExport.includeMetadata
       ResponsesExport.fieldDelimiter].
  rewrite Hm, (generateCsv_without_metadata (r :: rs)) by assumption.
  eexists _, _. split; reflexivity.
Qed.

Lemma formRespond_excel_is_comma_csv q now exportDate form formFields responses :
  FormResponsesExport.format q = excel -> responses <> [] ->
  FormResponsesExport.includeMetadata q = false ->
  exists body stem,
    FormResponsesExport.respond q now exportDate (Some (form, formFields)) responses
    = Some (Attachment body "application/vnd.ms-excel" (attachmentName stem ".xlsx"))
    /\ FormResponsesExport.respond (formAsCsv q) now exportDate
         (Some (form, formFields)) responses
       = Some (Attachment body "text/csv" (attachmentName stem ".csv")).
Proof.
  intros Hf Hne Hm. unfold FormResponsesExport.respond.
  destruct responses as [|r rs]; [congruence|].
  rewrite Hf. cbn [formAsCsv FormResponsesExport.format].
  rewrite !(generateFormCsv_without_metadata (r :: rs)) by assumption.
  eexists _, _. split; reflexivity.
Qed.

(** C9: no request gets what C9 describes.  The schema of either export
    route refuses every request, on the key [includeMetadata] at least,
    so a request that selects [excel] and the same request selecting
    [csv] are both answered 400 with the same JSON error: there is no
    document, and neither a content type nor a file name to tell them
    apart. *)
Theorem excel_export_is_rejected :
  (forall searchParams now findMany,
      exists issues,
        In "includeMetadata" issues
        /\ ResponsesExport.GET (selecting "excel" searchParams) now findMany
           = Json 400 (ErrorIssues "Invalid export parameters" issues)
        /\ ResponsesExport.GET (selecting "csv" searchParams) now findMany
           = Json 400 (ErrorIssues "Invalid export parameters" issues))
  /\ (forall searchParams now exportDate form findMany,
        exists issues,
          In "includeMetadata" issues
          /\ FormResponsesExport.GET (formSelecting "excel" searchParams) now exportDate
               form findMany
             = Json 400 (ErrorIssues "Invalid export parameters" issues)
          /\ FormResponsesExport.GET (formSelecting "csv" searchParams) now exportDate
               form findMany
             = Json 400 (ErrorIssues "Invalid export parameters" issues)).
Proof.
  split.
  - intros searchParams now findMany.
    destruct (GET_refuses (selecting "csv" searchParams) now findMany)
      as (issues & Hcsv & Hin).
    exists issues. split; [assumption|]. split; [|assumption].
    rewrite <- Hcsv. unfold ResponsesExport.GET.
    rewrite exportQuerySchema_selecting. reflexivity.
  - intros searchParams now exportDate form findMany.
    destruct (formGET_refuses (formSelecting "csv" searchParams) now exportDate form
                findMany) as (issues & Hcsv & Hin).
    exists issues. split; [assumption|]. split; [|assumption].
    rewrite <- Hcsv. unfold FormResponsesExport.GET.
    rewrite formExportQuerySchema_selecting. reflexivity.
Qed.

(** C10: a request whose filters match no response is answered 400, not
    404, on both export routes: the schema refuses it, on the key
    [includeMetadata] at least, before the store is read.  The answer 404
    that C10 describes is what the handlers return past the schema, where
    no request arrives. *)
Theorem export_without_responses_is_400 :
  (forall searchParams now,
      exists issues,
        In "includeMetadata" issues
        /\ ResponsesExport.GET searchParams now (fun _ => [])
           = Json 400 (ErrorIssues "Invalid export parameters" issues))
  /\ (forall searchParams now exportDate form,
        exists issues,
          In "includeMetadata" issues
          /\ FormResponsesExport.GET searchParams now exportDate form (fun _ => [])
             = Json 400 (ErrorIssues "Invalid export parameters" issues))
  /\ (forall queryData now,
        ResponsesExport.respond queryData now []
        = Some (Json 404 (ErrorBody "No responses found for the specified criteria")))
  /\ (forall queryData now exportDate form,
        FormResponsesExport.respond queryData now exportDate (Some form) []
        = Some (Json 404 (ErrorBody "No responses found for this form"))).
Proof.
  split; [|split; [|split]].
  - intros searchParams now.
    destruct (GET_refuses searchParams now (fun _ => [])) as (issues & H & Hin).
    now exists issues.
  - intros searchParams now exportDate form.
    destruct (formGET_refuses searchParams now exportDate form (fun _ => []))
      as (issues & H & Hin).
    now exists issues.
  - reflexivity.
  - intros queryData now exportDate [form formFields]. reflexivity.
Qed.

(** ** The store: reading the fields of a form *)

Lemma fieldsOfForm_Permutation db formId :
  Permutation (Db.fieldsOfForm db formId)
              (filter (fun f => FormField.formId f = formId) (Db.formField db)).
Proof. apply merge_sort_Permutation. Qed.

Lemma fieldsOfForm_In db formId field :
  In field (Db.fieldsOfForm db formId)
  <-> In field (Db.formField db) /\ FormField.formId field = formId.
Proof.
  rewrite <- !list_elem_of_In, (fieldsOfForm_Permutation db formId).
  rewrite list_elem_of_filter. tauto.
Qed.

Lemma NoDup_ids_filter (P : FormField.t -> Prop) `{forall f, Decision (P f)} rows :
  NoDup (map FormField.id rows) -> NoDup (map FormField.id (filter P rows)).
Proof.
  induction rows as [|r rows IH]; simpl; [constructor|].
  intros Hnd. apply NoDup_cons in Hnd as [Hr Hnd].
  rewrite filter_cons. destruct (decide (P r)); [|auto].
  simpl. apply NoDup_cons. split; [|auto].
  rewrite list_elem_of_In in *. intros Hin. apply Hr.
  apply in_map_iff in Hin as (x & Hx & Hin). apply in_map_iff.
  exists x. split; [assumption|].
  apply list_elem_of_In, list_elem_of_filter in Hin as [_ Hin].
  now apply list_elem_of_In.
Qed.

Lemma fieldsOfForm_NoDup db formId :
  Db.wellFormed db -> NoDup (map FormField.id (Db.fieldsOfForm db formId)).
Proof.
  intros (_ & Hnd & _).
  rewrite (Permutation_map FormField.id (fieldsOfForm_Permutation db formId)).
  now apply NoDup_ids_filter.
Qed.

(** ** Maps built from a list *)

Lemma mapOf_foldl_notin {V} (entries : list (string * V)) (m : gmap string V) k :
  ~ In k (map fst entries) ->
  foldl (fun m kv => <[kv.1 := kv.2]> m) m entries !! k = m !! k.
Proof.
  revert m. induction entries as [|[k' v'] entries IH]; intros m Hk; simpl; [reflexivity|].
  simpl in Hk. rewrite IH by tauto.
  apply lookup_insert_ne. tauto.
Qed.

Lemma mapOf_foldl_in {V} (entries : list (string * V)) (m : gmap string V) k v :
  NoDup (map fst entries) -> In (k, v) entries ->
  foldl (fun m kv => <[kv.1 := kv.2]> m) m entries !! k = Some v.
Proof.
  revert m. induction entries as [|[k' v'] entries IH]; intros m Hnd Hin; simpl; [destruct Hin|].
  simpl in Hnd. apply NoDup_cons in Hnd as [Hk' Hnd].
  destruct Hin as [[= -> ->]|Hin].
  - rewrite mapOf_foldl_notin by (now rewrite <- list_elem_of_In).
    apply lookup_insert_eq.
  - now apply IH.
Qed.

(** With unique keys, the map holds each entry of the list. *)
Lemma mapOf_lookup {V} (entries : list (string * V)) k v :
  NoDup (map fst entries) -> In (k, v) entries -> JS.mapOf entries !! k = Some v.
Proof. apply mapOf_foldl_in. Qed.

Lemma fieldMap_lookup (formFields : list FormField.t) field :
  NoDup (map FormField.id formFields) -> In field formFields ->
  JS.mapOf (map (fun f => (FormField.id f, f)) formFields) !! FormField.id field
  = Some field.
Proof.
  intros Hnd Hin. apply mapOf_lookup.
  - now rewrite map_map.
  - apply in_map_iff. now exists field.
Qed.

(** ** The submission handler *)

Section SubmitProperties.

Context (platform : Platform).

Lemma POST_published db id request data form :
  Db.findForm db id = Some form ->
  Form.status form = PUBLISHED ->
  Submit.limitReached db id form = false ->
  Submit.POST platform db id request data
  = let errors := Submit.validationErrors platform (Db.fieldsOfForm db id)
                                          (Submit.fields data) in
    if Nat.ltb 0 (length errors)
    then (Json 400 (ErrorDetails "Validation failed" errors), db)
    else if Submit.isDuplicate db id form data
    then (Json 400 (ErrorBody "You have already submitted this form"), db)
    else
      let response := Submit.newResponse id data request in
      let db1 := Db.createResponse db response in
      let rows := Submit.responseFieldsData (FormResponse.id response)
                                            (Submit.fields data) in
      match rows with
      | [] => (Json 201 (SubmitOk (FormResponse.id response)
                                  "Form submitted successfully"
                                  (FormResponse.submittedAt response)), db1)
      | _ => match Db.createManyResponseFields db1 rows with
             | Some db2 =>
                 (Json 201 (SubmitOk (FormResponse.id response)
                                     "Form submitted successfully"
                                     (FormResponse.submittedAt response)), db2)
             | None => (Submit.serverError, db1)
             end
      end.
Proof.
  intros Hform Hstatus Hlimit. unfold Submit.POST.
  rewrite Hform, Hlimit, bool_decide_eq_true_2 by assumption.
  reflexivity.
Qed.

(** A required field is reported when no entry of the submission gives
    it a value that is not blank, whatever its type. *)
Lemma required_field_reported formFields submitted field :
  In field formFields ->
  FormField.required field = true ->
  (forall entry, In entry submitted ->
                 Submit.fieldId entry = FormField.id field ->
                 Submit.nonBlank (Submit.value entry) = false) ->
  In (Submit.requiredMessage field) (Submit.requiredErrors formFields submitted).
Proof.
  intros Hin Hreq Hblank. unfold Submit.requiredErrors.
  apply in_flat_map. exists field. split.
  - apply filter_In. now split.
  - destruct (find _ submitted) as [entry|] eqn:Hfind; [|now left].
    apply find_some in Hfind as [Hentry Hid].
    apply String.eqb_eq in Hid.
    specialize (Hblank entry Hentry Hid). unfold Submit.nonBlank in Hblank.
    apply negb_false_iff in Hblank. rewrite Hblank. now left.
Qed.

(** An entry whose value fails the validator of its field is reported. *)
Lemma invalid_data_reported formFields submitted entry field :
  NoDup (map FormField.id formFields) ->
  In field formFields -> In entry submitted ->
  Submit.fieldId entry = FormField.id field ->
  Submit.nonBlank (Submit.value entry) = true ->
  Submit.fieldValidators platform (FormField.type field) (Submit.value entry) = false ->
  In (Submit.invalidDataMessage field)
     (Submit.validationErrors platform formFields submitted).
Proof.
  intros Hnd Hfield Hentry Hid Hnb Hval. unfold Submit.validationErrors.
  apply in_or_app. right. apply in_flat_map. exists entry. split; [assumption|].
  unfold Submit.entryErrors.
  rewrite Hid, (fieldMap_lookup formFields field Hnd Hfield), Hnb, Hval.
  now left.
Qed.

(** An entry for a choice field with options that names a value outside
    them is reported with the first such value. *)
Lemma invalid_option_reported formFields submitted entry field v :
  NoDup (map FormField.id formFields) ->
  In field formFields -> In entry submitted ->
  Submit.fieldId entry = FormField.id field ->
  Submit.hasOptions (FormField.type field) = true ->
  FormField.options field <> [] ->
  Submit.firstInvalidOption (FormField.options field) (Submit.value entry) = Some v ->
  In (Submit.invalidOptionMessage field v)
     (Submit.validationErrors platform formFields submitted).
Proof.
  intros Hnd Hfield Hentry Hid Hopt Hne Hfirst. unfold Submit.validationErrors.
  apply in_or_app. right. apply in_flat_map. exists entry. split; [assumption|].
  unfold Submit.entryErrors.
  rewrite Hid, (fieldMap_lookup formFields field Hnd Hfield), Hopt, Hfirst.
  destruct (FormField.options field); [congruence|].
  apply in_or_app. right. now left.
Qed.

(** C5: a published form whose positive [maxSubmissions] is reached
    answers every submission with the one submission-limit error; the
    answer does not depend on the submission, and the store is as it
    was. *)
Theorem submission_limit_rejects_first db id request data form maxSubmissions :
  Db.findForm db id = Some form ->
  Form.status form = PUBLISHED ->
  Settings.maxSubmissions (Form.settings form) = Some maxSubmissions ->
  (0 < maxSubmissions)%Z ->
  (maxSubmissions <= Db.countResponses db id)%Z ->
  Submit.POST platform db id request data
  = (Json 400 (ErrorBody "This form has reached its submission limit"), db).
Proof.
  intros Hform Hstatus Hmax Hpos Hcount. unfold Submit.POST.
  rewrite Hform, bool_decide_eq_true_2 by assumption. simpl negb. cbv iota.
  unfold Submit.limitReached. rewrite Hmax.
  assert (Z.eqb maxSubmissions 0 = false) as -> by (apply Z.eqb_neq; lia).
  assert (Z.ltb 0 maxSubmissions = true) as -> by (apply Z.ltb_lt; lia).
  assert (Z.leb maxSubmissions (Db.countResponses db id) = true) as ->
    by (apply Z.leb_le; lia).
  reflexivity.
Qed.

(** C3 as amended: for a published form under its limit, the failures of
    the required-field, format and option checks are gathered in one
    list, each of them present, and a non-empty list is the whole answer,
    whether or not the submission is a duplicate; the duplicate check
    runs only when the list is empty and is answered on its own. *)
Theorem validation_gathers_steps_2_to_4 db id request data form :
  Db.wellFormed db ->
  Db.findForm db id = Some form ->
  Form.status form = PUBLISHED ->
  Submit.limitReached db id form = false ->
  let formFields := Db.fieldsOfForm db id in
  let errors := Submit.validationErrors platform formFields (Submit.fields data) in
  (errors <> [] ->
   Submit.POST platform db id request data
   = (Json 400 (ErrorDetails "Validation failed" errors), db))
  /\ (errors = [] -> Submit.isDuplicate db id form data = true ->
      Submit.POST platform db id request data
      = (Json 400 (ErrorBody "You have already submitted this form"), db))
  /\ (forall field,
        In field formFields -> FormField.required field = true ->
        (forall entry, In entry (Submit.fields data) ->
                       Submit.fieldId entry = FormField.id field ->
                       Submit.nonBlank (Submit.value entry) = false) ->
        In (Submit.requiredMessage field) errors)
  /\ (forall field entry,
        In field formFields -> In entry (Submit.fields data) ->
        Submit.fieldId entry = FormField.id field ->
        Submit.nonBlank (Submit.value entry) = true ->
        Submit.fieldValidators platform (FormField.type field) (Submit.value entry)
        = false ->
        In (Submit.invalidDataMessage field) errors)
  /\ (forall field entry v,
        In field formFields -> In entry (Submit.fields data) ->
        Submit.fieldId entry = FormField.id field ->
        Submit.hasOptions (FormField.type field) = true ->
        FormField.options field <> [] ->
        Submit.firstInvalidOption (FormField.options field) (Submit.value entry)
        = Some v ->
        In (Submit.invalidOptionMessage field v) errors).
Proof.
  intros Hwf Hform Hstatus Hlimit formFields errors.
  pose proof (fieldsOfForm_NoDup db id Hwf) as Hnd.
  repeat split.
  - intros Hne. rewrite (POST_published db id request data form) by assumption.
    cbv zeta. fold formFields. fold errors.
    destruct errors; [congruence|reflexivity].
  - intros Hnil Hdup. rewrite (POST_published db id request data form) by assumption.
    cbv zeta. fold formFields. fold errors. rewrite Hnil, Hdup. reflexivity.
  - intros field Hin Hreq Hblank. unfold errors, Submit.validationErrors.
    apply in_or_app. left. now apply required_field_reported.
  - intros field entry Hin Hentry Hid Hnb Hval.
    now apply (invalid_data_reported formFields _ entry field).
  - intros field entry v Hin Hentry Hid Hopt Hne Hfirst.
    now apply (invalid_option_reported formFields _ entry field v).
Qed.

End SubmitProperties.

(** C2, at a form whose field "Intro" is a section marked required: the
    handler takes the required fields by their [required] flag alone, so a
    submission without the field, or with blanks for it, is rejected with
    the required-field error of the section. *)
Theorem required_section_is_not_exempt :
  forall platform,
    Submit.POST platform sectionDb "F" exampleRequest (submission None [])
    = (Json 400 (ErrorDetails "Validation failed" [isRequiredMessage "Intro"]), sectionDb)
    /\ Submit.POST platform sectionDb "F" exampleRequest
         (submission None [entry "intro" "   "])
       = (Json 400 (ErrorDetails "Validation failed" [isRequiredMessage "Intro"]),
          sectionDb).
Proof. intros platform. split; vm_compute; reflexivity. Qed.

(** C3 fails where a duplicate submission also lacks a required field: the
    answer lists the required-field error only; the duplicate check, which
    would fail, has not run.  Without the other error the duplicate is
    answered alone, with no list. *)
Lemma duplicate_check_is_not_gathered :
  Submit.isDuplicate duplicateDb "F" (publishedForm None true)
    (submission (Some "a@b.com") []) = true
  /\ Submit.POST noParsers duplicateDb "F" exampleRequest (submission (Some "a@b.com") [])
     = (Json 400 (ErrorDetails "Validation failed" [isRequiredMessage "Name"]), duplicateDb)
  /\ ~ In "You have already submitted this form" [isRequiredMessage "Name"]
  /\ Submit.POST noParsers duplicateDb "F" exampleRequest
       (submission (Some "a@b.com") [entry "name" "Ann"])
     = (Json 400 (ErrorBody "You have already submitted this form"), duplicateDb).
Proof.
  repeat split; try (vm_compute; reflexivity).
  intros [H|[]]. discriminate H.
Qed.

Lemma duplicateDb_wellFormed : Db.wellFormed duplicateDb.
Proof. repeat split; apply (bool_decide_unpack _); vm_compute; exact I. Defined.

(** The theorem at the duplicate submission without its required field. *)
Lemma validation_gathers_steps_2_to_4_witness :
  Db.wellFormed duplicateDb
  /\ Db.findForm duplicateDb "F" = Some (publishedForm None true)
  /\ Submit.limitReached duplicateDb "F" (publishedForm None true) = false
  /\ Submit.POST noParsers duplicateDb "F" exampleRequest (submission (Some "a@b.com") [])
     = (Json 400
          (ErrorDetails "Validation failed"
             (Submit.validationErrors noParsers (Db.fieldsOfForm duplicateDb "F") [])),
        duplicateDb).
Proof.
  split; [exact duplicateDb_wellFormed|].
  split; [reflexivity|]. split; [reflexivity|].
  apply (validation_gathers_steps_2_to_4 noParsers duplicateDb "F" exampleRequest
           (submission (Some "a@b.com") []) (publishedForm None true)
           duplicateDb_wellFormed eq_refl eq_refl eq_refl).
  vm_compute. discriminate.
Defined.

(** The theorem at the form limited to one submission, with one response:
    a second submission, valid in itself, is answered with the limit error. *)
Lemma submission_limit_rejects_first_witness :
  Db.findForm fullDb "F" = Some (publishedForm (Some 1%Z) false)
  /\ Db.countResponses fullDb "F" = 1%Z
  /\ Submit.POST noParsers fullDb "F" exampleRequest
       (submission None [entry "name" "Ann"])
     = (Json 400 (ErrorBody "This form has reached its submission limit"), fullDb).
Proof.
  split; [reflexivity|]. split; [reflexivity|].
  apply (submission_limit_rejects_first noParsers fullDb "F" exampleRequest
           (submission None [entry "name" "Ann"]) (publishedForm (Some 1%Z) false) 1%Z);
    [reflexivity | reflexivity | reflexivity | lia | vm_compute; discriminate].
Defined.

(** The two scenarios of the specification for the form with a required
    email field and a dropdown: two errors and no response for a bad email
    and an unknown option; one response with two values for good ones. *)
Example scenario_two_errors :
  Submit.POST noParsers scenarioDb "F" exampleRequest
    (submission None [entry "email-field" "not-an-email"; entry "plan-field" "Enterprise"])
  = (Json 400
       (ErrorDetails "Validation failed"
          ["Field " +++ str dquote +++ "Email" +++ str dquote +++ " contains invalid data";
           "Field " +++ str dquote +++ "Plan" +++ str dquote
           +++ " contains invalid option: Enterprise"]),
     scenarioDb).
Proof. vm_compute. reflexivity. Qed.

Example scenario_accepted :
  Submit.POST noParsers scenarioDb "F" exampleRequest
    (submission (Some "a@b.com") [entry "email-field" "a@b.com"; entry "plan-field" "Pro"])
  = (Json 201 (SubmitOk "r2" "Form submitted successfully" "2024-01-15T10:30:00.000Z"),
     {| Db.form := Db.form scenarioDb;
        Db.formField := Db.formField scenarioDb;
        Db.formResponse :=
          [{| FormResponse.id := "r2"; FormResponse.formId := "F";
              FormResponse.respondentEmail := Some "a@b.com";
              FormResponse.ipAddress := Some "10.0.0.1";
              FormResponse.userAgent := Some "unknown";
              FormResponse.status := NEW;
              FormResponse.submittedAt := "2024-01-15T10:30:00.000Z" |}];
        Db.responseField :=
          [{| ResponseField.responseId := "r2"; ResponseField.fieldId := "email-field";
              ResponseField.value := "a@b.com" |};
           {| ResponseField.responseId := "r2"; ResponseField.fieldId := "plan-field";
              ResponseField.value := "Pro" |}] |}).
Proof. vm_compute. reflexivity. Qed.

(** C6, at a submission with a name and with a value for a field id the
    store does not know (a field removed since the form was loaded): the
    entries pass validation, the response row is created, the creation of
    the value rows throws, the client is answered 500, and the store keeps
    the response without any of its values. *)
Theorem response_is_kept_without_its_values :
  forall platform,
    Submit.validationErrors platform (Db.fieldsOfForm plainDb "F")
      [entry "name" "Ann"; entry "gone" "x"] = []
    /\ Submit.responseFieldsData "r2" [entry "name" "Ann"; entry "gone" "x"]
       = [{| ResponseField.responseId := "r2"; ResponseField.fieldId := "name";
             ResponseField.value := "Ann" |};
          {| ResponseField.responseId := "r2"; ResponseField.fieldId := "gone";
             ResponseField.value := "x" |}]
    /\ Submit.POST platform plainDb "F" exampleRequest
         (submission None [entry "name" "Ann"; entry "gone" "x"])
       = (Json 500 (ErrorBody "Failed to submit form. Please try again later."),
          {| Db.form := Db.form plainDb;
             Db.formField := Db.formField plainDb;
             Db.formResponse :=
               [{| FormResponse.id := "r2"; FormResponse.formId := "F";
                   FormResponse.respondentEmail := None;
                   FormResponse.ipAddress := Some "10.0.0.1";
                   FormResponse.userAgent := Some "unknown";
                   FormResponse.status := NEW;
                   FormResponse.submittedAt := "2024-01-15T10:30:00.000Z" |}];
             Db.responseField := [] |}).
Proof. intros platform. repeat split; vm_compute; reflexivity. Qed.

(** ** The validators on examples *)

Example email_examples :
  map (Submit.fieldValidators noParsers EMAIL)
      ["a@b.com"; "a@b.c.d"; "not-an-email"; "a@b"; "a b@c.d"; "a@@b.c"; "a@b."; "@b.c"]
  = [true; true; false; false; false; false; false; false].
Proof. vm_compute. reflexivity. Qed.

Example phone_examples :
  map (Submit.fieldValidators noParsers PHONE)
      ["+1 (555) 123-4567"; "1"; "1234567890123456"; "12345678901234567"; "0123"; "+"]
  = [true; true; true; false; false; false].
Proof. vm_compute. reflexivity. Qed.

Example number_examples :
  map (Submit.fieldValidators noParsers NUMBER)
      [" 12 "; "1e5"; ".5"; "5."; "0x1f"; "0b101"; "-0x1f"; "12px"; "1e"; "."; "  "]
  = [true; true; true; true; true; true; false; false; false; false; false].
Proof. vm_compute. reflexivity. Qed.

(** ** The number validator *)

(** C8 fails at ["Infinity"]: [Number] gives the infinite value, which is
    not NaN, and the string is not blank, so the validator accepts it. *)
Lemma number_validator_accepts_Infinity :
  Num.Number "Infinity" = Num.Infinity false
  /\ Submit.fieldValidators noParsers NUMBER "Infinity" = true
  /\ Submit.fieldValidators noParsers NUMBER "-Infinity" = true.
Proof. repeat split; vm_compute; reflexivity. Qed.

Lemma Number_blank value :
  JS.trim value = EmptyString -> Num.Number value = Num.Literal false 0 0.
Proof. unfold Num.Number. now intros ->. Qed.

(** C8 as amended: the validator accepts a string exactly when it is not
    blank and [Number] does not give NaN; every string that converts to an
    infinite value is accepted. *)
Theorem number_validator_accepts_all_but_NaN :
  forall platform value,
    (Submit.fieldValidators platform NUMBER value = true
     <-> JS.trim value <> EmptyString /\ Num.Number value <> Num.NaN)
    /\ (Num.isInfinite (Num.Number value) = true ->
        Submit.fieldValidators platform NUMBER value = true).
Proof.
  intros platform value.
  assert (Hiff : Submit.fieldValidators platform NUMBER value = true
                 <-> JS.trim value <> EmptyString /\ Num.Number value <> Num.NaN).
  { unfold Submit.fieldValidators, Submit.nonBlank.
    rewrite andb_true_iff, !negb_true_iff. split.
    - intros [Hnan Hblank]. split.
      + intros Heq. rewrite Heq in Hblank. discriminate.
      + intros Heq. rewrite Heq in Hnan. discriminate.
    - intros [Hblank Hnan]. split.
      + destruct (Num.Number value); [congruence|reflexivity..].
      + now apply String.eqb_neq. }
  split; [exact Hiff|].
  intros Hinf. apply Hiff. split.
  - intros Hblank. rewrite (Number_blank value Hblank) in Hinf. discriminate.
  - intros Heq. rewrite Heq in Hinf. discriminate.
Qed.

(** The theorem at ["Infinity"]. *)
Lemma number_validator_accepts_all_but_NaN_witness :
  Num.isInfinite (Num.Number "Infinity") = true
  /\ Submit.fieldValidators noParsers NUMBER "Infinity" = true.
Proof.
  split; [reflexivity|].
  apply (proj2 (number_validator_accepts_all_but_NaN noParsers "Infinity")).
  reflexivity.
Defined.

(** ** Field order *)

#[local] Instance fieldOrderLe_total : Total Db.fieldOrderLe.
Proof. intros a b. unfold Db.fieldOrderLe. lia. Qed.

#[local] Instance fieldOrderLe_trans : Transitive Db.fieldOrderLe.
Proof. intros a b c. unfold Db.fieldOrderLe. lia. Qed.

Lemma applyUpdate_id f update : FormField.id (applyUpdate f update) = FormField.id f.
Proof. unfold applyUpdate. now destruct (String.eqb _ _). Qed.

Lemma applyUpdate_formId f update :
  FormField.formId (applyUpdate f update) = FormField.formId f.
Proof. unfold applyUpdate. now destruct (String.eqb _ _). Qed.

Lemma applyAll_id updates f : FormField.id (applyAll updates f) = FormField.id f.
Proof.
  unfold applyAll. revert f.
  induction updates as [|u updates IH]; intros f; simpl; [reflexivity|].
  now rewrite IH, applyUpdate_id.
Qed.

Lemma applyAll_formId updates f :
  FormField.formId (applyAll updates f) = FormField.formId f.
Proof.
  unfold applyAll. revert f.
  induction updates as [|u updates IH]; intros f; simpl; [reflexivity|].
  now rewrite IH, applyUpdate_formId.
Qed.

(** A transaction whose updates all name stored fields commits, and
    changes each row by the updates that name it. *)
Lemma transaction_commits updates : forall db,
  (forall k, In k (map fst updates) -> In k (map FormField.id (Db.formField db))) ->
  Db.transaction db updates
  = Some (Db.withFormFields db (map (applyAll updates) (Db.formField db))).
Proof.
  induction updates as [|[k o] updates IH]; intros db Hkeys; simpl.
  - destruct db. unfold Db.withFormFields. simpl. now rewrite map_id.
  - unfold Db.updateFieldOrder.
    rewrite bool_decide_eq_true_2 by (apply list_elem_of_In, Hkeys; now left).
    rewrite IH.
    + unfold Db.withFormFields. simpl. now rewrite map_map.
    + intros k' Hk'. simpl. rewrite map_map.
      rewrite (map_ext _ FormField.id).
      * apply Hkeys. now right.
      * intros f. now destruct (String.eqb _ _).
Qed.

(** A transaction with an update for an id that is not stored throws and
    leaves the store as it was. *)
Lemma transaction_rolls_back updates : forall db,
  (exists k, In k (map fst updates) /\ ~ In k (map FormField.id (Db.formField db))) ->
  Db.transaction db updates = None.
Proof.
  induction updates as [|[k o] updates IH]; intros db (k' & Hin & Hnot); simpl.
  - destruct Hin.
  - unfold Db.updateFieldOrder. case_bool_decide as Hk; [|reflexivity].
    apply IH. exists k'. destruct Hin as [<-|Hin].
    + exfalso. apply Hnot. now apply list_elem_of_In.
    + split; [assumption|]. simpl. rewrite map_map.
      rewrite (map_ext _ FormField.id); [assumption|].
      intros f. now destruct (String.eqb _ _).
Qed.

Lemma setOrder_setOrder f a b : Db.setOrder (Db.setOrder f a) b = Db.setOrder f b.
Proof. reflexivity. Qed.

Lemma applyAll_notin updates : forall f,
  ~ In (FormField.id f) (map fst updates) -> applyAll updates f = f.
Proof.
  unfold applyAll.
  induction updates as [|[k o] updates IH]; intros f Hk; simpl; [reflexivity|].
  simpl in Hk. unfold applyUpdate at 2. simpl.
  destruct (String.eqb_spec (FormField.id f) k) as [Heq|Hne].
  - exfalso. apply Hk. now left.
  - apply IH. tauto.
Qed.

Lemma applyAll_in updates : forall f o,
  NoDup (map fst updates) -> In (FormField.id f, o) updates ->
  applyAll updates f = Db.setOrder f o.
Proof.
  induction updates as [|[k o'] updates IH]; intros f o Hnd Hin; [destruct Hin|].
  simpl in Hnd. apply NoDup_cons in Hnd as [Hk Hnd].
  rewrite list_elem_of_In in Hk.
  unfold applyAll. simpl. unfold applyUpdate at 2. simpl.
  destruct Hin as [Heq|Hin].
  - injection Heq as Hid Ho. subst o'.
    rewrite <- Hid, String.eqb_refl.
    apply (applyAll_notin updates (Db.setOrder f o)). simpl. now rewrite <- Hid.
  - destruct (String.eqb_spec (FormField.id f) k) as [Heq|Hne].
    + exfalso. apply Hk. rewrite <- Heq.
      apply in_map_iff. now exists (FormField.id f, o).
    + now apply IH.
Qed.

Lemma renumbering_keys remaining :
  map fst (Field.renumbering remaining) = map FormField.id remaining.
Proof.
  unfold Field.renumbering. apply list_eq. intros i.
  change (map fst ?l) with (fst <$> l).
  change (map FormField.id ?l) with (FormField.id <$> l).
  rewrite !list_lookup_fmap, list_lookup_imap.
  now destruct (remaining !! i).
Qed.

Lemma renumbering_sets_index remaining i f :
  NoDup (map FormField.id remaining) -> remaining !! i = Some f ->
  applyAll (Field.renumbering remaining) f = Db.setOrder f (Z.of_nat i).
Proof.
  intros Hnd Hi. apply applyAll_in.
  - now rewrite renumbering_keys.
  - apply list_elem_of_In. unfold Field.renumbering.
    apply (elem_of_lookup_imap_2 (fun index field => (FormField.id field, Z.of_nat index))
             remaining f i Hi).
Qed.

Lemma renumbered_orders remaining :
  NoDup (map FormField.id remaining) ->
  map FormField.order (map (applyAll (Field.renumbering remaining)) remaining)
  = map Z.of_nat (seq 0 (length remaining)).
Proof.
  intros Hnd.
  change (map Z.of_nat ?l) with (Z.of_nat <$> l).
  rewrite <- (imap_seq_0 remaining Z.of_nat).
  rewrite map_map. apply list_eq. intros i.
  change (map ?f remaining) with (f <$> remaining).
  rewrite list_lookup_fmap, list_lookup_imap.
  destruct (remaining !! i) as [f|] eqn:Hi; [|reflexivity].
  simpl. now rewrite (renumbering_sets_index remaining i f Hnd Hi).
Qed.

Lemma Sorted_count j n : Sorted Z.le (map Z.of_nat (seq j n)).
Proof.
  revert j. induction n as [|n IH]; intros j; simpl; constructor; [apply IH|].
  destruct n; simpl; constructor. lia.
Qed.

Lemma filter_formId_map (g : FormField.t -> FormField.t) formId rows :
  (forall f, FormField.formId (g f) = FormField.formId f) ->
  filter (fun f => FormField.formId f = formId) (map g rows)
  = map g (filter (fun f => FormField.formId f = formId) rows).
Proof.
  intros Hg. induction rows as [|r rows IH]; [reflexivity|].
  simpl. rewrite !filter_cons, Hg, IH.
  now destruct (decide (FormField.formId r = formId)).
Qed.

Lemma fieldsOfForm_NoDup_ids db formId :
  NoDup (map FormField.id (Db.formField db)) ->
  NoDup (map FormField.id (Db.fieldsOfForm db formId)).
Proof.
  intros Hnd.
  rewrite (Permutation_map FormField.id (fieldsOfForm_Permutation db formId)).
  now apply NoDup_ids_filter.
Qed.

(** After a renumbering of the fields of a form, read in ascending order,
    their order values count up from zero. *)
Lemma renumbered_fields_count_from_zero db formId :
  NoDup (map FormField.id (Db.formField db)) ->
  let remaining := Db.fieldsOfForm db formId in
  let db' := Db.withFormFields db
               (map (applyAll (Field.renumbering remaining)) (Db.formField db)) in
  map FormField.order (Db.fieldsOfForm db' formId)
  = map Z.of_nat (seq 0 (length (Db.fieldsOfForm db' formId))).
Proof.
  intros Hnd remaining db'.
  pose proof (fieldsOfForm_NoDup_ids db formId Hnd) as Hrem. fold remaining in Hrem.
  set (g := applyAll (Field.renumbering remaining)).
  assert (Hperm : Permutation (Db.fieldsOfForm db' formId) (map g remaining)).
  { unfold Db.fieldsOfForm, db'. simpl.
    rewrite merge_sort_Permutation.
    rewrite filter_formId_map by (intros f; apply applyAll_formId).
    apply Permutation_map. symmetry. apply fieldsOfForm_Permutation. }
  assert (Hlen : length (Db.fieldsOfForm db' formId) = length remaining).
  { rewrite (Permutation_length Hperm). apply length_map. }
  rewrite Hlen.
  apply (Sorted_unique Z.le).
  - change (map FormField.order ?l) with (FormField.order <$> l).
    apply (Sorted_fmap _ Db.fieldOrderLe); [now intros x y|].
    apply Sorted_merge_sort. apply _.
  - apply Sorted_count.
  - rewrite (Permutation_map FormField.order Hperm).
    unfold g. now rewrite renumbered_orders.
Qed.

Lemma DELETE_commits db formId fieldId f0 :
  Db.findField db fieldId formId = Some f0 ->
  let db1 := Db.deleteField db fieldId in
  Field.DELETE db formId fieldId
  = (Json 200 (MessageBody "Field deleted successfully"),
     Db.withFormFields db1
       (map (applyAll (Field.renumbering (Db.fieldsOfForm db1 formId)))
            (Db.formField db1))).
Proof.
  intros Hfound db1. unfold Field.DELETE. rewrite Hfound. fold db1.
  rewrite transaction_commits; [reflexivity|].
  intros k Hk. rewrite renumbering_keys in Hk.
  apply in_map_iff in Hk as (f & Hid & Hf). apply in_map_iff.
  exists f. split; [assumption|]. now apply fieldsOfForm_In in Hf.
Qed.

Lemma deleteField_In db fieldId f :
  In f (Db.formField (Db.deleteField db fieldId))
  <-> In f (Db.formField db) /\ FormField.id f <> fieldId.
Proof.
  unfold Db.deleteField. simpl.
  rewrite <- !list_elem_of_In, list_elem_of_filter. tauto.
Qed.

Lemma DELETE_renumbers db formId fieldId f0 :
  Db.wellFormed db ->
  Db.findField db fieldId formId = Some f0 ->
  exists db',
    Field.DELETE db formId fieldId
    = (Json 200 (MessageBody "Field deleted successfully"), db')
    /\ map FormField.order (Db.fieldsOfForm db' formId)
       = map Z.of_nat (seq 0 (length (Db.fieldsOfForm db' formId)))
    /\ (forall k, In k (map FormField.id (Db.fieldsOfForm db' formId))
                  <-> In k (map FormField.id (Db.fieldsOfForm db formId))
                      /\ k <> fieldId).
Proof.
  intros (_ & Hnd & _) Hfound.
  eexists. split; [apply (DELETE_commits db formId fieldId f0 Hfound)|].
  set (db1 := Db.deleteField db fieldId).
  assert (Hnd1 : NoDup (map FormField.id (Db.formField db1))).
  { unfold db1, Db.deleteField. simpl. now apply NoDup_ids_filter. }
  split.
  - change (Db.deleteField db fieldId) with db1.
    apply (renumbered_fields_count_from_zero db1 formId Hnd1).
  - intros k. rewrite !in_map_iff. split.
    + intros (f' & Hid & Hf'). apply fieldsOfForm_In in Hf' as [Hf' Hform].
      simpl in Hf'. apply in_map_iff in Hf' as (f & <- & Hf).
      rewrite applyAll_id in Hid. rewrite applyAll_formId in Hform.
      apply deleteField_In in Hf as [Hf Hne]. split; [|congruence].
      exists f. split; [assumption|]. now apply fieldsOfForm_In.
    + intros [(f & Hid & Hf) Hne]. apply fieldsOfForm_In in Hf as [Hf Hform].
      exists (applyAll (Field.renumbering (Db.fieldsOfForm db1 formId)) f).
      split; [now rewrite applyAll_id|].
      apply fieldsOfForm_In. split; [|now rewrite applyAll_formId].
      simpl. apply in_map. apply deleteField_In. split; [assumption|congruence].
Qed.

Lemma PUT_stores_given_orders db formId fields form :
  Db.findForm db formId = Some form ->
  (forall fo, In fo fields -> In (Fields.id fo) (map FormField.id (Db.formField db))) ->
  NoDup (map Fields.id fields) ->
  exists db',
    Fields.PUT db formId (Some fields)
    = (Json 200 (FieldsBody (Db.fieldsOfForm db' formId)), db')
    /\ (forall fo f, In fo fields -> In f (Db.formField db) ->
                     FormField.id f = Fields.id fo ->
                     In (Db.setOrder f (Fields.order fo)) (Db.formField db'))
    /\ (forall f, In f (Db.formField db) ->
                  ~ In (FormField.id f) (map Fields.id fields) ->
                  In f (Db.formField db')).
Proof.
  intros Hform Hknown Hnd.
  set (updates := map (fun field => (Fields.id field, Fields.order field)) fields).
  assert (Hkeys : map fst updates = map Fields.id fields).
  { unfold updates. rewrite map_map. reflexivity. }
  exists (Db.withFormFields db (map (applyAll updates) (Db.formField db))).
  split; [|split].
  - unfold Fields.PUT. rewrite Hform. fold updates.
    rewrite transaction_commits; [reflexivity|].
    intros k Hk. rewrite Hkeys in Hk.
    apply in_map_iff in Hk as (fo & <- & Hfo). now apply Hknown.
  - intros fo f Hfo Hf Hid. simpl.
    rewrite <- (applyAll_in updates f (Fields.order fo)).
    + now apply in_map.
    + now rewrite Hkeys.
    + rewrite Hid. unfold updates. apply in_map_iff. now exists fo.
  - intros f Hf Hnot. simpl.
    rewrite <- (applyAll_notin updates f) at 1 by (now rewrite Hkeys).
    now apply in_map.
Qed.

(** X23: the bulk update is one batch: when the form is stored and an element
    of the body names a field that is not stored, the answer is 500 and
    nothing is written. *)
Lemma PUT_all_or_nothing db formId fields form :
  Db.findForm db formId = Some form ->
  (exists fo, In fo fields
              /\ ~ In (Fields.id fo) (map FormField.id (Db.formField db))) ->
  Fields.PUT db formId (Some fields)
  = (Json 500 (ErrorBody "Failed to update form fields"), db).
Proof.
  intros Hform (fo & Hfo & Hnot). unfold Fields.PUT. rewrite Hform.
  rewrite transaction_rolls_back; [reflexivity|].
  exists (Fields.id fo). split; [|assumption].
  rewrite map_map. simpl. apply in_map_iff. now exists fo.
Qed.

(** C7 as amended.  A deletion renumbers: the fields that remain in the
    form are the earlier ones without the deleted one, and read in
    ascending order their order values are 0, 1, 2, ... without gap or
    repetition.  A bulk update does not renumber: when it names stored
    fields, each once, it stores for each the order value sent with it and
    leaves the other fields as they are. *)
Theorem deletion_renumbers_bulk_update_stores :
  (forall db formId fieldId f0,
      Db.wellFormed db ->
      Db.findField db fieldId formId = Some f0 ->
      exists db',
        Field.DELETE db formId fieldId
        = (Json 200 (MessageBody "Field deleted successfully"), db')
        /\ map FormField.order (Db.fieldsOfForm db' formId)
           = map Z.of_nat (seq 0 (length (Db.fieldsOfForm db' formId)))
        /\ (forall k, In k (map FormField.id (Db.fieldsOfForm db' formId))
                      <-> In k (map FormField.id (Db.fieldsOfForm db formId))
                          /\ k <> fieldId))
  /\ (forall db formId fields form,
        Db.findForm db formId = Some form ->
        (forall fo, In fo fields ->
                    In (Fields.id fo) (map FormField.id (Db.formField db))) ->
        NoDup (map Fields.id fields) ->
        exists db',
          Fields.PUT db formId (Some fields)
          = (Json 200 (FieldsBody (Db.fieldsOfForm db' formId)), db')
          /\ (forall fo f, In fo fields -> In f (Db.formField db) ->
                           FormField.id f = Fields.id fo ->
                           In (Db.setOrder f (Fields.order fo)) (Db.formField db'))
          /\ (forall f, In f (Db.formField db) ->
                        ~ In (FormField.id f) (map Fields.id fields) ->
                        In f (Db.formField db'))).
Proof.
  split.
  - apply DELETE_renumbers.
  - apply PUT_stores_given_orders.
Qed.

(** C7 fails for the bulk update: the order values of the body are stored
    as they come, here 5 for two fields while the third keeps its 2, which
    leaves a repetition and gaps. *)
Lemma bulk_update_does_not_renumber :
  map FormField.order
      (Db.fieldsOfForm
         (Fields.PUT orderedDb "F" (Some [fieldOrder "a" 5; fieldOrder "b" 5])).2 "F")
  = [2; 5; 5]%Z
  /\ [2; 5; 5]%Z <> map Z.of_nat (seq 0 3).
Proof. split; [vm_compute; reflexivity|discriminate]. Qed.

Lemma orderedDb_wellFormed : Db.wellFormed orderedDb.
Proof. repeat split; apply (bool_decide_unpack _); vm_compute; exact I. Defined.

(** The theorem at the deletion of the first of three fields and at a bulk
    update of two of them. *)
Lemma deletion_renumbers_bulk_update_stores_witness :
  (exists db',
      Field.DELETE orderedDb "F" "a"
      = (Json 200 (MessageBody "Field deleted successfully"), db')
      /\ map FormField.order (Db.fieldsOfForm db' "F")
         = map Z.of_nat (seq 0 (length (Db.fieldsOfForm db' "F")))
      /\ (forall k, In k (map FormField.id (Db.fieldsOfForm db' "F"))
                    <-> In k (map FormField.id (Db.fieldsOfForm orderedDb "F"))
                        /\ k <> "a"))
  /\ (exists db',
        Fields.PUT orderedDb "F" (Some [fieldOrder "a" 5; fieldOrder "b" 5])
        = (Json 200 (FieldsBody (Db.fieldsOfForm db' "F")), db')
        /\ (forall fo f, In fo [fieldOrder "a" 5; fieldOrder "b" 5] ->
                         In f (Db.formField orderedDb) ->
                         FormField.id f = Fields.id fo ->
                         In (Db.setOrder f (Fields.order fo)) (Db.formField db'))
        /\ (forall f, In f (Db.formField orderedDb) ->
                      ~ In (FormField.id f)
                           (map Fields.id [fieldOrder "a" 5; fieldOrder "b" 5]) ->
                      In f (Db.formField db'))).
Proof.
  split.
  - apply (proj1 deletion_renumbers_bulk_update_stores orderedDb "F" "a"
             (fieldOf "a" "First" SHORT_TEXT false 0) orderedDb_wellFormed eq_refl).
  - apply (proj2 deletion_renumbers_bulk_update_stores orderedDb "F"
             [fieldOrder "a" 5; fieldOrder "b" 5] (publishedForm None false) eq_refl).
    + intros fo [<-|[<-|[]]]; vm_compute; tauto.
    + apply (bool_decide_unpack _). vm_compute. exact I.
Defined.

(** * Further properties of the handlers and their helpers *)

(** ** Regular expressions: the matcher and the patterns *)

Lemma append_empty_l (a : string) : EmptyString +++ a = a.
Proof. reflexivity. Qed.

Lemma append_eq_empty (a b : string) :
  a +++ b = EmptyString -> a = EmptyString /\ b = EmptyString.
Proof.
  destruct a as [|x a].
  - rewrite append_empty_l. now intros ->.
  - rewrite append_cons. discriminate.
Qed.

Lemma append_eq_cons (a b : string) c s :
  a +++ b = String c s ->
  (a = EmptyString /\ b = String c s)
  \/ exists a', a = String c a' /\ s = a' +++ b.
Proof.
  destruct a as [|x a].
  - rewrite append_empty_l. now left.
  - rewrite append_cons. intros [= -> <-]. right. now exists a.
Qed.

Lemma Matches_nullable r : Regex.nullable r = true <-> Matches r EmptyString.
Proof.
  induction r as [| |p|r1 IH1 r2 IH2|r1 IH1 r2 IH2|r IH]; simpl.
  - split; [discriminate|]. inversion 1.
  - split; [constructor|reflexivity].
  - split; [discriminate|]. inversion 1.
  - rewrite andb_true_iff, IH1, IH2. split.
    + intros [H1 H2]. apply (MatchesSeq _ _ EmptyString EmptyString H1 H2).
    + inversion 1 as [| |? ? s1 s2 H1 H2 Hr Hs| | | |]; subst.
      apply append_eq_empty in Hs as [-> ->]. now split.
  - rewrite orb_true_iff, IH1, IH2. split.
    + intros [H|H]; [now apply MatchesAltL|now apply MatchesAltR].
    + inversion 1; subst; [now left|now right].
  - split; [constructor|reflexivity].
Qed.

(** A match of a starred expression that starts with [c] starts with a
    match of the expression that starts with [c]. *)
Lemma Matches_star_cons r c s :
  Matches (Regex.Star r) (String c s) ->
  exists s1 s2, s = s1 +++ s2 /\ Matches r (String c s1) /\ Matches (Regex.Star r) s2.
Proof.
  intros H. remember (Regex.Star r) as r' eqn:Hr. remember (String c s) as t eqn:Ht.
  revert s Ht.
  induction H as [| | | | | |r0 s1 s2 H1 _ H2 IH2]; intros t Ht; try discriminate.
  injection Hr as ->.
  apply append_eq_cons in Ht as [[-> ->]|(s1' & -> & ->)].
  - now apply IH2.
  - now exists s1', s2.
Qed.

Lemma Matches_deriv r : forall c s,
  Matches (Regex.deriv c r) s <-> Matches r (String c s).
Proof.
  induction r as [| |p|r1 IH1 r2 IH2|r1 IH1 r2 IH2|r IH]; intros c s; simpl.
  - split; inversion 1.
  - split; inversion 1.
  - destruct (p c) eqn:Hp; split.
    + inversion 1; subst. now apply MatchesClass.
    + inversion 1; subst. constructor.
    + inversion 1.
    + inversion 1; subst. congruence.
  - assert (Hseq : Matches (Regex.Seq (Regex.deriv c r1) r2) s ->
                   Matches (Regex.Seq r1 r2) (String c s)).
    { inversion 1 as [| |? ? s1 s2 H1 H2| | | |]; subst.
      rewrite <- append_cons. apply MatchesSeq; [now apply IH1|assumption]. }
    destruct (Regex.nullable r1) eqn:Hn; split.
    + inversion 1 as [| | |? ? ? H1|? ? ? H2| |]; subst; [now apply Hseq|].
      rewrite <- (append_empty_l (String c s)).
      apply MatchesSeq; [now apply Matches_nullable|now apply IH2].
    + inversion 1 as [| |? ? s1 s2 H1 H2 Hr Hs| | | |]; subst.
      apply append_eq_cons in Hs as [[-> ->]|(s1' & -> & ->)].
      * apply MatchesAltR. now apply IH2.
      * apply MatchesAltL. apply MatchesSeq; [now apply IH1|assumption].
    + apply Hseq.
    + inversion 1 as [| |? ? s1 s2 H1 H2 Hr Hs| | | |]; subst.
      apply append_eq_cons in Hs as [[-> ->]|(s1' & -> & ->)].
      * apply Matches_nullable in H1. congruence.
      * apply MatchesSeq; [now apply IH1|assumption].
  - split.
    + inversion 1; subst; [apply MatchesAltL; now apply IH1|apply MatchesAltR; now apply IH2].
    + inversion 1; subst; [apply MatchesAltL; now apply IH1|apply MatchesAltR; now apply IH2].
  - split.
    + inversion 1 as [| |? ? s1 s2 H1 H2| | | |]; subst.
      rewrite <- append_cons. apply MatchesStarApp; [now apply IH|assumption].
    + intros H. apply Matches_star_cons in H as (s1 & s2 & -> & H1 & H2).
      apply MatchesSeq; [now apply IH|assumption].
Qed.

(** The matcher decides matching. *)
Lemma test_Matches s : forall r, Regex.test r s = true <-> Matches r s.
Proof.
  induction s as [|c s IH]; intros r; simpl.
  - apply Matches_nullable.
  - rewrite IH. apply Matches_deriv.
Qed.

Lemma Matches_seq r1 r2 s :
  Matches (Regex.Seq r1 r2) s
  <-> exists s1 s2, s = s1 +++ s2 /\ Matches r1 s1 /\ Matches r2 s2.
Proof.
  split.
  - inversion 1 as [| |? ? s1 s2 H1 H2| | | |]; subst. now exists s1, s2.
  - intros (s1 & s2 & -> & H1 & H2). now apply MatchesSeq.
Qed.

Lemma Matches_class p s :
  Matches (Regex.Class p) s <-> exists c, s = str c /\ p c = true.
Proof.
  split.
  - inversion 1 as [|? c Hp| | | | |]; subst. now exists c.
  - intros (c & -> & Hp). now apply MatchesClass.
Qed.

Lemma Matches_char c s : Matches (Regex.char c) s <-> s = str c.
Proof.
  unfold Regex.char. rewrite Matches_class. split.
  - intros (c' & -> & Hc). apply Ascii.eqb_eq in Hc. now subst.
  - intros ->. exists c. split; [reflexivity|apply Ascii.eqb_refl].
Qed.

Lemma Matches_opt r s :
  Matches (Regex.opt r) s <-> s = EmptyString \/ Matches r s.
Proof.
  unfold Regex.opt. split.
  - inversion 1 as [| | |? ? ? H1|? ? ? H2| |]; subst; [left|now right].
    now inversion H1.
  - intros [->|H]; [apply MatchesAltL; constructor|now apply MatchesAltR].
Qed.

Lemma Matches_star_class p s :
  Matches (Regex.Star (Regex.Class p)) s <-> allChars p s = true.
Proof.
  split.
  - intros H. remember (Regex.Star (Regex.Class p)) as r eqn:Hr.
    induction H as [| | | | | |r0 s1 s2 H1 _ H2 IH2]; try discriminate; [reflexivity|].
    injection Hr as ->. apply Matches_class in H1 as (c & -> & Hp).
    unfold str. rewrite append_cons, append_empty_l. simpl.
    now rewrite Hp, IH2.
  - induction s as [|c s IH]; simpl; [constructor|].
    intros [Hp Hs]%andb_true_iff.
    change (String c s) with (str c +++ s).
    apply MatchesStarApp; [now apply MatchesClass|now apply IH].
Qed.

Lemma Matches_plus_class p s :
  Matches (Regex.plus (Regex.Class p)) s
  <-> s <> EmptyString /\ allChars p s = true.
Proof.
  unfold Regex.plus. rewrite Matches_seq. split.
  - intros (s1 & s2 & -> & H1 & H2).
    apply Matches_class in H1 as (c & -> & Hp). apply Matches_star_class in H2.
    unfold str. rewrite append_cons, append_empty_l. simpl.
    rewrite Hp, H2. now split.
  - destruct s as [|c s]; [now intros [? _]|]. simpl.
    intros [_ [Hp Hs]%andb_true_iff].
    exists (str c), s. repeat split.
    + now apply MatchesClass.
    + now apply Matches_star_class.
Qed.

Lemma Matches_upTo_class n p : forall s,
  Matches (Regex.upTo n (Regex.Class p)) s
  <-> allChars p s = true /\ String.length s <= n.
Proof.
  induction n as [|n IH]; intros s; simpl.
  - split.
    + inversion 1. now split.
    + intros [_ Hlen]. destruct s; [constructor|simpl in Hlen; lia].
  - rewrite Matches_opt, Matches_seq. split.
    + intros [->|(s1 & s2 & -> & H1 & H2)]; [simpl; split; [reflexivity|lia]|].
      apply Matches_class in H1 as (c & -> & Hp). apply IH in H2 as [Hs Hlen].
      unfold str. rewrite append_cons, append_empty_l. simpl.
      rewrite Hp, Hs. split; [reflexivity|lia].
    + destruct s as [|c s]; [now left|]. simpl.
      intros [[Hp Hs]%andb_true_iff Hlen]. right.
      exists (str c), s. repeat split.
      * now apply MatchesClass.
      * apply IH. split; [assumption|lia].
Qed.

Lemma isWord_spec s :
  isWord s = true
  <-> s <> EmptyString
      /\ allChars (fun c => negb (JS.isWhiteSpace c || Ascii.eqb c "@")) s = true.
Proof.
  unfold isWord. rewrite andb_true_iff, negb_true_iff, String.eqb_neq. tauto.
Qed.

(** X1: the email validator accepts exactly the strings made of three parts
    joined by one [@] and a dot, each part non-empty and free of white
    space and of [@]; the middle part may itself have dots. *)
Theorem email_validator_shape platform value :
  Submit.fieldValidators platform EMAIL value = true
  <-> exists localPart domain tld,
        value = localPart +++ str "@" +++ domain +++ str "." +++ tld
        /\ isWord localPart = true /\ isWord domain = true /\ isWord tld = true.
Proof.
  unfold Submit.fieldValidators, Submit.emailPattern.
  rewrite test_Matches, Matches_seq. split.
  - intros (a & rest1 & -> & Ha & H1).
    apply Matches_seq in H1 as (at1 & rest2 & -> & Hat & H2).
    apply Matches_seq in H2 as (b & rest3 & -> & Hb & H3).
    apply Matches_seq in H3 as (dot & c & -> & Hdot & Hc).
    apply Matches_char in Hat as ->. apply Matches_char in Hdot as ->.
    apply Matches_plus_class in Ha, Hb, Hc.
    exists a, b, c. split; [reflexivity|].
    now rewrite !isWord_spec.
  - intros (a & b & c & -> & Ha & Hb & Hc).
    apply isWord_spec in Ha, Hb, Hc.
    exists a, (str "@" +++ b +++ str "." +++ c). split; [reflexivity|].
    split; [now apply Matches_plus_class|].
    apply Matches_seq. exists (str "@"), (b +++ str "." +++ c).
    split; [reflexivity|]. split; [now apply Matches_char|].
    apply Matches_seq. exists b, (str "." +++ c).
    split; [reflexivity|]. split; [now apply Matches_plus_class|].
    apply Matches_seq. exists (str "."), c.
    split; [reflexivity|]. split; [now apply Matches_char|now apply Matches_plus_class].
Qed.

(** X2: the phone validator looks at the value without its white space,
    hyphens and parentheses, and accepts it exactly when what is left is an
    optional [+], a digit from 1 to 9, and at most fifteen more digits. *)
Theorem phone_validator_shape platform value :
  Submit.fieldValidators platform PHONE value = true
  <-> exists sign first rest,
        JS.removeAll Submit.phoneNoise value = sign +++ String first rest
        /\ (sign = EmptyString \/ sign = "+")
        /\ Regex.inRange 49 57 first = true
        /\ allChars (Regex.inRange 48 57) rest = true
        /\ String.length rest <= 15.
Proof.
  unfold Submit.fieldValidators, Submit.phonePattern.
  rewrite test_Matches, Matches_seq. split.
  - intros (sign & rest1 & -> & Hsign & H1).
    apply Matches_seq in H1 as (d & rest & -> & Hd & Hrest).
    apply Matches_class in Hd as (first & -> & Hfirst).
    apply Matches_upTo_class in Hrest as [Hall Hlen].
    apply Matches_opt in Hsign.
    exists sign, first, rest. split; [reflexivity|]. split; [|now repeat split].
    destruct Hsign as [->|Hplus]; [now left|right]. now apply Matches_char in Hplus.
  - intros (sign & first & rest & -> & Hsign & Hfirst & Hall & Hlen).
    exists sign, (String first rest). split; [reflexivity|]. split.
    + apply Matches_opt. destruct Hsign as [->| ->]; [now left|right].
      now apply Matches_char.
    + apply Matches_seq. exists (str first), rest. split; [reflexivity|].
      split; [now apply MatchesClass|]. apply Matches_upTo_class. now split.
Qed.

(** ** The submission handler: what it writes and when *)

Section SubmitFurther.

Context (platform : Platform).

(** X11: the handler never changes a form or a field and never changes or
    removes a stored response or value: it adds at most one response, and
    rows only when it answers 201 or 500. *)
Theorem POST_only_appends db id request data :
  let answer := Submit.POST platform db id request data in
  Db.form answer.2 = Db.form db
  /\ Db.formField answer.2 = Db.formField db
  /\ (exists responses values,
        Db.formResponse answer.2 = Db.formResponse db ++ responses
        /\ Db.responseField answer.2 = Db.responseField db ++ values
        /\ length responses <= 1)
  /\ (statusCode answer.1 <> 201 -> statusCode answer.1 <> 500 -> answer.2 = db).
Proof.
  assert (Hsame : forall r, let answer := (r, db) in
            Db.form answer.2 = Db.form db
            /\ Db.formField answer.2 = Db.formField db
            /\ (exists responses values,
                  Db.formResponse answer.2 = Db.formResponse db ++ responses
                  /\ Db.responseField answer.2 = Db.responseField db ++ values
                  /\ length responses <= 1)
            /\ (statusCode answer.1 <> 201 -> statusCode answer.1 <> 500 -> answer.2 = db)).
  { intros r. simpl. split; [reflexivity|]. split; [reflexivity|]. split; [|trivial].
    exists [], []. rewrite !app_nil_r. repeat split. simpl. lia. }
  unfold Submit.POST.
  destruct (Db.findForm db id) as [form|]; [|apply Hsame].
  destruct (negb _); [apply Hsame|].
  destruct (Submit.limitReached db id form); [apply Hsame|].
  destruct (Nat.ltb 0 _); [apply Hsame|].
  destruct (Submit.isDuplicate db id form data); [apply Hsame|].
  destruct (Submit.responseFieldsData _ _) as [|row rows] eqn:Hrows.
  - simpl. split; [reflexivity|]. split; [reflexivity|]. split; [|intros H; now elim H].
    exists [Submit.newResponse id data request], []. now rewrite app_nil_r.
  - unfold Db.createManyResponseFields.
    destruct (forallb _ _); simpl.
    + split; [reflexivity|]. split; [reflexivity|]. split; [|intros H; now elim H].
      now exists [Submit.newResponse id data request], (row :: rows).
    + split; [reflexivity|]. split; [reflexivity|]. split; [|intros _ H; now elim H].
      exists [Submit.newResponse id data request], []. now rewrite app_nil_r.
Qed.

(** A form that is missing or not published takes no submission: the
    answer is 404 or 400 whatever the body, and nothing is written. *)
Theorem POST_needs_a_published_form db id request data :
  (Db.findForm db id = None ->
   Submit.POST platform db id request data
   = (Json 404 (ErrorBody "Form not found"), db))
  /\ (forall form,
        Db.findForm db id = Some form -> Form.status form <> PUBLISHED ->
        Submit.POST platform db id request data
        = (Json 400 (ErrorBody "Form is not accepting submissions at this time"), db)).
Proof.
  unfold Submit.POST. split.
  - now intros ->.
  - intros form -> Hstatus. now rewrite bool_decide_eq_false_2.
Qed.

End SubmitFurther.

(** ** The submission handler: what validation lets through *)

Lemma flat_map_nil {A B} (f : A -> list B) l :
  flat_map f l = [] -> forall x, In x l -> f x = [].
Proof.
  induction l as [|a l IH]; simpl; [tauto|].
  intros [Ha Hl]%app_eq_nil x [<-|Hx]; [assumption|now apply IH].
Qed.

Lemma flat_map_ext_In {A B} (f g : A -> list B) l :
  (forall x, In x l -> f x = g x) -> flat_map f l = flat_map g l.
Proof.
  induction l as [|a l IH]; simpl; [reflexivity|].
  intros H. rewrite (H a) by now left. rewrite IH; [reflexivity|].
  intros x Hx. apply H. now right.
Qed.

Lemma find_filter_implied {A} (p q : A -> bool) l :
  (forall x, p x = true -> q x = true) ->
  find p (List.filter q l) = find p l.
Proof.
  intros Hpq. induction l as [|a l IH]; simpl; [reflexivity|].
  destruct (q a) eqn:Hq; simpl.
  - now rewrite IH.
  - destruct (p a) eqn:Hp; [|assumption].
    rewrite (Hpq a Hp) in Hq. discriminate.
Qed.

Lemma fieldMap_lookup_unknown (formFields : list FormField.t) k :
  ~ In k (map FormField.id formFields) ->
  JS.mapOf (map (fun f => (FormField.id f, f)) formFields) !! k = None.
Proof.
  intros Hk. unfold JS.mapOf. rewrite mapOf_foldl_notin.
  - apply lookup_empty.
  - now rewrite map_map.
Qed.

Section Validation.

Context (platform : Platform).

(** X4: a submission without validation errors, to fields with distinct
    ids, is a valid one: every required field has an entry with a value
    that is not blank, every value that is not blank passes the validator
    of its field, and every part between commas, trimmed and not empty, of
    a value for a dropdown, radio or checkbox field that has options is
    one of the options. *)
Theorem accepted_submission_is_valid formFields submitted :
  NoDup (map FormField.id formFields) ->
  Submit.validationErrors platform formFields submitted = [] ->
  (forall field, In field formFields -> FormField.required field = true ->
     exists e, In e submitted /\ Submit.fieldId e = FormField.id field
               /\ Submit.nonBlank (Submit.value e) = true)
  /\ (forall field e, In field formFields -> In e submitted ->
        Submit.fieldId e = FormField.id field ->
        Submit.nonBlank (Submit.value e) = true ->
        Submit.fieldValidators platform (FormField.type field) (Submit.value e) = true)
  /\ (forall field e token, In field formFields -> In e submitted ->
        Submit.fieldId e = FormField.id field ->
        Submit.hasOptions (FormField.type field) = true ->
        FormField.options field <> [] ->
        In token (map JS.trim (JS.split comma (Submit.value e))) ->
        token <> EmptyString ->
        In token (FormField.options field)).
Proof.
  intros Hnd Herr. unfold Submit.validationErrors in Herr.
  apply app_eq_nil in Herr as [Hreq Hent].
  pose proof (flat_map_nil _ _ Hreq) as Hreq'.
  pose proof (flat_map_nil _ _ Hent) as Hent'.
  split; [|split].
  - intros field Hin Hrequired.
    specialize (Hreq' field). cbv beta in Hreq'.
    destruct (find _ submitted) as [e|] eqn:Hfind.
    + apply find_some in Hfind as [He Hid]. apply String.eqb_eq in Hid.
      exists e. split; [assumption|]. split; [assumption|].
      unfold Submit.nonBlank.
      destruct (String.eqb (JS.trim (Submit.value e)) EmptyString); [|reflexivity].
      discriminate Hreq'. apply filter_In. now split.
    + discriminate Hreq'. apply filter_In. now split.
  - intros field e Hin He Hid Hnb.
    specialize (Hent' e He). unfold Submit.entryErrors in Hent'.
    rewrite Hid, (fieldMap_lookup formFields field Hnd Hin), Hnb in Hent'.
    apply app_eq_nil in Hent' as [Hdata _].
    destruct (Submit.fieldValidators _ _ _); [reflexivity|discriminate].
  - intros field e token Hin He Hid Hopt Hne Htoken Hnonempty.
    specialize (Hent' e He). unfold Submit.entryErrors in Hent'.
    rewrite Hid, (fieldMap_lookup formFields field Hnd Hin), Hopt in Hent'.
    apply app_eq_nil in Hent' as [_ Hoption].
    destruct (FormField.options field) as [|o options] eqn:Hoptions; [congruence|].
    simpl in Hoption.
    destruct (Submit.firstInvalidOption _ _) eqn:Hfirst; [discriminate|].
    unfold Submit.firstInvalidOption in Hfirst.
    pose proof (find_none _ _ Hfirst token Htoken) as Hok. simpl in Hok.
    apply andb_false_iff in Hok as [Hok|Hok].
    + apply negb_false_iff, String.eqb_eq in Hok. contradiction.
    + apply negb_false_iff, bool_decide_eq_true in Hok. now apply list_elem_of_In.
Qed.

(** X5: entries that name no field of the form count for nothing in
    validation: with or without them the errors are the same. *)
Theorem unknown_entries_are_ignored formFields submitted :
  Submit.validationErrors platform formFields submitted
  = Submit.validationErrors platform formFields
      (List.filter (namesFieldOf formFields) submitted).
Proof.
  unfold Submit.validationErrors. f_equal.
  - unfold Submit.requiredErrors. apply flat_map_ext_In.
    intros field [Hin _]%filter_In.
    rewrite find_filter_implied; [reflexivity|].
    intros e He. apply String.eqb_eq in He. unfold namesFieldOf.
    apply bool_decide_eq_true. rewrite He. apply list_elem_of_In. now apply in_map.
  - induction submitted as [|e submitted IH]; simpl; [reflexivity|].
    unfold namesFieldOf at 1. case_bool_decide as Hknown; simpl.
    + now rewrite IH.
    + rewrite <- IH. unfold Submit.entryErrors at 1.
      rewrite fieldMap_lookup_unknown; [reflexivity|].
      now rewrite <- list_elem_of_In.
Qed.


End Validation.

(** ** Blank values *)

Lemma trimStart_empty s :
  JS.trimStart s = EmptyString -> allChars JS.isWhiteSpace s = true.
Proof.
  induction s as [|c s IH]; simpl; [reflexivity|].
  destruct (JS.isWhiteSpace c); [assumption|discriminate].
Qed.

Lemma trimEnd_keeps_first c s :
  JS.isWhiteSpace c = false -> JS.trimEnd (String c s) <> EmptyString.
Proof.
  intros Hc. simpl. destruct (JS.trimEnd s); [now rewrite Hc|discriminate].
Qed.

Lemma trimStart_first s :
  JS.trimStart s = EmptyString
  \/ exists c s', JS.trimStart s = String c s' /\ JS.isWhiteSpace c = false.
Proof.
  induction s as [|c s IH]; simpl; [now left|].
  destruct (JS.isWhiteSpace c) eqn:Hc; [assumption|].
  right. now exists c, s.
Qed.

(** A value is blank exactly when all its characters are white space. *)
Lemma trim_empty_iff s :
  JS.trim s = EmptyString <-> allChars JS.isWhiteSpace s = true.
Proof.
  unfold JS.trim. split.
  - destruct (trimStart_first s) as [Hs|(c & s' & Hs & Hc)].
    + intros _. now apply trimStart_empty.
    + rewrite Hs. intros H. now apply trimEnd_keeps_first in H.
  - intros Hall. assert (JS.trimStart s = EmptyString) as ->; [|reflexivity].
    induction s as [|c s IH]; simpl; [reflexivity|].
    simpl in Hall. apply andb_true_iff in Hall as [-> Hall]. now apply IH.
Qed.

Lemma split_without_separator c s :
  containsChar c s = false -> JS.split c s = [s].
Proof.
  induction s as [|a s IH]; simpl; [reflexivity|].
  intros [Ha Hs]%orb_false_iff. now rewrite Ha, (IH Hs).
Qed.

Lemma whitespace_has_no_comma s :
  allChars JS.isWhiteSpace s = true -> containsChar comma s = false.
Proof.
  induction s as [|a s IH]; simpl; [reflexivity|].
  intros [Ha Hs]%andb_true_iff. rewrite (IH Hs), orb_false_r.
  destruct (Ascii.eqb_spec a comma) as [->|]; [discriminate Ha|reflexivity].
Qed.

Section BlankValues.

Context (platform : Platform).

(** X6: a blank value is neither checked nor stored: its entry raises no
    error in the loop over the entries, whatever the field, and no stored
    value is blank. *)
Theorem blank_values_are_dropped fieldMap responseId submitted :
  (forall e, Submit.nonBlank (Submit.value e) = false ->
             Submit.entryErrors platform fieldMap e = [])
  /\ (forall row, In row (Submit.responseFieldsData responseId submitted) ->
                  Submit.nonBlank (ResponseField.value row) = true
                  /\ ResponseField.responseId row = responseId
                  /\ exists e, In e submitted
                               /\ Submit.fieldId e = ResponseField.fieldId row
                               /\ Submit.value e = ResponseField.value row).
Proof.
  split.
  - intros e Hblank. unfold Submit.entryErrors.
    destruct (fieldMap !! Submit.fieldId e) as [field|]; [|reflexivity].
    rewrite Hblank. simpl.
    destruct (Submit.hasOptions _ && _); [|reflexivity].
    unfold Submit.nonBlank in Hblank. apply negb_false_iff, String.eqb_eq in Hblank.
    unfold Submit.firstInvalidOption.
    rewrite split_without_separator
      by (now apply whitespace_has_no_comma, trim_empty_iff).
    simpl. rewrite Hblank. reflexivity.
  - intros row Hrow. unfold Submit.responseFieldsData in Hrow.
    apply in_map_iff in Hrow as (e & <- & [He Hnb]%filter_In). simpl.
    split; [assumption|]. split; [reflexivity|]. now exists e.
Qed.

End BlankValues.

(** ** The address and the agent of the client *)

(** X9: the address and the agent stored with a response are never the
    empty string, whatever the headers of the request are: a header that
    is absent or empty is passed over. *)
Theorem client_info_is_never_empty request :
  Submit.clientIP request <> EmptyString /\ Submit.userAgent request <> EmptyString.
Proof.
  unfold Submit.clientIP, Submit.userAgent, Submit.orElse, JS.truthy.
  split.
  - destruct (Submit.xForwardedFor request) as [[|? ?]|];
      destruct (Submit.xRealIp request) as [[|? ?]|];
      destruct (Submit.ip request) as [[|? ?]|]; simpl; discriminate.
  - destruct (Submit.userAgentHeader request) as [[|? ?]|]; simpl; discriminate.
Qed.

(** ** The limit and the duplicate check *)

Lemma limitReached_characterised db id form :
  Submit.limitReached db id form = true
  <-> exists n, Settings.maxSubmissions (Form.settings form) = Some n
                /\ (0 < n <= Db.countResponses db id)%Z.
Proof.
  unfold Submit.limitReached.
  destruct (Settings.maxSubmissions (Form.settings form)) as [n|].
  - rewrite !andb_true_iff, negb_true_iff, Z.eqb_neq, Z.ltb_lt, Z.leb_le. split.
    + intros [[_ Hpos] Hcount]. exists n. split; [reflexivity|lia].
    + intros (n' & [= <-] & Hn). lia.
  - split; [discriminate|]. intros (n & Hn & _). discriminate.
Qed.

Lemma isDuplicate_characterised db id form data :
  Submit.isDuplicate db id form data = true
  <-> Settings.preventDuplicates (Form.settings form) = true
      /\ exists email, Submit.respondentEmail data = Some email
                       /\ email <> EmptyString
                       /\ exists r, In r (Db.formResponse db)
                                    /\ FormResponse.formId r = id
                                    /\ FormResponse.respondentEmail r = Some email.
Proof.
  unfold Submit.isDuplicate, JS.truthy, Db.findFirstResponse.
  rewrite !andb_true_iff, bool_decide_eq_true. split.
  - intros [[Hprevent Hemail] [r Hfind]]. split; [assumption|].
    destruct (Submit.respondentEmail data) as [email|]; [|discriminate].
    exists email. split; [reflexivity|].
    apply negb_true_iff, String.eqb_neq in Hemail. split; [assumption|].
    apply find_some in Hfind as [Hr [Hid Hre]%andb_true_iff].
    exists r. split; [assumption|]. split.
    + now apply String.eqb_eq.
    + now apply bool_decide_eq_true in Hre.
  - intros (Hprevent & email & -> & Hemail & r & Hr & Hid & Hre).
    split; [split; [assumption|]|].
    + now apply negb_true_iff, String.eqb_neq.
    + simpl. destruct (find _ (Db.formResponse db)) as [r'|] eqn:Hfind; [now exists r'|].
      pose proof (find_none _ _ Hfind r Hr) as Hno. simpl in Hno.
      rewrite Hid, String.eqb_refl, bool_decide_eq_true_2 in Hno by assumption.
      discriminate.
Qed.

Section Rejections.

Context (platform : Platform).

(** X7: a published form answers a submission with the limit error
    exactly when its limit is a positive number that the count of its
    responses has reached, whatever the submission is; zero or a negative
    number is no limit.  The store is then left as it was. *)
Theorem limit_error_iff db id request data form :
  Db.findForm db id = Some form ->
  Form.status form = PUBLISHED ->
  ((Submit.POST platform db id request data).1
   = Json 400 (ErrorBody "This form has reached its submission limit")
   <-> exists n, Settings.maxSubmissions (Form.settings form) = Some n
                 /\ (0 < n <= Db.countResponses db id)%Z)
  /\ ((Submit.POST platform db id request data).1
      = Json 400 (ErrorBody "This form has reached its submission limit") ->
      (Submit.POST platform db id request data).2 = db).
Proof.
  intros Hform Hstatus. rewrite <- limitReached_characterised.
  unfold Submit.POST. rewrite Hform, Hstatus, bool_decide_eq_true_2 by reflexivity.
  cbn [negb]. cbv zeta.
  destruct (Submit.limitReached db id form); [now split|].
  destruct (Nat.ltb 0 _); [split; [split|]; discriminate|].
  destruct (Submit.isDuplicate db id form data); [split; [split|]; discriminate|].
  destruct (Submit.responseFieldsData _ _); [split; [split|]; discriminate|].
  destruct (Db.createManyResponseFields _ _); split; try split; discriminate.
Qed.

(** X8: a published form answers a submission with the duplicate error
    exactly when the limit does not stop it, the validation finds no
    error, the form prevents duplicates, the submission has an address
    that is not empty, and a response to the same form is stored with the
    very same address.  The store is then left as it was. *)
Theorem duplicate_error_iff db id request data form :
  Db.findForm db id = Some form ->
  Form.status form = PUBLISHED ->
  ((Submit.POST platform db id request data).1
   = Json 400 (ErrorBody "You have already submitted this form")
   <-> ~ (exists n, Settings.maxSubmissions (Form.settings form) = Some n
                    /\ (0 < n <= Db.countResponses db id)%Z)
       /\ Submit.validationErrors platform (Db.fieldsOfForm db id) (Submit.fields data) = []
       /\ Settings.preventDuplicates (Form.settings form) = true
       /\ exists email, Submit.respondentEmail data = Some email
                        /\ email <> EmptyString
                        /\ exists r, In r (Db.formResponse db)
                                     /\ FormResponse.formId r = id
                                     /\ FormResponse.respondentEmail r = Some email)
  /\ ((Submit.POST platform db id request data).1
      = Json 400 (ErrorBody "You have already submitted this form") ->
      (Submit.POST platform db id request data).2 = db).
Proof.
  intros Hform Hstatus.
  rewrite <- limitReached_characterised, <- isDuplicate_characterised.
  unfold Submit.POST. rewrite Hform, Hstatus, bool_decide_eq_true_2 by reflexivity.
  cbn [negb]. cbv zeta.
  destruct (Submit.limitReached db id form).
  { split; [split; [discriminate|]|discriminate]. intros [Hno _]. now elim Hno. }
  destruct (Submit.validationErrors platform _ _) as [|e errors].
  2:{ split; [split; [discriminate|]|discriminate]. intros (_ & H & _). discriminate H. }
  cbn [length Nat.ltb Nat.leb].
  destruct (Submit.isDuplicate db id form data).
  { split; [|reflexivity]. split; [|reflexivity]. intros _.
    split; [discriminate|]. now split. }
  assert (Hno : false = true -> False) by discriminate.
  destruct (Submit.responseFieldsData _ _).
  { split; [split; [discriminate|]|discriminate]. intros (_ & _ & H). now elim Hno. }
  destruct (Db.createManyResponseFields _ _);
    (split; [split; [discriminate|]|discriminate]); intros (_ & _ & H); now elim Hno.
Qed.

End Rejections.

(** ** Accepted submissions and what follows them *)

Lemma countResponses_after db id request data :
  Db.countResponses (afterSubmission db id request data) id
  = (Db.countResponses db id + 1)%Z.
Proof.
  unfold Db.countResponses, afterSubmission. simpl.
  rewrite filter_app, length_app, filter_cons_True by reflexivity.
  simpl. lia.
Qed.

Section Accepted.

Context (platform : Platform).

Lemma POST_accepts db id request data form :
  passesAllChecks platform db id data form ->
  Submit.POST platform db id request data
  = (Json 201 (SubmitOk (Submit.newResponseId request) "Form submitted successfully"
                        (Submit.now request)),
     afterSubmission db id request data).
Proof.
  intros (Hform & Hstatus & Hlimit & Herr & Hdup & Hknown).
  rewrite (POST_published platform db id request data form Hform Hstatus Hlimit).
  cbv zeta. rewrite Herr, Hdup. simpl Nat.ltb. cbv iota.
  unfold afterSubmission. simpl FormResponse.id.
  destruct (Submit.responseFieldsData _ _) as [|row rows] eqn:Hrows.
  - unfold Db.createResponse. now rewrite app_nil_r.
  - unfold Db.createManyResponseFields.
    assert (Hfk : forallb
              (fun row0 =>
                 bool_decide (ResponseField.fieldId row0
                                ∈ map FormField.id
                                    (Db.formField
                                       (Db.createResponse db
                                          (Submit.newResponse id data request))))
                 && bool_decide (ResponseField.responseId row0
                                   ∈ map FormResponse.id
                                       (Db.formResponse
                                          (Db.createResponse db
                                             (Submit.newResponse id data request)))))
              (row :: rows) = true).
    { apply forallb_forall. intros r Hr. rewrite <- Hrows in Hr.
      unfold Submit.responseFieldsData in Hr.
      apply in_map_iff in Hr as (e & <- & [He Hnb]%filter_In). simpl.
      apply andb_true_iff. split; apply bool_decide_eq_true, list_elem_of_In.
      - now apply Hknown.
      - rewrite map_app. apply in_or_app. right. now left. }
    rewrite Hfk. reflexivity.
Qed.

Lemma POST_at_limit db id request data form :
  Db.findForm db id = Some form ->
  Form.status form = PUBLISHED ->
  Submit.limitReached db id form = true ->
  Submit.POST platform db id request data
  = (Json 400 (ErrorBody "This form has reached its submission limit"), db).
Proof.
  intros Hform Hstatus Hlimit. unfold Submit.POST.
  now rewrite Hform, bool_decide_eq_true_2, Hlimit by assumption.
Qed.

(** X10: a submission that passes every check, and whose values that are not
    blank are for stored fields, is answered 201, and the store gains the
    response, tagged NEW, with one value for each entry that is not blank,
    in the order of the body, and nothing else changes. *)
Theorem accepted_submission_is_stored db id request data form :
  passesAllChecks platform db id data form ->
  Submit.POST platform db id request data
  = (Json 201 (SubmitOk (Submit.newResponseId request) "Form submitted successfully"
                        (Submit.now request)),
     {| Db.form := Db.form db;
        Db.formField := Db.formField db;
        Db.formResponse :=
          Db.formResponse db
          ++ [{| FormResponse.id := Submit.newResponseId request;
                 FormResponse.formId := id;
                 FormResponse.respondentEmail :=
                   if JS.truthy (Submit.respondentEmail data)
                   then Submit.respondentEmail data else None;
                 FormResponse.ipAddress := Some (Submit.clientIP request);
                 FormResponse.userAgent := Some (Submit.userAgent request);
                 FormResponse.status := NEW;
                 FormResponse.submittedAt := Submit.now request |}];
        Db.responseField :=
          Db.responseField db
          ++ map (fun e => {| ResponseField.responseId := Submit.newResponseId request;
                              ResponseField.fieldId := Submit.fieldId e;
                              ResponseField.value := Submit.value e |})
                 (List.filter (fun e => Submit.nonBlank (Submit.value e))
                              (Submit.fields data)) |}).
Proof. apply POST_accepts. Qed.

(** X12: the submission that takes the last place under the limit is accepted
    and closes the form: the next one is answered with the limit error,
    whatever it is, and is not written. *)
Theorem last_place_closes_the_form db id request data form n request' data' :
  passesAllChecks platform db id data form ->
  Settings.maxSubmissions (Form.settings form) = Some n ->
  (Db.countResponses db id + 1 = n)%Z ->
  let first := Submit.POST platform db id request data in
  statusCode first.1 = 201
  /\ Submit.POST platform first.2 id request' data'
     = (Json 400 (ErrorBody "This form has reached its submission limit"), first.2).
Proof.
  intros Hpass Hmax Hn first. unfold first.
  rewrite (POST_accepts db id request data form Hpass). split; [reflexivity|].
  destruct Hpass as (Hform & Hstatus & _).
  apply (POST_at_limit (afterSubmission db id request data) id request' data' form);
    try assumption.
  apply limitReached_characterised. exists n. split; [assumption|].
  rewrite countResponses_after. unfold Db.countResponses in Hn |- *. lia.
Qed.

(** X13: on a form that prevents duplicates, an accepted submission with an
    address makes every later submission with the same address a
    duplicate: if it passes the limit and the validation, it is answered
    with the duplicate error and is not written. *)
Theorem same_address_is_refused_next db id request data form email request' data' :
  passesAllChecks platform db id data form ->
  Settings.preventDuplicates (Form.settings form) = true ->
  Submit.respondentEmail data = Some email ->
  email <> EmptyString ->
  Submit.respondentEmail data' = Some email ->
  let first := Submit.POST platform db id request data in
  Submit.limitReached first.2 id form = false ->
  Submit.validationErrors platform (Db.fieldsOfForm db id) (Submit.fields data') = [] ->
  statusCode first.1 = 201
  /\ Submit.POST platform first.2 id request' data'
     = (Json 400 (ErrorBody "You have already submitted this form"), first.2).
Proof.
  intros Hpass Hprevent Hemail Hne Hemail' first. unfold first.
  rewrite (POST_accepts db id request data form Hpass). simpl fst. simpl snd.
  intros Hlimit Herr. split; [reflexivity|].
  destruct Hpass as (Hform & Hstatus & _).
  rewrite (POST_published platform (afterSubmission db id request data) id request' data'
             form Hform Hstatus Hlimit).
  cbv zeta.
  change (Db.fieldsOfForm (afterSubmission db id request data) id)
    with (Db.fieldsOfForm db id).
  rewrite Herr. simpl Nat.ltb. cbv iota.
  assert (Hdup : Submit.isDuplicate (afterSubmission db id request data) id form data'
                 = true).
  { apply isDuplicate_characterised. split; [assumption|].
    exists email. split; [assumption|]. split; [assumption|].
    exists (Submit.newResponse id data request). split.
    - unfold afterSubmission. simpl. apply in_or_app. right. now left.
    - split; [reflexivity|]. simpl. rewrite Hemail. simpl.
      destruct (String.eqb_spec email EmptyString); [contradiction|reflexivity]. }
  now rewrite Hdup.
Qed.

End Accepted.

(** ** The export: columns, rows and names *)

Lemma leb_trans (a b c : string) :
  String.leb a b = true -> String.leb b c = true -> String.leb a c = true.
Proof.
  unfold String.leb. revert b c.
  induction a as [|x a IH]; intros [|y b] [|z c]; simpl; try easy.
  unfold Ascii.compare.
  destruct (N.compare_spec (N_of_ascii x) (N_of_ascii y)) as [Hxy|Hxy|Hxy];
    destruct (N.compare_spec (N_of_ascii y) (N_of_ascii z)) as [Hyz|Hyz|Hyz];
    destruct (N.compare_spec (N_of_ascii x) (N_of_ascii z)) as [Hxz|Hxz|Hxz];
    try lia; try easy.
  apply IH.
Qed.

#[local] Instance str_le_total : Total JS.str_le.
Proof.
  intros a b. unfold JS.str_le.
  destruct (String.leb_total a b) as [-> | ->]; [now left|now right].
Qed.

#[local] Instance str_le_trans : Transitive JS.str_le.
Proof.
  intros a b c. unfold JS.str_le. rewrite !Is_true_true. apply leb_trans.
Qed.

(** X14: the field columns of the export of all responses are the labels of the
    fields that have a value in some response, each once, in ascending
    order of their characters. *)
Theorem field_columns_are_the_sorted_labels responses :
  StronglySorted JS.str_le (ResponsesExport.sortedFieldLabels responses)
  /\ NoDup (ResponsesExport.sortedFieldLabels responses)
  /\ (forall l, In l (ResponsesExport.sortedFieldLabels responses)
                <-> exists response v,
                      In response responses /\ In v (ResponseRow.fields response)
                      /\ FieldRef.label (ValueRow.field v) = l).
Proof.
  unfold ResponsesExport.sortedFieldLabels, JS.sortedSet.
  split; [apply StronglySorted_merge_sort; apply _|].
  split.
  - rewrite merge_sort_Permutation. apply NoDup_remove_dups.
  - intros l. rewrite <- list_elem_of_In, merge_sort_Permutation.
    rewrite elem_of_remove_dups, list_elem_of_In, in_flat_map. split.
    + intros (response & Hr & Hl). apply in_map_iff in Hl as (v & Hv & Hin).
      now exists response, v.
    + intros (response & v & Hr & Hv & Hl). exists response. split; [assumption|].
      apply in_map_iff. now exists v.
Qed.

(** *** Reading a generated document back *)

(** On a document of one line the reader of documents gives the row that
    the reader of rows gives. *)
Lemma rowsFrom_one_row delimiter row : forall mode,
  containsChar newline row = false ->
  CsvReader.rowsFrom delimiter mode row = [CsvReader.cellsFrom delimiter mode row].
Proof.
  induction row as [|c row IH]; intros mode Hrow; [reflexivity|].
  simpl in Hrow. apply orb_false_iff in Hrow as [Hc Hrow].
  assert (Hpush : forall ch cells,
             CsvReader.pushChar ch [cells] = [CsvReader.push ch cells])
    by (intros ch [|cell cells]; reflexivity).
  destruct mode; simpl; rewrite ?Hc, !IH by assumption;
    repeat match goal with |- context [if ?b then _ else _] => destruct b end;
    rewrite ?Hpush; reflexivity.
Qed.

Lemma records_one_row delimiter row :
  containsChar newline row = false ->
  CsvReader.records delimiter row = [CsvReader.splitRow delimiter row].
Proof. apply rowsFrom_one_row. Qed.












Lemma sortedFieldLabels_nil : ResponsesExport.sortedFieldLabels [] = [].
Proof. reflexivity. Qed.








(** X30: past the schema, a request for metadata gets no document.  When
    metadata is asked for, which is the default, and a response is found,
    either generator throws on the [Date] in the row of the first
    response, and the handler has nothing to answer but its 500. *)
Theorem export_with_metadata_throws :
  (forall queryData now responses,
      ResponsesExport.includeMetadata queryData = true -> responses <> [] ->
      ResponsesExport.generateCsv responses true (ResponsesExport.fieldDelimiter queryData)
      = None
      /\ ResponsesExport.respond queryData now responses = None)
  /\ (forall queryData now exportDate form formFields responses,
        FormResponsesExport.includeMetadata queryData = true -> responses <> [] ->
        FormResponsesExport.generateFormCsv responses formFields queryData
          (Form.title form) exportDate = None
        /\ FormResponsesExport.respond queryData now exportDate
             (Some (form, formFields)) responses = None).
Proof.
  split.
  - intros queryData now responses Hm Hne.
    split; [now apply generateCsv_with_metadata_throws|].
    unfold ResponsesExport.respond. rewrite Hm.
    destruct responses as [|r rs]; [congruence|].
    rewrite !(generateCsv_with_metadata_throws (r :: rs)) by assumption.
    now destruct (ResponsesExport.format queryData).
  - intros queryData now exportDate form formFields responses Hm Hne.
    split; [now apply generateFormCsv_with_metadata_throws|].
    unfold FormResponsesExport.respond.
    destruct responses as [|r rs]; [congruence|].
    rewrite !(generateFormCsv_with_metadata_throws (r :: rs)) by assumption.
    now destruct (FormResponsesExport.format queryData).
Qed.

Lemma allChars_removeAll p s :
  allChars p (JS.removeAll (fun c => negb (p c)) s) = true.
Proof.
  induction s as [|c s IH]; simpl; [reflexivity|].
  destruct (p c) eqn:Hp; simpl; [now rewrite Hp|assumption].
Qed.

Lemma allChars_underscoreRuns s : forall inRun,
  allChars (fun c => FormResponsesExport.isAlnum c || JS.isWhiteSpace c) s = true ->
  allChars (fun c => FormResponsesExport.isAlnum c || Ascii.eqb c "_")
           (FormResponsesExport.underscoreRuns inRun s) = true.
Proof.
  induction s as [|c s IH]; intros inRun; simpl; [reflexivity|].
  intros [Hc Hs]%andb_true_iff.
  destruct (JS.isWhiteSpace c) eqn:Hws.
  - destruct inRun; simpl; now apply IH.
  - simpl. rewrite orb_false_r in Hc. rewrite Hc. now apply IH.
Qed.

(** X19: the stem of the file name of the export of one form has letters,
    digits and underscores only, whatever the title of the form is; so it
    has no quote, and the file name in the header of the answer ends
    where it should. *)
Theorem file_stem_is_plain title :
  allChars (fun c => FormResponsesExport.isAlnum c || Ascii.eqb c "_")
           (FormResponsesExport.fileStem title) = true
  /\ containsChar dquote (FormResponsesExport.fileStem title) = false.
Proof.
  assert (Hall : allChars (fun c => FormResponsesExport.isAlnum c || Ascii.eqb c "_")
                          (FormResponsesExport.fileStem title) = true).
  { unfold FormResponsesExport.fileStem. apply allChars_underscoreRuns.
    apply (allChars_removeAll
             (fun c => FormResponsesExport.isAlnum c || JS.isWhiteSpace c)). }
  split; [assumption|].
  induction (FormResponsesExport.fileStem title) as [|c s IH]; [reflexivity|].
  simpl in Hall |- *. apply andb_true_iff in Hall as [Hc Hs].
  rewrite (IH Hs), orb_false_r.
  destruct (Ascii.eqb_spec c dquote) as [->|]; [discriminate Hc|reflexivity].
Qed.

(** ** The field routes *)

Lemma same_id_same_row rows : forall f g,
  NoDup (map FormField.id rows) -> In f rows -> In g rows ->
  FormField.id f = FormField.id g -> f = g.
Proof.
  induction rows as [|r rows IH]; intros f g Hnd Hf Hg Hid; [destruct Hf|].
  simpl in Hnd. apply NoDup_cons in Hnd as [Hr Hnd].
  rewrite list_elem_of_In in Hr.
  destruct Hf as [<-|Hf], Hg as [<-|Hg]; [reflexivity| | |now apply IH].
  - exfalso. apply Hr. rewrite Hid. now apply in_map.
  - exfalso. apply Hr. rewrite <- Hid. now apply in_map.
Qed.

Lemma findField_In db fieldId formId f :
  Db.findField db fieldId formId = Some f ->
  In f (Db.formField db) /\ FormField.id f = fieldId /\ FormField.formId f = formId.
Proof.
  unfold Db.findField. intros [Hin [Hid Hform]%andb_true_iff]%find_some.
  apply String.eqb_eq in Hid, Hform. now repeat split.
Qed.

Lemma find_by_id rows f :
  NoDup (map FormField.id rows) -> In f rows ->
  find (fun g => String.eqb (FormField.id g) (FormField.id f)) rows = Some f.
Proof.
  intros Hnd Hf.
  destruct (find _ rows) as [g|] eqn:Hfind.
  - apply find_some in Hfind as [Hg Hid]. apply String.eqb_eq in Hid.
    f_equal. now apply (same_id_same_row rows).
  - pose proof (find_none _ _ Hfind f Hf) as Hno. simpl in Hno.
    now rewrite String.eqb_refl in Hno.
Qed.

Lemma transaction_result updates : forall db db',
  Db.transaction db updates = Some db' ->
  db' = Db.withFormFields db (map (applyAll updates) (Db.formField db)).
Proof.
  induction updates as [|[k o] updates IH]; intros db db'; simpl.
  - intros [= <-]. destruct db. unfold Db.withFormFields. simpl. now rewrite map_id.
  - unfold Db.updateFieldOrder. case_bool_decide as Hk; [|discriminate].
    intros Htx. apply IH in Htx as ->. unfold Db.withFormFields. simpl.
    now rewrite map_map.
Qed.

Lemma applyAll_anyOrder updates : forall f, anyOrder (applyAll updates f) = anyOrder f.
Proof.
  unfold applyAll.
  induction updates as [|u updates IH]; intros f; simpl; [reflexivity|].
  rewrite IH. unfold applyUpdate. now destruct (String.eqb _ _).
Qed.

Lemma StronglySorted_lookup_lt {A} (R : relation A) l : forall i j x y,
  StronglySorted R l -> l !! i = Some x -> l !! j = Some y -> i < j -> R x y.
Proof.
  induction l as [|a l IH]; intros i j x y Hs Hi Hj Hlt; [discriminate|].
  apply StronglySorted_inv in Hs as [Hs Hall].
  destruct j as [|j]; [lia|]. simpl in Hj.
  destruct i as [|i]; simpl in Hi.
  - injection Hi as <-. rewrite Forall_forall in Hall.
    apply Hall. now apply list_elem_of_lookup_2 in Hj.
  - apply (IH i j); [assumption..|lia].
Qed.

(** X22: the bulk update of the order values changes nothing else: the fields
    are the same but for their order, and forms, responses and values are
    as they were, whether the update is answered 200 or not. *)
Theorem bulk_update_changes_order_only db formId fields :
  let db' := (Fields.PUT db formId fields).2 in
  map anyOrder (Db.formField db') = map anyOrder (Db.formField db)
  /\ Db.form db' = Db.form db
  /\ Db.formResponse db' = Db.formResponse db
  /\ Db.responseField db' = Db.responseField db.
Proof.
  unfold Fields.PUT.
  destruct fields as [fields|]; [|now repeat split].
  destruct (Db.findForm db formId); [|now repeat split].
  destruct (Db.transaction db _) as [db'|] eqn:Htx; [|now repeat split].
  apply transaction_result in Htx as ->. simpl. repeat split.
  rewrite map_map. apply map_ext. intros f. apply applyAll_anyOrder.
Qed.

(** X20: the list of the fields of a form is in ascending order of the order
    values and has exactly the stored fields of that form; a form that is
    not stored is answered 404. *)
Theorem fields_are_listed_in_order db formId :
  (Db.findForm db formId = None ->
   Fields.GET db formId = Json 404 (ErrorBody "Form not found"))
  /\ (forall form, Db.findForm db formId = Some form ->
        exists listed,
          Fields.GET db formId = Json 200 (FieldsBody listed)
          /\ StronglySorted Db.fieldOrderLe listed
          /\ (forall f, In f listed
                        <-> In f (Db.formField db) /\ FormField.formId f = formId)).
Proof.
  unfold Fields.GET. split; [now intros ->|].
  intros form ->. exists (Db.fieldsOfForm db formId). split; [reflexivity|]. split.
  - apply StronglySorted_merge_sort; apply _.
  - intros f. apply fieldsOfForm_In.
Qed.

Lemma DELETE_store db formId fieldId f0 :
  Db.findField db fieldId formId = Some f0 ->
  (Field.DELETE db formId fieldId).2
  = Db.withFormFields (Db.deleteField db fieldId)
      (map (applyAll (Field.renumbering
                        (Db.fieldsOfForm (Db.deleteField db fieldId) formId)))
           (Db.formField (Db.deleteField db fieldId))).
Proof. intros Hfound. now rewrite (DELETE_commits db formId fieldId f0 Hfound). Qed.

Lemma findField_without_id db fieldId formId :
  ~ In fieldId (map FormField.id (Db.formField db)) ->
  Db.findField db fieldId formId = None.
Proof.
  intros Hno. destruct (Db.findField db fieldId formId) as [f|] eqn:Hfind; [|reflexivity].
  apply findField_In in Hfind as (Hin & Hid & _).
  exfalso. apply Hno. rewrite <- Hid. now apply in_map.
Qed.

(** X25: a deleted field is gone: its id is no longer stored, no stored value
    is for it, reading it is answered 404, and so is deleting it again,
    which changes nothing. *)
Theorem deleted_field_is_gone db formId fieldId f0 :
  Db.findField db fieldId formId = Some f0 ->
  let db' := (Field.DELETE db formId fieldId).2 in
  ~ In fieldId (map FormField.id (Db.formField db'))
  /\ (forall v, In v (Db.responseField db') -> ResponseField.fieldId v <> fieldId)
  /\ Field.GET db' formId fieldId = Plain (Json 404 (ErrorBody "Field not found"))
  /\ Field.DELETE db' formId fieldId = (Json 404 (ErrorBody "Field not found"), db').
Proof.
  intros Hfound db'. unfold db'. rewrite (DELETE_store db formId fieldId f0 Hfound).
  set (g := applyAll _).
  assert (Hgone : ~ In fieldId
                      (map FormField.id
                         (Db.formField
                            (Db.withFormFields (Db.deleteField db fieldId)
                               (map g (Db.formField (Db.deleteField db fieldId))))))).
  { simpl. rewrite map_map. intros (f & Hid & Hf)%in_map_iff.
    unfold g in Hid. rewrite applyAll_id in Hid.
    apply list_elem_of_In, list_elem_of_filter in Hf as [Hne _]. contradiction. }
  split; [exact Hgone|]. split.
  - simpl. intros v Hv. now apply list_elem_of_In, list_elem_of_filter in Hv as [Hne _].
  - unfold Field.GET, Field.DELETE.
    now rewrite (findField_without_id _ fieldId formId Hgone).
Qed.

(** X26: a deletion changes nothing but what it must: the fields that stay are
    the earlier ones but for their order values, the fields of other forms
    are exactly as they were, and forms and responses are untouched. *)
Theorem deletion_changes_order_only db formId fieldId f0 :
  Db.wellFormed db ->
  Db.findField db fieldId formId = Some f0 ->
  let db' := (Field.DELETE db formId fieldId).2 in
  map anyOrder (Db.formField db')
  = map anyOrder (filter (fun f => FormField.id f <> fieldId) (Db.formField db))
  /\ (forall f, In f (Db.formField db) -> FormField.formId f <> formId ->
                In f (Db.formField db'))
  /\ Db.form db' = Db.form db
  /\ Db.formResponse db' = Db.formResponse db.
Proof.
  intros (_ & Hnd & _) Hfound db'. unfold db'.
  rewrite (DELETE_store db formId fieldId f0 Hfound).
  set (db1 := Db.deleteField db fieldId).
  split; [|split; [|now split]].
  - simpl. rewrite map_map. apply map_ext. intros f. apply applyAll_anyOrder.
  - intros f Hf Hother. simpl.
    apply findField_In in Hfound as (Hf0 & Hid0 & Hform0).
    assert (Hne : FormField.id f <> fieldId).
    { intros Hid. apply Hother. rewrite <- Hform0. f_equal.
      apply (same_id_same_row (Db.formField db)); congruence. }
    assert (Hf1 : In f (Db.formField db1)) by (now apply deleteField_In).
    rewrite <- (applyAll_notin (Field.renumbering (Db.fieldsOfForm db1 formId)) f).
    + now apply in_map.
    + rewrite renumbering_keys. intros (r & Hid & Hr)%in_map_iff.
      apply fieldsOfForm_In in Hr as [Hr Hform].
      apply Hother. rewrite <- Hform. f_equal. symmetry.
      apply (same_id_same_row (Db.formField db1)); try assumption.
      unfold db1, Db.deleteField. simpl. now apply NoDup_ids_filter.
Qed.

(** X27: a deletion keeps the fields that stay in their relative order: of two
    of them, the one with the smaller order value before has the smaller
    order value after. *)
Theorem deletion_keeps_relative_order db formId fieldId f0 f g :
  Db.wellFormed db ->
  Db.findField db fieldId formId = Some f0 ->
  In f (Db.fieldsOfForm db formId) -> In g (Db.fieldsOfForm db formId) ->
  FormField.id f <> fieldId -> FormField.id g <> fieldId ->
  (FormField.order f < FormField.order g)%Z ->
  let db' := (Field.DELETE db formId fieldId).2 in
  exists i j : nat,
    In (Db.setOrder f (Z.of_nat i)) (Db.formField db')
    /\ In (Db.setOrder g (Z.of_nat j)) (Db.formField db')
    /\ i < j.
Proof.
  intros (_ & Hnd & _) Hfound Hf Hg Hfne Hgne Hlt db'. unfold db'.
  rewrite (DELETE_store db formId fieldId f0 Hfound).
  set (db1 := Db.deleteField db fieldId).
  set (remaining := Db.fieldsOfForm db1 formId).
  assert (Hnd1 : NoDup (map FormField.id (Db.formField db1))).
  { unfold db1, Db.deleteField. simpl. now apply NoDup_ids_filter. }
  assert (Hrem : NoDup (map FormField.id remaining))
    by (now apply fieldsOfForm_NoDup_ids).
  assert (Hin : forall h, In h (Db.fieldsOfForm db formId) -> FormField.id h <> fieldId ->
                          In h remaining).
  { intros h Hh Hne. apply fieldsOfForm_In in Hh as [Hh Hform].
    apply fieldsOfForm_In. split; [|assumption]. now apply deleteField_In. }
  pose proof (Hin f Hf Hfne) as Hf1. pose proof (Hin g Hg Hgne) as Hg1.
  apply list_elem_of_In, list_elem_of_lookup in Hf1 as [i Hi].
  apply list_elem_of_In, list_elem_of_lookup in Hg1 as [j Hj].
  assert (Hsorted : StronglySorted Db.fieldOrderLe remaining)
    by (apply StronglySorted_merge_sort; apply _).
  assert (Hij : i < j).
  { destruct (Nat.lt_trichotomy i j) as [Hij|[Hij|Hij]]; [assumption| |].
    - subst j. rewrite Hi in Hj. injection Hj as <-. lia.
    - pose proof (StronglySorted_lookup_lt _ _ j i g f Hsorted Hj Hi Hij) as Hle.
      unfold Db.fieldOrderLe in Hle. lia. }
  exists i, j. simpl. split; [|split; [|assumption]].
  - rewrite <- (renumbering_sets_index remaining i f Hrem Hi).
    apply in_map. apply (proj1 (fieldsOfForm_In db1 formId f)).
    apply list_elem_of_In. now apply (list_elem_of_lookup_2 remaining i).
  - rewrite <- (renumbering_sets_index remaining j g Hrem Hj).
    apply in_map. apply (proj1 (fieldsOfForm_In db1 formId g)).
    apply list_elem_of_In. now apply (list_elem_of_lookup_2 remaining j).
Qed.

Lemma find_append {A} (p : A -> bool) l1 l2 :
  find p (l1 ++ l2) = match find p l1 with
                      | Some x => Some x
                      | None => find p l2
                      end.
Proof.
  induction l1 as [|a l1 IH]; simpl; [reflexivity|].
  now destruct (p a).
Qed.

Lemma updateField_found db existing patch :
  NoDup (map FormField.id (Db.formField db)) ->
  In existing (Db.formField db) ->
  Db.updateField db (FormField.id existing) patch
  = Some (Db.withFormFields db
            (map (fun f => if String.eqb (FormField.id f) (FormField.id existing)
                           then Db.patchField patch f else f)
                 (Db.formField db)),
          Db.patchField patch existing).
Proof.
  intros Hnd Hin. unfold Db.updateField. now rewrite (find_by_id _ existing Hnd Hin).
Qed.

Lemma patched_ids db fieldId patch :
  map FormField.id
      (map (fun f => if String.eqb (FormField.id f) fieldId
                     then Db.patchField patch f else f)
           (Db.formField db))
  = map FormField.id (Db.formField db).
Proof.
  rewrite map_map. apply map_ext. intros f. now destruct (String.eqb _ _).
Qed.

(** X24: the update of a stored field that does not empty the options of a
    type that needs them writes the columns of the body on that field
    and on no other: its id, form and type stay, the other fields stay as
    they are, forms, responses and values are untouched, and the answer
    is the field as updated. *)
Theorem field_update_is_local db formId fieldId existing patch :
  Db.wellFormed db ->
  Db.findField db fieldId formId = Some existing ->
  Field.emptiesOptions existing patch = false ->
  exists db',
    Field.PUT db formId fieldId patch = (FieldJson 200 (Db.patchField patch existing), db')
    /\ In (Db.patchField patch existing) (Db.formField db')
    /\ FormField.id (Db.patchField patch existing) = fieldId
    /\ FormField.formId (Db.patchField patch existing) = formId
    /\ FormField.type (Db.patchField patch existing) = FormField.type existing
    /\ (forall f, In f (Db.formField db) -> FormField.id f <> fieldId ->
                  In f (Db.formField db'))
    /\ map FormField.id (Db.formField db') = map FormField.id (Db.formField db)
    /\ Db.form db' = Db.form db
    /\ Db.formResponse db' = Db.formResponse db
    /\ Db.responseField db' = Db.responseField db.
Proof.
  intros (_ & Hnd & _) Hfound Hoptions.
  pose proof (findField_In db fieldId formId existing Hfound) as (Hin & Hid & Hform).
  eexists. split.
  - unfold Field.PUT. rewrite Hfound, Hoptions, <- Hid.
    rewrite (updateField_found db existing patch Hnd Hin). reflexivity.
  - simpl. split; [|split; [assumption|split; [assumption|split; [reflexivity|]]]].
    + apply in_map_iff. exists existing. split; [|assumption].
      now rewrite String.eqb_refl.
    + split; [|split; [apply patched_ids|now repeat split]].
      intros f Hf Hne. apply in_map_iff. exists f. split; [|assumption].
      destruct (String.eqb_spec (FormField.id f) (FormField.id existing)); congruence.
Qed.

(** X21: a field that is created is there: when the form is stored, the id is
    new to the store and the body has options if its type needs them, the
    answer is 201 with the field, the field is added after the stored
    ones, reading the field gives it back, and the list of the fields of
    the form has it. *)
Theorem created_field_is_listed db formId newId data form :
  Db.findForm db formId = Some form ->
  ~ In newId (map FormField.id (Db.formField db)) ->
  (In (Fields.type data) fieldTypesWithOptions -> Fields.noOptions (Fields.options data) = false) ->
  let field := Fields.newRow formId newId data in
  let db' := (Fields.POST db formId newId data).2 in
  Fields.POST db formId newId data = (FieldJson 201 field, db')
  /\ Db.formField db' = Db.formField db ++ [field]
  /\ Field.GET db' formId newId = FieldJson 200 field
  /\ exists listed, Fields.GET db' formId = Json 200 (FieldsBody listed) /\ In field listed.
Proof.
  intros Hform Hnew Hoptions field db'.
  assert (Hpost : Fields.POST db formId newId data
                  = (FieldJson 201 field, Db.createField db field)).
  { unfold Fields.POST. rewrite Hform.
    destruct (bool_decide _) eqn:Htype; [|reflexivity].
    apply bool_decide_eq_true, list_elem_of_In in Htype.
    now rewrite (Hoptions Htype). }
  unfold db'. rewrite Hpost. simpl.
  split; [reflexivity|]. split; [reflexivity|]. split.
  - unfold Field.GET, Db.findField. simpl.
    rewrite find_append.
    destruct (find _ (Db.formField db)) as [f|] eqn:Hfind.
    + apply find_some in Hfind as [Hf [Hid _]%andb_true_iff].
      apply String.eqb_eq in Hid. exfalso. apply Hnew. rewrite <- Hid. now apply in_map.
    + simpl. now rewrite !String.eqb_refl.
  - exists (Db.fieldsOfForm (Db.createField db field) formId). split.
    + unfold Fields.GET.
      change (Db.findForm (Db.createField db field) formId) with (Db.findForm db formId).
      now rewrite Hform.
    + apply fieldsOfForm_In. split; [|reflexivity].
      simpl. apply in_or_app. right. now left.
Qed.

(** X28: none of the four writing handlers of the field routes leaves a field
    of a type with options without any: when every stored dropdown, radio
    and checkbox field has an option, so it is after a create, an update, a
    bulk update and a deletion, whatever they are sent. *)
Theorem choice_fields_keep_their_options db formId :
  Db.wellFormed db ->
  choicesHaveOptions db ->
  (forall newId data, choicesHaveOptions (Fields.POST db formId newId data).2)
  /\ (forall fieldId patch, choicesHaveOptions (Field.PUT db formId fieldId patch).2)
  /\ (forall fields, choicesHaveOptions (Fields.PUT db formId fields).2)
  /\ (forall fieldId, choicesHaveOptions (Field.DELETE db formId fieldId).2).
Proof.
  intros (_ & Hnd & _) Hinv.
  assert (Horder : forall updates db0,
            (forall f, In f (Db.formField db0) -> exists f1, In f1 (Db.formField db)
                                                             /\ anyOrder f = anyOrder f1) ->
            choicesHaveOptions
              (Db.withFormFields db0 (map (applyAll updates) (Db.formField db0)))).
  { intros updates db0 Hsub f' Hf' Htype. simpl in Hf'.
    apply in_map_iff in Hf' as (f & <- & Hf).
    destruct (Hsub f Hf) as (f1 & Hf1 & Heq).
    pose proof (applyAll_anyOrder updates f) as Hany. rewrite Heq in Hany.
    assert (Ht : FormField.type (applyAll updates f) = FormField.type f1)
      by (change (FormField.type (anyOrder (applyAll updates f))
                  = FormField.type (anyOrder f1)); now rewrite Hany).
    assert (Ho : FormField.options (applyAll updates f) = FormField.options f1)
      by (change (FormField.options (anyOrder (applyAll updates f))
                  = FormField.options (anyOrder f1)); now rewrite Hany).
    rewrite Ho. apply (Hinv f1 Hf1). now rewrite <- Ht. }
  split; [|split; [|split]].
  - intros newId data. unfold Fields.POST.
    destruct (Db.findForm db formId); [|exact Hinv].
    destruct (bool_decide _) eqn:Htype; simpl.
    + destruct (Fields.noOptions _) eqn:Hno; [exact Hinv|].
      intros f [Hf|[<-|[]]]%in_app_or Hf'; [now apply Hinv|]. simpl.
      unfold Fields.noOptions in Hno.
      destruct (Fields.options data) as [[|o os]|]; discriminate.
    + intros f [Hf|[<-|[]]]%in_app_or Hf'; [now apply Hinv|]. simpl in Hf'.
      apply bool_decide_eq_false in Htype. exfalso. apply Htype.
      now apply list_elem_of_In.
  - intros fieldId patch. unfold Field.PUT.
    destruct (Db.findField db fieldId formId) as [existing|] eqn:Hfound; [|exact Hinv].
    destruct (Field.emptiesOptions existing patch) eqn:Hempty; [exact Hinv|].
    pose proof (findField_In db fieldId formId existing Hfound) as (Hin & Hid & _).
    rewrite <- Hid, (updateField_found db existing patch Hnd Hin). simpl.
    intros f' (f & Hf' & Hf)%in_map_iff Htype.
    destruct (String.eqb_spec (FormField.id f) (FormField.id existing)) as [Heq|Hne].
    + assert (f = existing) as -> by (now apply (same_id_same_row (Db.formField db))).
      subst f'. simpl in Htype |- *. unfold Field.emptiesOptions in Hempty.
      destruct (Db.newOptions patch) as [[|o os]|]; simpl.
      * apply bool_decide_eq_false in Hempty. exfalso. apply Hempty.
        now apply list_elem_of_In.
      * discriminate.
      * now apply Hinv.
    + subst f'. now apply Hinv.
  - intros fields. unfold Fields.PUT.
    destruct fields as [fields|]; [|exact Hinv].
    destruct (Db.findForm db formId); [|exact Hinv].
    destruct (Db.transaction db _) as [db'|] eqn:Htx; [|exact Hinv].
    apply transaction_result in Htx as ->. apply Horder.
    intros f Hf. now exists f.
  - intros fieldId. unfold Field.DELETE.
    destruct (Db.findField db fieldId formId) as [f0|]; [|exact Hinv].
    destruct (Db.transaction _ _) as [db2|] eqn:Htx.
    + apply transaction_result in Htx as ->. apply Horder.
      intros f Hf. exists f. split; [|reflexivity]. now apply deleteField_In in Hf.
    + simpl. intros f Hf. apply Hinv. now apply deleteField_In in Hf.
Qed.

(** X29: the ids of the stored fields stay unique through every writing handler
    of the field routes; a create keeps them so when the id it is given is
    new. *)
Theorem field_ids_stay_unique db formId :
  Db.wellFormed db ->
  (forall newId data, ~ In newId (map FormField.id (Db.formField db)) ->
                      Db.wellFormed (Fields.POST db formId newId data).2)
  /\ (forall fieldId patch, Db.wellFormed (Field.PUT db formId fieldId patch).2)
  /\ (forall fields, Db.wellFormed (Fields.PUT db formId fields).2)
  /\ (forall fieldId, Db.wellFormed (Field.DELETE db formId fieldId).2).
Proof.
  intros Hwf. pose proof Hwf as (Hforms & Hnd & Hresponses).
  assert (Horder : forall updates db0,
            Db.form db0 = Db.form db -> Db.formResponse db0 = Db.formResponse db ->
            NoDup (map FormField.id (Db.formField db0)) ->
            Db.wellFormed
              (Db.withFormFields db0 (map (applyAll updates) (Db.formField db0)))).
  { intros updates db0 Hf Hr Hnd0. unfold Db.wellFormed. simpl.
    rewrite Hf, Hr. split; [assumption|]. split; [|assumption].
    rewrite map_map. rewrite (map_ext _ FormField.id); [assumption|].
    intros f. apply applyAll_id. }
  split; [|split; [|split]].
  - intros newId data Hnew. unfold Fields.POST.
    destruct (Db.findForm db formId); [|exact Hwf].
    destruct (_ && _); [exact Hwf|].
    unfold Db.wellFormed. simpl. split; [assumption|]. split; [|assumption].
    rewrite map_app. simpl. apply NoDup_app. split; [assumption|].
    split; [|apply NoDup_singleton].
    intros k Hk [= ->]%list_elem_of_singleton. apply Hnew. now apply list_elem_of_In.
  - intros fieldId patch. unfold Field.PUT.
    destruct (Db.findField db fieldId formId) as [existing|] eqn:Hfound; [|exact Hwf].
    destruct (Field.emptiesOptions existing patch); [exact Hwf|].
    pose proof (findField_In db fieldId formId existing Hfound) as (Hin & Hid & _).
    rewrite <- Hid, (updateField_found db existing patch Hnd Hin).
    unfold Db.wellFormed. simpl. split; [assumption|]. split; [|assumption].
    now rewrite patched_ids.
  - intros fields. unfold Fields.PUT.
    destruct fields as [fields|]; [|exact Hwf].
    destruct (Db.findForm db formId); [|exact Hwf].
    destruct (Db.transaction db _) as [db'|] eqn:Htx; [|exact Hwf].
    apply transaction_result in Htx as ->. now apply Horder.
  - intros fieldId. unfold Field.DELETE.
    destruct (Db.findField db fieldId formId) as [f0|]; [|exact Hwf].
    assert (Hnd1 : NoDup (map FormField.id (Db.formField (Db.deleteField db fieldId))))
      by (unfold Db.deleteField; simpl; now apply NoDup_ids_filter).
    destruct (Db.transaction _ _) as [db2|] eqn:Htx.
    + apply transaction_result in Htx as ->. now apply Horder.
    + unfold Db.wellFormed. simpl. now repeat split.
Qed.

(** * The further properties on examples *)

Lemma scenarioDb_wellFormed : Db.wellFormed scenarioDb.
Proof. repeat split; apply (bool_decide_unpack _); vm_compute; exact I. Qed.

Lemma scenarioDb_choicesHaveOptions : choicesHaveOptions scenarioDb.
Proof.
  intros f [<-|[<-|[]]]; simpl.
  - intros [H|[H|[H|[]]]]; discriminate H.
  - discriminate.
Qed.

Lemma plainDb_passes :
  passesAllChecks noParsers plainDb "F" (submission None [entry "name" "Ann"])
    (publishedForm None false).
Proof.
  unfold passesAllChecks. do 5 (split; [vm_compute; reflexivity|]).
  intros e [<-|[]] _. simpl. tauto.
Qed.

Lemma lastPlaceDb_passes :
  passesAllChecks noParsers lastPlaceDb "F" (submission None [entry "name" "Ann"])
    (publishedForm (Some 2%Z) false).
Proof.
  unfold passesAllChecks. do 5 (split; [vm_compute; reflexivity|]).
  intros e [<-|[]] _. simpl. tauto.
Qed.

Lemma duplicateDb_passes :
  passesAllChecks noParsers duplicateDb "F"
    (submission (Some "c@d.com") [entry "name" "Cy"]) (publishedForm None true).
Proof.
  unfold passesAllChecks. do 5 (split; [vm_compute; reflexivity|]).
  intros e [<-|[]] _. simpl. tauto.
Qed.

(** The limit error of the full form leaves the store as it was. *)
Lemma POST_only_appends_witness :
  (Submit.POST noParsers fullDb "F" exampleRequest
     (submission None [entry "name" "Ann"])).2 = fullDb.
Proof.
  apply (proj2 (proj2 (proj2 (POST_only_appends noParsers fullDb "F" exampleRequest
                                (submission None [entry "name" "Ann"])))));
    vm_compute; discriminate.
Defined.

(** The good answer of the scenarios has a value for the required email
    field. *)
Lemma accepted_submission_is_valid_witness :
  Submit.validationErrors noParsers (Db.formField scenarioDb) goodEntries = []
  /\ (forall field, In field (Db.formField scenarioDb) ->
        FormField.required field = true ->
        exists e, In e goodEntries /\ Submit.fieldId e = FormField.id field
                  /\ Submit.nonBlank (Submit.value e) = true).
Proof.
  split; [vm_compute; reflexivity|].
  refine (proj1 (accepted_submission_is_valid noParsers (Db.formField scenarioDb)
                   goodEntries _ _)).
  - apply (bool_decide_unpack _). vm_compute. exact I.
  - vm_compute. reflexivity.
Defined.


(** A value of spaces for the email field of the scenarios gives no error
    of its own. *)
Lemma blank_values_are_dropped_witness :
  Submit.entryErrors noParsers
    (JS.mapOf (map (fun f => (FormField.id f, f)) (Db.formField scenarioDb)))
    (entry "email-field" "   ") = [].
Proof.
  apply (proj1 (blank_values_are_dropped noParsers
                  (JS.mapOf (map (fun f => (FormField.id f, f)) (Db.formField scenarioDb)))
                  "r2" [])
               (entry "email-field" "   ")).
  reflexivity.
Defined.

(** The form limited to one submission, which it has. *)
Lemma limit_error_iff_witness :
  (Submit.POST noParsers fullDb "F" exampleRequest
     (submission None [entry "name" "Ann"])).1
  = Json 400 (ErrorBody "This form has reached its submission limit").
Proof.
  apply (proj2 (proj1 (limit_error_iff noParsers fullDb "F" exampleRequest
                         (submission None [entry "name" "Ann"])
                         (publishedForm (Some 1%Z) false) eq_refl eq_refl))).
  exists 1%Z. split; [reflexivity|].
  replace (Db.countResponses fullDb "F") with 1%Z by (vm_compute; reflexivity). lia.
Defined.

(** The form that prevents duplicates has a response from [a@b.com]. *)
Lemma duplicate_error_iff_witness :
  (Submit.POST noParsers duplicateDb "F" exampleRequest
     (submission (Some "a@b.com") [entry "name" "Ann"])).1
  = Json 400 (ErrorBody "You have already submitted this form").
Proof.
  apply (proj2 (proj1 (duplicate_error_iff noParsers duplicateDb "F" exampleRequest
                         (submission (Some "a@b.com") [entry "name" "Ann"])
                         (publishedForm None true) eq_refl eq_refl))).
  split; [intros (n & Hn & _); discriminate Hn|].
  split; [vm_compute; reflexivity|]. split; [reflexivity|].
  exists "a@b.com". split; [reflexivity|]. split; [discriminate|].
  exists earlierResponse. split; [now left|]. split; reflexivity.
Defined.

(** The form with one optional field stores the answer [Ann]. *)
Lemma accepted_submission_is_stored_witness :
  Submit.POST noParsers plainDb "F" exampleRequest (submission None [entry "name" "Ann"])
  = (Json 201 (SubmitOk "r2" "Form submitted successfully" "2024-01-15T10:30:00.000Z"),
     {| Db.form := Db.form plainDb;
        Db.formField := Db.formField plainDb;
        Db.formResponse :=
          [{| FormResponse.id := "r2"; FormResponse.formId := "F";
              FormResponse.respondentEmail := None;
              FormResponse.ipAddress := Some "10.0.0.1";
              FormResponse.userAgent := Some "unknown";
              FormResponse.status := NEW;
              FormResponse.submittedAt := "2024-01-15T10:30:00.000Z" |}];
        Db.responseField :=
          [{| ResponseField.responseId := "r2"; ResponseField.fieldId := "name";
              ResponseField.value := "Ann" |}] |}).
Proof.
  exact (accepted_submission_is_stored noParsers plainDb "F" exampleRequest
           (submission None [entry "name" "Ann"]) (publishedForm None false)
           plainDb_passes).
Defined.

(** The form limited to two submissions takes its second and refuses a
    third. *)
Lemma last_place_closes_the_form_witness :
  let first := Submit.POST noParsers lastPlaceDb "F" exampleRequest
                 (submission None [entry "name" "Ann"]) in
  statusCode first.1 = 201
  /\ Submit.POST noParsers first.2 "F" laterRequest (submission None [entry "name" "Bob"])
     = (Json 400 (ErrorBody "This form has reached its submission limit"), first.2).
Proof.
  exact (last_place_closes_the_form noParsers lastPlaceDb "F" exampleRequest
           (submission None [entry "name" "Ann"]) (publishedForm (Some 2%Z) false) 2%Z
           laterRequest (submission None [entry "name" "Bob"])
           lastPlaceDb_passes eq_refl eq_refl).
Defined.

(** The form that prevents duplicates takes [c@d.com] once. *)
Lemma same_address_is_refused_next_witness :
  let first := Submit.POST noParsers duplicateDb "F" exampleRequest
                 (submission (Some "c@d.com") [entry "name" "Cy"]) in
  statusCode first.1 = 201
  /\ Submit.POST noParsers first.2 "F" laterRequest
       (submission (Some "c@d.com") [entry "name" "Cyrus"])
     = (Json 400 (ErrorBody "You have already submitted this form"), first.2).
Proof.
  cbv zeta.
  apply (same_address_is_refused_next noParsers duplicateDb "F" exampleRequest
           (submission (Some "c@d.com") [entry "name" "Cy"]) (publishedForm None true)
           "c@d.com" laterRequest (submission (Some "c@d.com") [entry "name" "Cyrus"])
           duplicateDb_passes);
    [reflexivity | reflexivity | discriminate | reflexivity
     | vm_compute; reflexivity | vm_compute; reflexivity].
Defined.





(** One response and a query for it with metadata, on both routes. *)
Lemma export_with_metadata_throws_witness :
  (ResponsesExport.generateCsv [valueOnly "n" "Note" "fine"] true (str comma) = None
   /\ ResponsesExport.respond metadataQuery "2024-01-16T08:00:00.000Z"
        [valueOnly "n" "Note" "fine"] = None)
  /\ (FormResponsesExport.generateFormCsv [valueOnly "n" "Note" "fine"]
        [fieldOf "n" "Note" SHORT_TEXT false 0] formMetadataQuery "Survey"
        "2024-01-16T08:00:00.010Z" = None
      /\ FormResponsesExport.respond formMetadataQuery "2024-01-16T08:00:00.000Z"
           "2024-01-16T08:00:00.010Z"
           (Some (publishedForm None false, [fieldOf "n" "Note" SHORT_TEXT false 0]))
           [valueOnly "n" "Note" "fine"] = None).
Proof.
  split.
  - apply (proj1 export_with_metadata_throws metadataQuery "2024-01-16T08:00:00.000Z"
             [valueOnly "n" "Note" "fine"]); [reflexivity|discriminate].
  - apply (proj2 export_with_metadata_throws formMetadataQuery
             "2024-01-16T08:00:00.000Z" "2024-01-16T08:00:00.010Z"
             (publishedForm None false) [fieldOf "n" "Note" SHORT_TEXT false 0]
             [valueOnly "n" "Note" "fine"]); [reflexivity|discriminate].
Defined.

(** A bulk update that names a field [zz], which is not stored. *)
Lemma PUT_all_or_nothing_witness :
  Fields.PUT orderedDb "F" (Some [fieldOrder "a" 1; fieldOrder "zz" 0])
  = (Json 500 (ErrorBody "Failed to update form fields"), orderedDb).
Proof.
  apply (PUT_all_or_nothing orderedDb "F" [fieldOrder "a" 1; fieldOrder "zz" 0]
           (publishedForm None false) eq_refl).
  exists (fieldOrder "zz" 0). split; [simpl; tauto|].
  simpl. intros [H|[H|[H|[]]]]; discriminate H.
Defined.

(** The three fields of the example are listed in their order. *)
Lemma fields_are_listed_in_order_witness :
  exists listed,
    Fields.GET orderedDb "F" = Json 200 (FieldsBody listed)
    /\ StronglySorted Db.fieldOrderLe listed
    /\ (forall f, In f listed
                  <-> In f (Db.formField orderedDb) /\ FormField.formId f = "F").
Proof.
  exact (proj2 (fields_are_listed_in_order orderedDb "F") (publishedForm None false)
               eq_refl).
Defined.

(** After the deletion of the first of three fields, a second one finds
    nothing. *)
Lemma deleted_field_is_gone_witness :
  let db' := (Field.DELETE orderedDb "F" "a").2 in
  Field.DELETE db' "F" "a" = (Json 404 (ErrorBody "Field not found"), db').
Proof.
  exact (proj2 (proj2 (proj2 (deleted_field_is_gone orderedDb "F" "a"
                                (fieldOf "a" "First" SHORT_TEXT false 0) eq_refl)))).
Defined.

Lemma deletion_changes_order_only_witness :
  map anyOrder (Db.formField (Field.DELETE orderedDb "F" "a").2)
  = map anyOrder (filter (fun f => FormField.id f <> "a") (Db.formField orderedDb)).
Proof.
  exact (proj1 (deletion_changes_order_only orderedDb "F" "a"
                  (fieldOf "a" "First" SHORT_TEXT false 0) orderedDb_wellFormed eq_refl)).
Defined.

(** The second field stays before the third when the first is deleted. *)
Lemma deletion_keeps_relative_order_witness :
  exists i j : nat,
    In (Db.setOrder (fieldOf "b" "Second" SHORT_TEXT false 1) (Z.of_nat i))
       (Db.formField (Field.DELETE orderedDb "F" "a").2)
    /\ In (Db.setOrder (fieldOf "c" "Third" SHORT_TEXT false 2) (Z.of_nat j))
          (Db.formField (Field.DELETE orderedDb "F" "a").2)
    /\ i < j.
Proof.
  apply (deletion_keeps_relative_order orderedDb "F" "a"
           (fieldOf "a" "First" SHORT_TEXT false 0)
           (fieldOf "b" "Second" SHORT_TEXT false 1)
           (fieldOf "c" "Third" SHORT_TEXT false 2) orderedDb_wellFormed eq_refl);
    [vm_compute; tauto | vm_compute; tauto | discriminate | discriminate | reflexivity].
Defined.

(** The dropdown of the scenarios gets another label. *)
Lemma field_update_is_local_witness :
  exists db',
    Field.PUT scenarioDb "F" "plan-field" (relabel "Tier")
    = (FieldJson 200 (Db.patchField (relabel "Tier") planField), db')
    /\ map FormField.id (Db.formField db') = map FormField.id (Db.formField scenarioDb).
Proof.
  destruct (field_update_is_local scenarioDb "F" "plan-field" planField (relabel "Tier")
              scenarioDb_wellFormed eq_refl eq_refl)
    as (db' & Hput & _ & _ & _ & _ & _ & Hids & _).
  exists db'. split; assumption.
Defined.

(** A dropdown with two options is created and read back. *)
Lemma created_field_is_listed_witness :
  Field.GET (Fields.POST plainDb "F" "size" sizeField).2 "F" "size"
  = FieldJson 200 (Fields.newRow "F" "size" sizeField).
Proof.
  refine (proj1 (proj2 (proj2 (created_field_is_listed plainDb "F" "size" sizeField
                                 (publishedForm None false) eq_refl _ _)))).
  - simpl. intros [H|[]]. discriminate H.
  - intros _. reflexivity.
Defined.

Lemma choice_fields_keep_their_options_witness :
  choicesHaveOptions (Field.PUT scenarioDb "F" "plan-field" (relabel "Tier")).2.
Proof.
  apply (proj1 (proj2 (choice_fields_keep_their_options scenarioDb "F"
                         scenarioDb_wellFormed scenarioDb_choicesHaveOptions))).
Defined.

Lemma field_ids_stay_unique_witness :
  Db.wellFormed (Field.DELETE orderedDb "F" "a").2.
Proof.
  apply (proj2 (proj2 (proj2 (field_ids_stay_unique orderedDb "F" orderedDb_wellFormed)))).
Defined.
